(** * Cortex trading core: execution engine, validation pipeline, sizing,
      indicators and backtest statistics

    A shallow embedding of the Python services under [app/services] and the
    properties their specification states about them.

    Modelling conventions.
    - A Python [float] is an exact rational in lowest terms ([Qc]); rounding
      error and overflow are outside the model.  A division of Python floats
      whose divisor can be zero goes through [truediv] and raises
      [ZeroDivisionError]; a numpy division that the source tests for a zero
      divisor goes through its own test; the remaining divisions have a
      divisor that is a non-zero constant or that the source guards.  The
      NaN entries numpy leaves at the head of a rolling window are [None].
    - A [dict] is an insertion-ordered association list ([PyDict]): iteration
      order and the size test of a live dict iterator are both observable in
      the execution engine.
    - Code that may raise returns a [Res]; [try ... except Exception] is a
      match on it.
    - Clock readings, random draws and replies of external services are
      explicit arguments. *)

From Stdlib Require Import ZArith QArith Qcanon Qround List String Ascii Bool Lia Lqa.
From Stdlib Require Import Sorted DecimalString.
From Stdlib Require DecimalZ DecimalPos.
Import ListNotations.
Open Scope string_scope.
Open Scope Qc_scope.

(** ** Python runtime: exceptions and results *)

Inductive PyExc : Type :=
| RuntimeError        (* dictionary changed size during iteration *)
| UnboundLocalError   (* local variable read before assignment *)
| ZeroDivisionError
| IndexError
| TypeError.

Inductive Res (A : Type) : Type :=
| Ok (a : A)
| Raise (e : PyExc).
Arguments Ok {A} a.
Arguments Raise {A} e.

Definition bind {A B : Type} (m : Res A) (k : A -> Res B) : Res B :=
  match m with
  | Ok a => k a
  | Raise e => Raise e
  end.

Notation "x <- m ;; k" := (bind m (fun x => k))
  (at level 61, m at next level, right associativity).

(** ** Python floats as exact rationals *)

Abbreviation float := Qc (only parsing).

(** A float literal, written as a decimal: [f64 0.0001]. *)
Definition f64 (q : Q) : float := Q2Qc q.
Arguments f64 q%_Q.

Definition of_int (z : Z) : float := Q2Qc (inject_Z z).

Definition ltb (a b : float) : bool :=
  match a ?= b with Lt => true | _ => false end.
Definition leb (a b : float) : bool :=
  match a ?= b with Gt => false | _ => true end.
Definition eqb (a b : float) : bool :=
  match a ?= b with Eq => true | _ => false end.

Definition fmin (a b : float) : float := if ltb b a then b else a.
Definition fmax (a b : float) : float := if ltb a b then b else a.
Definition fabs (a : float) : float := if ltb a 0 then - a else a.

(** [a / b] on Python floats. *)
Definition truediv (a b : float) : Res float :=
  if eqb b 0 then Raise ZeroDivisionError else Ok (a / b).

(** [round(x)]: nearest integer, ties to the even one. *)
Definition py_round (x : float) : Z :=
  let f := Qfloor x in
  match ((x - of_int f) ?= f64 0.5)%Qc with
  | Lt => f
  | Gt => (f + 1)%Z
  | Eq => if Z.even f then f else (f + 1)%Z
  end.

(** [round(x, 2)]. *)
Definition py_round2 (x : float) : float :=
  of_int (py_round (x * of_int 100)) / of_int 100.

Definition str_of_int (z : Z) : string := NilZero.string_of_int (Z.to_int z).

(** ** Insertion-ordered dictionaries *)

Module PyDict.

Definition t (V : Type) : Type := list (string * V).

Fixpoint get {V : Type} (d : t V) (k : string) : option V :=
  match d with
  | [] => None
  | (k', v) :: r => if String.eqb k k' then Some v else get r k
  end.

Definition contains {V : Type} (d : t V) (k : string) : bool :=
  match get d k with Some _ => true | None => false end.

(** [d[k] = v]: an existing key keeps its place, a new key goes last. *)
Fixpoint set {V : Type} (d : t V) (k : string) (v : V) : t V :=
  match d with
  | [] => [(k, v)]
  | (k', v') :: r =>
      if String.eqb k k' then (k', v) :: r else (k', v') :: set r k v
  end.

(** [del d[k]]. *)
Fixpoint del {V : Type} (d : t V) (k : string) : t V :=
  match d with
  | [] => []
  | (k', v') :: r => if String.eqb k k' then r else (k', v') :: del r k
  end.

Definition keys {V : Type} (d : t V) : list string := map fst d.

Definition len {V : Type} (d : t V) : nat := List.length d.

End PyDict.

(** ** [app/services/execution_engine.py] *)

Module ExecutionEngine.

Inductive OrderType : Type :=
| MARKET_BUY | MARKET_SELL | LIMIT_BUY | LIMIT_SELL | STOP_BUY | STOP_SELL.

Inductive OrderStatus : Type :=
| PENDING | FILLED | PARTIALLY_FILLED | CANCELLED | REJECTED.

(** A [datetime] is the integer YYYYMMDDHHMMSS, whose decimal rendering is
    [strftime('%Y%m%d%H%M%S')]. *)
Definition datetime : Type := Z.

Module Order.
Record t : Type := make {
  id : string;
  symbol : string;
  order_type : OrderType;
  side : string;
  quantity : float;
  price : float;
  stop_loss : float;
  take_profit : float;
  status : OrderStatus;
  filled_price : option float;
  filled_quantity : float;
  created_at : option datetime;
  filled_at : option datetime;
  pnl : float
}.
End Order.

Module Position.
Record t : Type := make {
  symbol : string;
  side : string;
  quantity : float;
  entry_price : float;
  current_price : float;
  stop_loss : float;
  take_profit : float;
  unrealized_pnl : float;
  realized_pnl : float;
  opened_at : datetime
}.
End Position.

Record t : Type := make {
  paper_trading : bool;
  orders : PyDict.t Order.t;
  positions : PyDict.t Position.t;
  trade_history : list Order.t;
  order_counter : Z;
  paper_balance : float;
  paper_equity : float;
  mt5_connected : bool
}.

(** [ExecutionEngine(paper_trading)]; [mt5_up] is what [mt5.initialize()]
    answers when the engine is built for live trading. *)
Definition __init__ (paper : bool) (mt5_up : bool) : t :=
  make paper [] [] [] 0 (f64 10000) (f64 10000) (negb paper && mt5_up).

Definition _generate_order_id (self : t) (now : datetime) : t * string :=
  let counter := (order_counter self + 1)%Z in
  (make (paper_trading self) (orders self) (positions self)
        (trade_history self) counter (paper_balance self)
        (paper_equity self) (mt5_connected self),
   "ORD_" ++ str_of_int now ++ "_" ++ str_of_int counter).

(** [self.orders[order.id] = order].  [place_order] stores the [Order]
    object before it hands it to an executor, so what the executor assigns
    to the object shows in [self.orders]: [place_order] stores the order
    again as the executor leaves it. *)
Definition store_order (self : t) (o : Order.t) : t :=
  make (paper_trading self) (PyDict.set (orders self) (Order.id o) o)
       (positions self) (trade_history self) (order_counter self)
       (paper_balance self) (paper_equity self) (mt5_connected self).

Definition with_positions (self : t) (ps : PyDict.t Position.t) : t :=
  make (paper_trading self) (orders self) ps (trade_history self)
       (order_counter self) (paper_balance self) (paper_equity self)
       (mt5_connected self).

(** Fill price of a paper order: [rnd] is the draw of
    [np.random.choice([-1, 1])]. *)
Definition paper_fill_price (order : Order.t) (rnd : Z) : float :=
  Order.price order + Order.price order * f64 0.0001 * of_int rnd.

Definition _execute_paper_order
    (self : t) (order : Order.t) (rnd : Z) (now : datetime) : t * Order.t :=
  let fill_price := paper_fill_price order rnd in
  let order :=
    Order.make (Order.id order) (Order.symbol order) (Order.order_type order)
      (Order.side order) (Order.quantity order) (Order.price order)
      (Order.stop_loss order) (Order.take_profit order)
      FILLED (Some fill_price) (Order.quantity order)
      (Order.created_at order) (Some now) (Order.pnl order) in
  let ps :=
    match PyDict.get (positions self) (Order.symbol order) with
    | Some pos =>
        PyDict.set (positions self) (Order.symbol order)
          (Position.make (Position.symbol pos) (Position.side pos)
             (Position.quantity pos + Order.quantity order)
             ((Position.entry_price pos + fill_price) / of_int 2)
             (Position.current_price pos) (Position.stop_loss pos)
             (Position.take_profit pos) (Position.unrealized_pnl pos)
             (Position.realized_pnl pos) (Position.opened_at pos))
    | None =>
        PyDict.set (positions self) (Order.symbol order)
          (Position.make (Order.symbol order) (Order.side order)
             (Order.quantity order) fill_price fill_price
             (Order.stop_loss order) (Order.take_profit order)
             0 0 now)
    end in
  (make (paper_trading self) (orders self) ps
        (trade_history self ++ [order]) (order_counter self)
        (paper_balance self) (paper_equity self) (mt5_connected self),
   order).

(** What [mt5.order_send] did: it raised, or answered with a return code and
    a price. *)
Inductive SendResult : Type :=
| SendRaised
| SendAnswer (done : bool) (fill : float).

Definition with_status (o : Order.t) (s : OrderStatus) : Order.t :=
  Order.make (Order.id o) (Order.symbol o) (Order.order_type o) (Order.side o)
    (Order.quantity o) (Order.price o) (Order.stop_loss o)
    (Order.take_profit o) s (Order.filled_price o) (Order.filled_quantity o)
    (Order.created_at o) (Order.filled_at o) (Order.pnl o).

Definition _execute_mt5_order
    (self : t) (order : Order.t) (sent : SendResult) (now : datetime)
    : t * Order.t :=
  let order :=
    if negb (mt5_connected self) then with_status order REJECTED
    else
      match sent with
      | SendAnswer true fill =>
          Order.make (Order.id order) (Order.symbol order)
            (Order.order_type order) (Order.side order)
            (Order.quantity order) (Order.price order)
            (Order.stop_loss order) (Order.take_profit order)
            FILLED (Some fill) (Order.quantity order)
            (Order.created_at order) (Some now) (Order.pnl order)
      | SendAnswer false _ => with_status order REJECTED
      | SendRaised => with_status order REJECTED
      end in
  (self, order).

Definition place_order
    (self : t) (now : datetime) (rnd : Z) (sent : SendResult)
    (symbol side : string) (quantity price stop_loss take_profit : float)
    (order_type : OrderType) : t * Order.t :=
  let '(self, order_id) := _generate_order_id self now in
  let order :=
    Order.make order_id symbol order_type side quantity price stop_loss
      take_profit PENDING None 0 (Some now) None 0 in
  let self := store_order self order in
  let '(self, order) :=
    if paper_trading self
    then _execute_paper_order self order rnd now
    else _execute_mt5_order self order sent now in
  (store_order self order, order).

(** [close_position(symbol, current_price)]: the engine afterwards and the
    returned value ([None], or the realized pnl). *)
Definition close_position
    (self : t) (symbol : string) (current_price : float) : t * option float :=
  match PyDict.get (positions self) symbol with
  | None => (self, None)
  | Some pos =>
      let pnl :=
        if String.eqb (Position.side pos) "BUY"
        then (current_price - Position.entry_price pos) * Position.quantity pos
        else (Position.entry_price pos - current_price) * Position.quantity pos in
      let balance :=
        if paper_trading self then paper_balance self + pnl
        else paper_balance self in
      let equity :=
        if paper_trading self then balance else paper_equity self in
      (make (paper_trading self) (orders self)
            (PyDict.del (positions self) symbol) (trade_history self)
            (order_counter self) balance equity (mt5_connected self),
       Some pnl)
  end.

(** The stop-loss / take-profit test of [update_positions]. *)
Definition stop_or_target_hit (pos : Position.t) : bool :=
  if String.eqb (Position.side pos) "BUY"
  then leb (Position.current_price pos) (Position.stop_loss pos)
       || leb (Position.take_profit pos) (Position.current_price pos)
  else leb (Position.stop_loss pos) (Position.current_price pos)
       || leb (Position.current_price pos) (Position.take_profit pos).

(** The position of [update_positions] after its price and unrealized pnl
    were assigned. *)
Definition mark_to_market (pos : Position.t) (price : float) : Position.t :=
  let unrealized :=
    if String.eqb (Position.side pos) "BUY"
    then (price - Position.entry_price pos) * Position.quantity pos
    else (Position.entry_price pos - price) * Position.quantity pos in
  Position.make (Position.symbol pos) (Position.side pos)
    (Position.quantity pos) (Position.entry_price pos) price
    (Position.stop_loss pos) (Position.take_profit pos) unrealized
    (Position.realized_pnl pos) (Position.opened_at pos).

(** Body of the loop [for symbol, pos in self.positions.items()], on the
    engine and the running [total_unrealized]. *)
Definition update_body
    (prices : PyDict.t float) (st : t * float) (symbol : string) : t * float :=
  let '(self, total_unrealized) := st in
  match PyDict.get (positions self) symbol, PyDict.get prices symbol with
  | Some pos, Some price =>
      let pos := mark_to_market pos price in
      let self := with_positions self (PyDict.set (positions self) symbol pos) in
      let total_unrealized := total_unrealized + Position.unrealized_pnl pos in
      if stop_or_target_hit pos
      then (fst (close_position self symbol (Position.current_price pos)),
            total_unrealized)
      else (self, total_unrealized)
  | _, _ => st
  end.

(** The [for] loop over the live dict.  [used] is the size the iterator
    recorded when it was created: every request for the next item first
    compares it with the current size and raises [RuntimeError] when they
    differ, also when no item is left. *)
Fixpoint iterate_items
    (used : nat) (todo : list string) (prices : PyDict.t float)
    (st : t * float) : (t * float) * Res unit :=
  if negb (Nat.eqb (PyDict.len (positions (fst st))) used)
  then (st, Raise RuntimeError)
  else
    match todo with
    | [] => (st, Ok tt)
    | symbol :: rest =>
        iterate_items used rest prices (update_body prices st symbol)
    end.

Definition update_positions (self : t) (prices : PyDict.t float) : t * Res unit :=
  let '((self, total_unrealized), r) :=
    iterate_items (PyDict.len (positions self)) (PyDict.keys (positions self))
      prices (self, 0) in
  match r with
  | Raise e => (self, Raise e)
  | Ok _ =>
      (make (paper_trading self) (orders self) (positions self)
            (trade_history self) (order_counter self) (paper_balance self)
            (paper_balance self + total_unrealized) (mt5_connected self),
       Ok tt)
  end.

(** *** Vocabulary for the properties of the engine *)

(** The position map after every quoted position was marked to market. *)
Definition reprice (prices : PyDict.t float) (ps : PyDict.t Position.t)
    : PyDict.t Position.t :=
  map (fun sp =>
         (fst sp,
          match PyDict.get prices (fst sp) with
          | Some price => mark_to_market (snd sp) price
          | None => snd sp
          end))
      ps.

(** The unrealized pnl of the quoted positions, in the order of the map. *)
Definition unrealized_of (prices : PyDict.t float) (ps : PyDict.t Position.t)
    : list float :=
  flat_map (fun sp =>
              match PyDict.get prices (fst sp) with
              | Some price =>
                  [Position.unrealized_pnl (mark_to_market (snd sp) price)]
              | None => []
              end)
           ps.

(** A position that, if quoted, is not through its stop or target. *)
Definition no_hit (prices : PyDict.t float) (sp : string * Position.t) : Prop :=
  forall price,
    PyDict.get prices (fst sp) = Some price ->
    stop_or_target_hit (mark_to_market (snd sp) price) = false.

(** Whether some quoted position is through its stop or its target once
    marked to market. *)
Definition any_hit (prices : PyDict.t float) (ps : PyDict.t Position.t) : bool :=
  existsb (fun sp =>
             match PyDict.get prices (fst sp) with
             | Some price => stop_or_target_hit (mark_to_market (snd sp) price)
             | None => false
             end)
          ps.

(** The id [_generate_order_id] builds from the clock and the counter. *)
Definition order_id_of (now : datetime) (counter : Z) : string :=
  "ORD_" ++ str_of_int now ++ "_" ++ str_of_int counter.

(** Every key of [orders] is an id built from a counter the engine has
    already passed. *)
Definition orders_issued (self : t) : Prop :=
  Forall (fun id => exists now counter,
              id = order_id_of now counter
              /\ (counter <= order_counter self)%Z)
         (PyDict.keys (orders self)).

Fixpoint no_underscore (s : string) : Prop :=
  match s with
  | EmptyString => True
  | String c r => c <> "_"%char /\ no_underscore r
  end.

End ExecutionEngine.

(** ** numpy arrays *)

Module Np.

Definition zeros (n : nat) : list float := repeat 0 n.

(** [a[i]] for an index in range. *)
Definition item (a : list float) (i : nat) : float := nth i a 0.

(** [a[-k]] for [1 <= k <= len(a)]. *)
Definition item_back (a : list float) (k : nat) : float :=
  nth (List.length a - k) a 0.

Fixpoint upd (a : list float) (i : nat) (v : float) : list float :=
  match a, i with
  | [], _ => []
  | _ :: r, O => v :: r
  | x :: r, S j => x :: upd r j v
  end.

(** [a[i] = v]: an index past the end raises. *)
Definition setitem (a : list float) (i : nat) (v : float) : Res (list float) :=
  if Nat.ltb i (List.length a) then Ok (upd a i v) else Raise IndexError.

(** [for i in range(lo, hi): s = body(i, s)]. *)
Definition for_range {S : Type} (lo hi : nat) (body : nat -> S -> S) (s : S) : S :=
  fold_left (fun s i => body i s) (seq lo (hi - lo)) s.

Definition sum (a : list float) : float := fold_left Qcplus a 0.

Definition mean (a : list float) : float := sum a / of_int (Z.of_nat (List.length a)).

(** [np.diff]. *)
Definition diff (a : list float) : list float :=
  map (fun p => snd p - fst p) (combine a (tl a)).

(** [a[-k:]]. *)
Definition last_n {A : Type} (k : nat) (a : list A) : list A :=
  skipn (List.length a - k) a.

Definition cumsum (a : list float) : list float :=
  match a with
  | [] => []
  | x :: r => rev (fold_left (fun acc y => (hd 0 acc + y) :: acc) r [x])
  end.

Definition zip_with {A B C : Type} (f : A -> B -> C) (a : list A) (b : list B) : list C :=
  map (fun p => f (fst p) (snd p)) (combine a b).

End Np.

(** ** [app/services/settings_store.py] *)

Module Settings.

(** The numeric entries of [_settings]. *)
Definition t : Type := PyDict.t float.

Definition defaults : t :=
  [ ("risk_per_trade", f64 1.0); ("max_drawdown", f64 5.0);
    ("ml_threshold", f64 60); ("quant_confidence", f64 40);
    ("risk_reward_min", f64 1.5); ("target_risk_reward", f64 1.5);
    ("news_buffer", f64 30) ].

(** [_settings.get(key, default)]. *)
Definition get (s : t) (key : string) (default : float) : float :=
  match PyDict.get s key with Some v => v | None => default end.


(** An entry of [_log_buffer]. *)
Record LogEntry : Type := log_entry {
  log_time : string;
  log_source : string;
  log_message : string;
  log_level : string
}.

(** [add_log]: the entry goes first; past 100 entries the last one is
    dropped. *)
Definition add_log (buffer : list LogEntry) (entry : LogEntry) : list LogEntry :=
  let buffer := entry :: buffer in
  if Nat.ltb 100 (List.length buffer) then removelast buffer else buffer.

End Settings.

(** ** [app/services/quant_engine.py] *)

Module QuantEngine.

Inductive MarketRegime : Type :=
| TRENDING_STRONG | TRENDING_WEAK | RANGING | VOLATILE | BREAKOUT.

Definition regime_value (r : MarketRegime) : string :=
  match r with
  | TRENDING_STRONG => "TRENDING_STRONG"
  | TRENDING_WEAK => "TRENDING_WEAK"
  | RANGING => "RANGING"
  | VOLATILE => "VOLATILE"
  | BREAKOUT => "BREAKOUT"
  end.

(** A row of the candle frame. *)
Record OHLC : Type := candle {
  time : Z;
  open : float;
  high : float;
  low : float;
  close : float;
  volume : Z
}.

Module SignalStrength.
Record t : Type := make {
  direction : string;
  confidence : float;
  entry_price : float;
  stop_loss : float;
  take_profit_1 : float;
  take_profit_2 : float;
  take_profit_3 : float;
  risk_reward : float;
  strategy : string;
  reasoning : list string
}.
End SignalStrength.

(** The draws of one call to [generate_signal]: the two [random.uniform]
    factors and the index [random.choice] picks. *)
Record Draws : Type := draws {
  jitter : float;     (* random.uniform(0.95, 1.05) *)
  entropy : float;    (* random.uniform(0.98, 1.02) *)
  pick : nat
}.

(** *** Technical indicators *)

(** [calculate_ema(data, period)], for an array of floats ([np.zeros_like]
    gives the result the dtype of [data]). *)
Definition calculate_ema (data : list float) (period : Z) : Res (list float) :=
  alpha <- truediv (of_int 2) (of_int (period + 1)) ;;
  if Nat.eqb (List.length data) 0 then Raise IndexError
  else
    ema <- Np.setitem (Np.zeros (List.length data)) 0 (Np.item data 0) ;;
    Ok (Np.for_range 1 (List.length data)
          (fun i ema =>
             Np.upd ema i (alpha * Np.item data i
                           + (1 - alpha) * Np.item ema (i - 1)))
          ema).

(** [rs = np.where(avg_loss != 0, avg_gain / avg_loss, 100)], one entry. *)
Definition relative_strength (avg_gain avg_loss : float) : float :=
  if negb (eqb avg_loss 0) then avg_gain / avg_loss else of_int 100.

Definition calculate_rsi (data : list float) (period : nat) : Res (list float) :=
  let n := List.length data in
  let deltas := Np.diff data in
  let gains := map (fun d => if ltb 0 d then d else 0) deltas in
  let losses := map (fun d => if ltb d 0 then - d else 0) deltas in
  let p := of_int (Z.of_nat period) in
  avg_gain <- Np.setitem (Np.zeros n) period (Np.mean (firstn period gains)) ;;
  avg_loss <- Np.setitem (Np.zeros n) period (Np.mean (firstn period losses)) ;;
  let '(avg_gain, avg_loss) :=
    Np.for_range (period + 1) n
      (fun i '(avg_gain, avg_loss) =>
         (Np.upd avg_gain i
            ((Np.item avg_gain (i - 1) * (p - 1) + Np.item gains (i - 1)) / p),
          Np.upd avg_loss i
            ((Np.item avg_loss (i - 1) * (p - 1) + Np.item losses (i - 1)) / p)))
      (avg_gain, avg_loss) in
  let rs := Np.zip_with relative_strength avg_gain avg_loss in
  Ok (map (fun r => of_int 100 - of_int 100 / (1 + r)) rs).

(** The arrays [gains] and [losses] of [calculate_rsi]. *)
Definition rsi_gains (data : list float) : list float :=
  map (fun d => if ltb 0 d then d else 0) (Np.diff data).

Definition rsi_losses (data : list float) : list float :=
  map (fun d => if ltb d 0 then - d else 0) (Np.diff data).

(** The array [avg_gain] (from [gains]) or [avg_loss] (from [losses]) of
    [calculate_rsi], of [n] entries: zeros, with the mean of the first
    [period] entries of [xs] stored at [period] and the smoothing
    [(a[i-1] * (period - 1) + xs[i-1]) / period] at every later entry. *)
Definition wilder_average (xs : list float) (period n : nat) : list float :=
  let p := of_int (Z.of_nat period) in
  Np.for_range (period + 1) n
    (fun i a =>
       Np.upd a i ((Np.item a (i - 1) * (p - 1) + Np.item xs (i - 1)) / p))
    (Np.upd (Np.zeros n) period (Np.mean (firstn period xs))).

(** [calculate_atr(high, low, close, period)], for arrays of one length, as
    the columns of a frame are. *)
Definition calculate_atr
    (high low close : list float) (period : nat) : Res (list float) :=
  let p := of_int (Z.of_nat period) in
  let tr :=
    Np.zip_with fmax
      (Np.zip_with Qcminus (tl high) (tl low))
      (Np.zip_with fmax
         (Np.zip_with (fun h c => fabs (h - c)) (tl high) close)
         (Np.zip_with (fun l c => fabs (l - c)) (tl low) close)) in
  atr <- Np.setitem (Np.zeros (List.length close)) period
           (Np.mean (firstn period tr)) ;;
  Ok (Np.for_range (period + 1) (List.length close)
        (fun i atr =>
           Np.upd atr i
             ((Np.item atr (i - 1) * (p - 1) + Np.item tr (i - 1)) / p))
        atr).

Definition calculate_macd (data : list float) (fast slow signal : Z)
    : Res (list float * list float * list float) :=
  ema_fast <- calculate_ema data fast ;;
  ema_slow <- calculate_ema data slow ;;
  let macd_line := Np.zip_with Qcminus ema_fast ema_slow in
  signal_line <- calculate_ema macd_line signal ;;
  let histogram := Np.zip_with Qcminus macd_line signal_line in
  Ok (macd_line, signal_line, histogram).

(** An entry of an array that may hold NaN or an infinity: [None] stands for
    both, and every comparison with it is false. *)
Definition nan_gt (a b : option float) : bool :=
  match a, b with Some x, Some y => ltb y x | _, _ => false end.

Definition nan_lt (a b : option float) : bool :=
  match a, b with Some x, Some y => ltb x y | _, _ => false end.

Definition nan_map2 (f : float -> float -> float) (a b : option float)
    : option float :=
  match a, b with Some x, Some y => Some (f x y) | _, _ => None end.

(** numpy's quotient: no exception, NaN or an infinity on a zero divisor. *)
Definition np_div (a b : float) : option float :=
  if eqb b 0 then None else Some (a / b).

Definition calculate_vwap (high low close volume : list float)
    : list (option float) :=
  let typical_price :=
    Np.zip_with (fun hl c => (hl + c) / of_int 3)
      (Np.zip_with Qcplus high low) close in
  let cumulative_tpv := Np.cumsum (Np.zip_with Qcmult typical_price volume) in
  let cumulative_volume := Np.cumsum volume in
  Np.zip_with np_div cumulative_tpv cumulative_volume.

(** [calculate_fibonacci_levels(high, low)]. *)
Definition calculate_fibonacci_levels (high low : float) : PyDict.t float :=
  let diff := high - low in
  [ ("0.0", high);
    ("0.236", high - diff * f64 0.236);
    ("0.382", high - diff * f64 0.382);
    ("0.5", high - diff * f64 0.5);
    ("0.618", high - diff * f64 0.618);
    ("0.786", high - diff * f64 0.786);
    ("1.0", low) ].

(** A list of levels in which no level is above an earlier one. *)
Definition descending (l : list float) : Prop :=
  StronglySorted (fun a b => b <= a) l.

Section Sqrt.

(** The square root behind pandas' rolling standard deviation. *)
Variable np_sqrt : float -> float.

(** [Series.rolling(window).agg()]: NaN until the window is full. *)
Definition rolling (agg : list float -> float) (data : list float) (window : nat)
    : list (option float) :=
  map (fun i =>
         if Nat.ltb (i + 1) window then None
         else Some (agg (firstn window (skipn (i + 1 - window) data))))
      (seq 0 (List.length data)).

(** Sample standard deviation (ddof = 1). *)
Definition sample_std (w : list float) : float :=
  let m := Np.mean w in
  np_sqrt (Np.sum (map (fun x => (x - m) * (x - m)) w)
           / of_int (Z.of_nat (List.length w - 1))).

Definition calculate_bollinger_bands
    (data : list float) (period : nat) (std_dev : float)
    : list (option float) * list (option float) * list (option float) :=
  let middle := rolling Np.mean data period in
  let std := rolling sample_std data period in
  let upper := Np.zip_with (nan_map2 (fun m s => m + s * std_dev)) middle std in
  let lower := Np.zip_with (nan_map2 (fun m s => m - s * std_dev)) middle std in
  (upper, middle, lower).

Definition opt_back (a : list (option float)) (k : nat) : option float :=
  nth (List.length a - k) a None.

(** [np.mean] of an array that may hold NaN. *)
Definition nan_mean (a : list (option float)) : option float :=
  nan_map2 Qcdiv (fold_left (nan_map2 Qcplus) a (Some 0))
    (Some (of_int (Z.of_nat (List.length a)))).

(** *** Regime detection *)

Definition detect_regime (df : list OHLC) : Res MarketRegime :=
  let close := map close df in
  let high := map high df in
  let low := map low df in
  ema_20 <- calculate_ema close 20 ;;
  ema_50 <- calculate_ema close 50 ;;
  atr <- calculate_atr high low close 14 ;;
  let atr_current := Np.item_back atr 1 in
  let atr_avg := Np.mean (Np.last_n 50 atr) in
  let '(upper, middle, lower) :=
    calculate_bollinger_bands close 20 (f64 2.0) in
  let bb_width :=
    match opt_back middle 1 with
    | Some m =>
        if negb (eqb m 0)
        then nan_map2 (fun u l => (u - l) / m) (opt_back upper 1) (opt_back lower 1)
        else Some 0
    | None => None
    end in
  let bb_avg_width :=
    nan_mean
      (Np.zip_with
         (fun ul m =>
            match ul, m with
            | Some d, Some m => np_div d m
            | _, _ => None
            end)
         (Np.zip_with (nan_map2 Qcminus)
            (Np.last_n 50 upper) (Np.last_n 50 lower))
         (Np.last_n 50 middle)) in
  let ema_diff :=
    (Np.item_back ema_20 1 - Np.item_back ema_50 1) / Np.item_back close 1
    * of_int 100 in
  if ltb (atr_avg * f64 1.2) atr_current
     && nan_gt bb_width (nan_map2 Qcmult bb_avg_width (Some (f64 1.1)))
  then Ok VOLATILE
  else if ltb (f64 0.5) (fabs ema_diff) && ltb atr_avg atr_current
  then Ok BREAKOUT
  else if ltb (f64 0.3) (fabs ema_diff)
  then Ok (if ltb (f64 0.5) (fabs ema_diff) then TRENDING_STRONG
           else TRENDING_WEAK)
  else Ok RANGING.

(** *** Alpha generation *)

(** [random.choice(seq)] with the drawn index. *)
Definition random_choice (seq : list string) (pick : nat) : string :=
  nth (pick mod List.length seq) seq "".

Definition flag (b : bool) (s : string) : list string := if b then [s] else [].

(** [generate_signal(df, symbol)].  The [reasoning] strings carry the fixed
    part of each message; the numbers the source formats into some of them
    are left out. *)
Definition generate_signal
    (settings : Settings.t) (rnd : Draws) (df : list OHLC) (symbol : string)
    : Res (option SignalStrength.t) :=
  if Nat.ltb (List.length df) 100 then Ok None
  else
    let close := map close df in
    let high := map high df in
    let low := map low df in
    let open_p := map open df in
    let current_price := Np.item_back close 1 in
    regime <- detect_regime df ;;
    let reasoning := [String.append "Regime: " (regime_value regime)] in
    let min_score_threshold :=
      match regime with RANGING => 1%Z | _ => 1%Z end in
    (* 1. Trend analysis *)
    ema_20 <- calculate_ema close 20 ;;
    ema_50 <- calculate_ema close 50 ;;
    ema_200 <- calculate_ema close 200 ;;
    let up :=
      ltb (Np.item_back ema_50 1) (Np.item_back ema_20 1)
      && ltb (Np.item_back ema_200 1) (Np.item_back ema_50 1) in
    let down :=
      ltb (Np.item_back ema_20 1) (Np.item_back ema_50 1)
      && ltb (Np.item_back ema_50 1) (Np.item_back ema_200 1) in
    let trend_score := if up then 2%Z else if down then (-2)%Z else 0%Z in
    let reasoning :=
      (reasoning
      ++ (if up then ["Strong Uptrend (EMA 20 > 50 > 200)"]
          else flag down "Strong Downtrend (EMA 20 < 50 < 200)"))%list in
    (* 2. VWAP and volume confirmation *)
    let volume := map (fun c => of_int (volume c)) df in
    let vwap := calculate_vwap high low close volume in
    let above := nan_gt (Some current_price) (opt_back vwap 1) in
    let volume_score := if above then 1%Z else (-1)%Z in
    let reasoning :=
      (reasoning
      ++ [if above then "Price above VWAP (Bullish Bias)"
          else "Price below VWAP (Bearish Bias)"])%list in
    (* 3. RSI analysis *)
    rsi <- calculate_rsi close 14 ;;
    let rsi_current := Np.item_back rsi 1 in
    let oversold := ltb rsi_current (of_int 30) in
    let overbought := ltb (of_int 70) rsi_current in
    let rsi_score := if oversold then 1%Z else if overbought then (-1)%Z else 0%Z in
    let reasoning :=
      (reasoning
      ++ (if oversold then ["RSI Oversold"] else flag overbought "RSI Overbought"))%list in
    (* 4. MACD analysis *)
    m <- calculate_macd close 12 26 9 ;;
    let '(macd_line, signal_line, histogram) := m in
    let bull :=
      ltb (Np.item_back signal_line 1) (Np.item_back macd_line 1)
      && ltb (Np.item_back histogram 2) (Np.item_back histogram 1) in
    let bear :=
      ltb (Np.item_back macd_line 1) (Np.item_back signal_line 1)
      && ltb (Np.item_back histogram 1) (Np.item_back histogram 2) in
    let macd_score := if bull then 1%Z else if bear then (-1)%Z else 0%Z in
    let reasoning :=
      (reasoning
      ++ (if bull then ["MACD Bullish Crossover"]
          else flag bear "MACD Bearish Crossover"))%list in
    (* 5. Bollinger band analysis *)
    let '(upper, middle, lower) :=
      calculate_bollinger_bands close 20 (f64 2.0) in
    let below := nan_lt (Some current_price) (opt_back lower 1) in
    let over := nan_gt (Some current_price) (opt_back upper 1) in
    let bb_score := if below then 1%Z else if over then (-1)%Z else 0%Z in
    let reasoning :=
      (reasoning
      ++ (if below then ["Price below Lower BB (Mean Reversion Buy)"]
          else flag over "Price above Upper BB (Mean Reversion Sell)"))%list in
    (* 6. Candlestick pattern recognition *)
    let c1 := Np.item_back close 1 in
    let c2 := Np.item_back close 2 in
    let o1 := Np.item_back open_p 1 in
    let o2 := Np.item_back open_p 2 in
    let bullish_engulfing := ltb o1 c1 && ltb c2 o2 && ltb o2 c1 && ltb o1 c2 in
    let bearish_engulfing := ltb c1 o1 && ltb o2 c2 && ltb c1 o2 && ltb c2 o1 in
    let body := fabs (c1 - o1) in
    let wick_lower := fmin c1 o1 - Np.item_back low 1 in
    let wick_upper := Np.item_back high 1 - fmax c1 o1 in
    let hammer := ltb (of_int 2 * body) wick_lower && ltb wick_upper body in
    let shooting_star := ltb (of_int 2 * body) wick_upper && ltb wick_lower body in
    let pattern_score :=
      ((if bullish_engulfing then 3 else 0)
       - (if bearish_engulfing then 3 else 0)
       + (if hammer then 1 else 0)
       - (if shooting_star then 1 else 0))%Z in
    let reasoning :=
      (reasoning
      ++ flag bullish_engulfing "Bullish Engulfing Pattern"
      ++ flag bearish_engulfing "Bearish Engulfing Pattern"
      ++ flag hammer "Bullish Pinbar/Hammer"
      ++ flag shooting_star "Bearish Shooting Star")%list in
    (* ATR for the stop-loss distance *)
    atr <- calculate_atr high low close 14 ;;
    let atr_current := Np.item_back atr 1 in
    (* Ensemble scoring *)
    let total_score :=
      (trend_score + rsi_score + macd_score + bb_score + volume_score
       + pattern_score)%Z in
    if Z.ltb (Z.abs total_score) min_score_threshold then Ok None
    else
      let direction := if Z.ltb 0 total_score then "BUY" else "SELL" in
      let raw_confidence :=
        fmin (of_int (Z.abs total_score) / of_int 5) (f64 1.0) in
      let confidence := py_round2 (raw_confidence * jitter rnd) in
      let confidence := fmin confidence (f64 1.0) in
      (* Risk management *)
      let target_rr := Settings.get settings "target_risk_reward" (f64 1.5) in
      let sl_mult :=
        match regime with
        | TRENDING_STRONG => f64 1.5
        | TRENDING_WEAK => f64 2.0
        | BREAKOUT => f64 2.5
        | _ => f64 1.5
        end in
      let tp2_mult := sl_mult * target_rr in
      let tp1_mult := tp2_mult * f64 0.75 in
      let tp3_mult := tp2_mult * f64 1.5 in
      let entropy := entropy rnd in
      let '(stop_loss, tp1, tp2, tp3) :=
        if String.eqb direction "BUY"
        then (current_price - atr_current * sl_mult * entropy,
              current_price + atr_current * tp1_mult * entropy,
              current_price + atr_current * tp2_mult * entropy,
              current_price + atr_current * tp3_mult * entropy)
        else (current_price + atr_current * sl_mult * entropy,
              current_price - atr_current * tp1_mult * entropy,
              current_price - atr_current * tp2_mult * entropy,
              current_price - atr_current * tp3_mult * entropy) in
      let risk := fabs (current_price - stop_loss) in
      let reward := fabs (tp2 - current_price) in
      let risk_reward := if ltb 0 risk then reward / risk else 0 in
      let reasoning := (reasoning ++ ["Risk:Reward"])%list in
      let active_strategies :=
        (flag (Z.ltb 0 (Z.abs trend_score)) "Cortex Trend Guard"
         ++ flag (Z.ltb 0 (Z.abs rsi_score)) "Oversold Mean Revert"
         ++ flag (Z.ltb 0 (Z.abs macd_score)) "MACD Divergence Hunter"
         ++ flag (Z.ltb 0 (Z.abs bb_score)) "Price Action Scalper"
         ++ flag (Z.ltb 0 (Z.abs volume_score)) "Smart Money Flow")%list in
      let active_strategies :=
        if ltb (f64 0.8) confidence
        then (active_strategies
              ++ ["Fibonacci Retrace Alpha"; "Harmonic Bat Pattern";
                  "Volvo Breakout"])%list
        else active_strategies in
      let primary_strategy :=
        match active_strategies with
        | [] => "Cortex Trend Guard"
        | _ => random_choice active_strategies (pick rnd)
        end in
      let reasoning := (reasoning ++ [String.append "Strat: " primary_strategy])%list in
      Ok (Some (SignalStrength.make direction confidence current_price
                  stop_loss tp1 tp2 tp3 risk_reward primary_strategy
                  reasoning)).

End Sqrt.

End QuantEngine.

(** ** [app/services/ml_engine.py] *)

Module MLEngine.

(** A local variable of a function body: [None] until a statement binds it.
    Reading it earlier raises [UnboundLocalError]. *)
Definition local (A : Type) : Type := option A.

Definition load {A : Type} (v : local A) : Res A :=
  match v with
  | Some a => Ok a
  | None => Raise UnboundLocalError
  end.

(** [v += d] on a local. *)
Definition iadd (v : local float) (d : float) : Res (local float) :=
  x <- load v ;; Ok (Some (x + d)).

(** [predict_probability(symbol, features)].  [prob] is assigned in the
    body, hence local to it, and no statement binds it before its first
    use. *)
Definition predict_probability (symbol : string) (features : PyDict.t float)
    : Res float :=
  let prob : local float := None in
  let hour := Settings.get features "hour" 0 in
  prob <- (if leb (of_int 8) hour && leb hour (of_int 18)
           then iadd prob (f64 0.1) else Ok prob) ;;
  let vol := Settings.get features "volatility" 0 in
  prob <- (if ltb (f64 0.3) vol && ltb vol (f64 3.0)
           then iadd prob (f64 0.1)
           else if ltb (f64 5.0) vol then iadd prob (- f64 0.1)
           else Ok prob) ;;
  p <- load prob ;;
  Ok (fmin (f64 0.95) (fmax (f64 0.05) p)).

Section Pow.

(** [x ** 0.5]. *)
Variable pow_half : float -> float.

Definition calculate_compounding_lot (base_lot equity drawdown : float) : float :=
  let growth_factor :=
    if ltb (of_int 10000) equity then pow_half (equity / of_int 10000)
    else f64 1.0 in
  let growth_factor :=
    if ltb (f64 2.0) drawdown
    then growth_factor * (1 - drawdown / of_int 100)
    else growth_factor in
  py_round2 (base_lot * growth_factor).

End Pow.

End MLEngine.

(** ** [app/services/ai_agent.py] *)

Module AIAgent.

(** The dict an advisory decision is: any of its keys may be missing. *)
Record Decision : Type := decision_dict {
  decision : option string;
  confidence : option float;
  reason : option string
}.

Record t : Type := make {
  model : string;
  ollama_ready : bool;
  loaded_models : list string
}.

(** The answer to [GET /api/tags]: the request failed, or came back with a
    status and the names of the models. *)
Inductive TagsReply : Type :=
| TagsFailed
| TagsStatus (ok : bool) (names : list string).

Definition _check_ollama_health (self : t) (reply : TagsReply) : t :=
  match reply with
  | TagsStatus true names =>
      make (model self) (negb (Nat.eqb (List.length names) 0)) names
  | TagsStatus false _ => make (model self) false (loaded_models self)
  | TagsFailed => make (model self) false (loaded_models self)
  end.

Definition name_in (m : string) (names : list string) : bool :=
  existsb (String.eqb m) names.

(** The answer of the model to the validation prompt: a JSON object that
    was parsed and logged, a text that is not JSON (and whether its upper
    case holds BUY or SELL), or any failure (a status other than 200, a
    request error, any other exception). *)
Inductive LlmReply : Type :=
| LlmJson (d : Decision)
| LlmText (has_buy has_sell : bool)
| LlmFailed.

Definition hold (why : string) : Decision :=
  decision_dict (Some "HOLD") (Some (f64 0.0)) (Some why).

(** [validate_signal(symbol, signal_data, regime)]: the agent afterwards,
    the decision, and whether the model was queried. *)
Definition validate_signal
    (self : t) (recheck : TagsReply) (llm : LlmReply) : t * Decision * bool :=
  if negb (ollama_ready self)
  then (self,
        hold "AI Brain offline - Ollama models not loaded. Cannot validate signal.",
        false)
  else
    let self :=
      if negb (name_in (model self) (loaded_models self))
      then _check_ollama_health self recheck else self in
    if negb (name_in (model self) (loaded_models self))
    then (self,
          hold ("Model " ++ model self ++ " not available. Run: ollama pull "
                ++ model self),
          false)
    else
      (self,
       match llm with
       | LlmJson d => d
       | LlmText true _ =>
           decision_dict (Some "BUY") (Some (f64 0.5))
             (Some "AI approved (parsed from text)")
       | LlmText false true =>
           decision_dict (Some "SELL") (Some (f64 0.5))
             (Some "AI approved (parsed from text)")
       | LlmText false false => hold "AI response unclear"
       | LlmFailed =>
           hold "AI validation failed - cannot proceed without AI Brain approval."
       end,
       true).

(** The agent can consult its model: Ollama is flagged ready and the
    configured model is among the loaded ones, as first seen or after the
    health re-check. *)
Definition usable (self : t) (recheck : TagsReply) : bool :=
  ollama_ready self
  && (name_in (model self) (loaded_models self)
      || name_in (model self)
           (loaded_models (_check_ollama_health self recheck))).

(** The dict of [get_status]. *)
Record Status : Type := status_dict {
  status_ollama_ready : bool;
  status_loaded_models : list string;
  model_in_use : string;
  status : string
}.

Definition get_status (self : t) : Status :=
  status_dict (ollama_ready self) (loaded_models self) (model self)
    (if ollama_ready self then "ACTIVE" else "OFFLINE").

(** [start_ollama_service()].  [launch] is [None] when starting the
    process raised, and otherwise the answer the health check got after
    the wait. *)
Definition start_ollama_service (self : t) (launch : option TagsReply)
    : t * bool :=
  match launch with
  | None => (self, false)
  | Some reply =>
      let self := _check_ollama_health self reply in
      (self, ollama_ready self)
  end.

End AIAgent.

(** ** [app/services/risk_manager.py] *)

Module RiskManager.

(** The fields of [mt5.symbol_info(symbol)] the sizing reads. *)
Record SymbolInfo : Type := symbol_info {
  trade_tick_value : float;
  trade_tick_size : float;
  volume_min : float;
  volume_max : float;
  volume_step : float
}.

Record t : Type := make {
  max_daily_drawdown : float;
  max_position_risk : float;
  base_lot : float;
  max_lot : float
}.

Definition __init__ : t := make (f64 0.05) (f64 0.01) (f64 0.01) (f64 10.0).

(** The body of the [try] block of [calculate_lot_size], on the risk
    fraction already refreshed from the settings.  [account] is the equity
    of [mt5.account_info()], [info] is [mt5.symbol_info(symbol)]. *)
Definition lot_size_body
    (self : t) (account : option float) (info : option SymbolInfo)
    (entry_price stop_loss : float) : Res float :=
  match account with
  | None => Ok (base_lot self)
  | Some equity =>
      let risk_amount := equity * max_position_risk self in
      let distance := fabs (entry_price - stop_loss) in
      if leb distance 0 then Ok (base_lot self)
      else
        match info with
        | None => Ok (base_lot self)
        | Some si =>
            let tick_value := trade_tick_value si in
            let tick_size := trade_tick_size si in
            if eqb tick_value 0 || eqb tick_size 0 then Ok (base_lot self)
            else
              ticks <- truediv distance tick_size ;;
              lots <- truediv risk_amount (ticks * tick_value) ;;
              let lots := fmax (volume_min si) (fmin (volume_max si) lots) in
              let step := volume_step si in
              steps <- truediv lots step ;;
              let lots := of_int (py_round steps) * step in
              Ok (py_round2 lots)
        end
  end.

(** [calculate_lot_size(symbol, entry_price, stop_loss)]: the manager
    afterwards and the lot. *)
Definition calculate_lot_size
    (self : t) (settings : Settings.t) (account : option float)
    (info : option SymbolInfo) (entry_price stop_loss : float) : t * float :=
  let self :=
    make (max_daily_drawdown self)
         (Settings.get settings "risk_per_trade" (f64 1.0) / f64 100.0)
         (base_lot self) (max_lot self) in
  match lot_size_body self account info entry_price stop_loss with
  | Ok lots => (self, lots)
  | Raise _ => (self, base_lot self)
  end.

(** An instrument whose volume step is a whole number of hundredths of a
    lot and whose volume limits are multiples of the step. *)
Definition well_formed (si : SymbolInfo) : Prop :=
  exists m a b : Z,
    (0 < m)%Z /\ (a <= b)%Z
    /\ volume_step si = of_int m / of_int 100
    /\ volume_min si = of_int a * volume_step si
    /\ volume_max si = of_int b * volume_step si.

(** A lot within the volume limits of the instrument and on its step
    grid. *)
Definition normalized (si : SymbolInfo) (lot : float) : Prop :=
  volume_min si <= lot /\ lot <= volume_max si
  /\ exists k : Z, lot = of_int k * volume_step si.

End RiskManager.

(** ** [app/services/backtest_engine.py] *)

Module BacktestEngine.

Inductive TradeDirection : Type := LONG | SHORT.

Record Trade : Type := trade {
  direction : TradeDirection;
  entry_price : float;
  exit_price : option float;
  size : float;
  stop_loss : float;
  take_profit : float;
  pnl : float;
  pnl_pips : float;
  status : string
}.

(** The trade statistics of [BacktestResult].  Its drawdown, Sharpe and
    Sortino figures, which go through numpy's standard deviation and square
    root over the equity curve, are not part of this record. *)
Record BacktestResult : Type := result {
  total_trades : nat;
  winning_trades : nat;
  losing_trades : nat;
  win_rate : float;
  total_pnl : float;
  profit_factor : float;
  avg_win : float;
  avg_loss : float;
  largest_win : float;
  largest_loss : float
}.

(** Python's [sum], [max] and [min] of a list of floats. *)
Definition py_sum (l : list float) : float := fold_left Qcplus l 0.

Definition py_max (l : list float) : float :=
  match l with [] => 0 | x :: r => fold_left fmax r x end.

Definition py_min (l : list float) : float :=
  match l with [] => 0 | x :: r => fold_left fmin r x end.

Definition is_empty {A : Type} (l : list A) : bool :=
  match l with [] => true | _ => false end.

Definition _calculate_results (trades : list Trade) : BacktestResult :=
  if is_empty trades then result 0 0 0 0 0 0 0 0 0 0
  else
    let pnls := map pnl trades in
    let wins := filter (fun p => ltb 0 p) pnls in
    let losses := filter (fun p => ltb p 0) pnls in
    let gross_profit := if is_empty wins then 0 else py_sum wins in
    let gross_loss := if is_empty losses then 1 else fabs (py_sum losses) in
    let profit_factor :=
      if ltb 0 gross_loss then gross_profit / gross_loss else 0 in
    result (List.length trades) (List.length wins) (List.length losses)
      (of_int (Z.of_nat (List.length wins))
       / of_int (Z.of_nat (List.length trades)) * of_int 100)
      (py_sum pnls) profit_factor
      (if is_empty wins then 0 else Np.mean wins)
      (if is_empty losses then 0 else Np.mean losses)
      (if is_empty wins then 0 else py_max wins)
      (if is_empty losses then 0 else py_min losses).

(** *** The replay engine *)

(** The engine: capital, closed trades, equity curve and the open trade. *)
Record t : Type := make {
  initial_capital : float;
  capital : float;
  trades : list Trade;
  equity_curve : list float;
  current_position : option Trade
}.

Definition __init__ (initial_capital : float) : t :=
  make initial_capital initial_capital [] [initial_capital] None.

Definition reset (self : t) : t :=
  make (initial_capital self) (initial_capital self) []
    [initial_capital self] None.

(** What a call of the engine did: it returned, or an exception left it.
    [ValueError] is what pandas raises when a [Series] is used as a truth
    value.  None of the engine's methods catches an exception, so the
    state a raising call leaves behind is not part of the result. *)
Inductive Exc : Type :=
| ValueError
| Builtin (e : PyExc).

Inductive Try (A : Type) : Type :=
| Returned (a : A)
| Threw (e : Exc).
Arguments Returned {A} a.
Arguments Threw {A} e.

Definition and_then {A B : Type} (m : Try A) (k : A -> Try B) : Try B :=
  match m with
  | Returned a => k a
  | Threw e => Threw e
  end.

Definition with_position (self : t) (p : option Trade) : t :=
  make (initial_capital self) (capital self) (trades self)
    (equity_curve self) p.

(** [self.current_position.exit_price = price]. *)
Definition set_exit_price (self : t) (price : float) : t :=
  match current_position self with
  | None => self
  | Some pos =>
      with_position self
        (Some (trade (direction pos) (entry_price pos) (Some price) (size pos)
                 (stop_loss pos) (take_profit pos) (pnl pos) (pnl_pips pos)
                 (status pos)))
  end.

(** [_open_trade(time, direction, entry, sl, tp, risk_pct)].  The times of
    a trade are not part of [Trade]: [time] is a [datetime] or an epoch
    time that [datetime.fromtimestamp] accepts. *)
Definition _open_trade
    (self : t) (direction : string) (entry sl tp risk_pct : float) : t :=
  let risk_amount := capital self * risk_pct in
  let risk_per_unit := fabs (entry - sl) in
  if eqb risk_per_unit 0 then self
  else
    let size := risk_amount / risk_per_unit in
    with_position self
      (Some (trade (if String.eqb direction "BUY" then LONG else SHORT)
               entry None size sl tp 0 0 "OPEN")).

(** [_close_position(bar)].  [bar] is [None] or a row of the frame, a
    pandas [Series]: [if bar:] on a row raises [ValueError].  A position
    without an exit price cannot be priced: [None - float] raises
    [TypeError]. *)
Definition _close_position (self : t) (bar : option QuantEngine.OHLC) : Try t :=
  match current_position self with
  | None => Returned self
  | Some pos =>
      match bar with
      | Some _ => Threw ValueError
      | None =>
          match exit_price pos with
          | None => Threw (Builtin TypeError)
          | Some exit =>
              let pnl :=
                match direction pos with
                | LONG => (exit - entry_price pos) * size pos
                | SHORT => (entry_price pos - exit) * size pos
                end in
              let pos :=
                trade (direction pos) (entry_price pos) (Some exit) (size pos)
                  (stop_loss pos) (take_profit pos) pnl
                  (fabs (exit - entry_price pos) * of_int 10000) "CLOSED" in
              Returned (make (initial_capital self) (capital self + pnl)
                          (trades self ++ [pos]) (equity_curve self) None)
          end
      end
  end.

(** [_check_exit(bar)]: the exit price is stored on the open trade before
    [_close_position(bar)] is called with the row. *)
Definition _check_exit (self : t) (bar : QuantEngine.OHLC) : Try t :=
  match current_position self with
  | None => Returned self
  | Some pos =>
      match direction pos with
      | LONG =>
          if leb (QuantEngine.low bar) (stop_loss pos)
          then _close_position (set_exit_price self (stop_loss pos)) (Some bar)
          else if leb (take_profit pos) (QuantEngine.high bar)
          then _close_position (set_exit_price self (take_profit pos)) (Some bar)
          else Returned self
      | SHORT =>
          if leb (stop_loss pos) (QuantEngine.high bar)
          then _close_position (set_exit_price self (stop_loss pos)) (Some bar)
          else if leb (QuantEngine.low bar) (take_profit pos)
          then _close_position (set_exit_price self (take_profit pos)) (Some bar)
          else Returned self
      end
  end.

(** [_calculate_unrealized_pnl(current_price)]. *)
Definition _calculate_unrealized_pnl (self : t) (current_price : float) : float :=
  match current_position self with
  | None => 0
  | Some pos =>
      match direction pos with
      | LONG => (current_price - entry_price pos) * size pos
      | SHORT => (entry_price pos - current_price) * size pos
      end
  end.

(** A strategy: from the frame up to the current bar to nothing, or to a
    direction, an entry, a stop and a target. *)
Definition Strategy : Type :=
  list QuantEngine.OHLC -> option (string * float * float * float).

(** One pass of the loop of [run_backtest], on bar [current_bar] of the
    frame [historical_df] ends with. *)
Definition replay_bar
    (strategy_func : Strategy) (risk_per_trade : float)
    (historical_df : list QuantEngine.OHLC) (current_bar : QuantEngine.OHLC)
    (self : t) : Try t :=
  and_then
    (match current_position self with
     | Some _ => _check_exit self current_bar
     | None =>
         match strategy_func historical_df with
         | Some (direction, entry, sl, tp) =>
             Returned (_open_trade self direction entry sl tp risk_per_trade)
         | None => Returned self
         end
     end)
    (fun self =>
       let current_equity :=
         match current_position self with
         | Some _ =>
             capital self
             + _calculate_unrealized_pnl self (QuantEngine.close current_bar)
         | None => capital self
         end in
       Returned (make (initial_capital self) (capital self) (trades self)
                   (equity_curve self ++ [current_equity])
                   (current_position self))).

(** [for i in range(i, len(df))], on the bars from [i] on. *)
Fixpoint replay
    (strategy_func : Strategy) (risk_per_trade : float)
    (df : list QuantEngine.OHLC) (i : nat) (rest : list QuantEngine.OHLC)
    (self : t) : Try t :=
  match rest with
  | [] => Returned self
  | current_bar :: rest =>
      and_then
        (replay_bar strategy_func risk_per_trade (firstn (i + 1) df)
           current_bar self)
        (replay strategy_func risk_per_trade df (i + 1) rest)
  end.

(** [run_backtest(df, strategy_func, risk_per_trade)]: the loop starts at
    bar 100; a trade still open after the last bar is closed at the last
    close. *)
Definition run_backtest
    (self : t) (df : list QuantEngine.OHLC) (strategy_func : Strategy)
    (risk_per_trade : float) : Try (t * BacktestResult) :=
  let self := reset self in
  and_then (replay strategy_func risk_per_trade df 100 (skipn 100 df) self)
    (fun self =>
       and_then
         (match current_position self with
          | Some _ =>
              _close_position
                (set_exit_price self
                   (Np.item_back (map QuantEngine.close df) 1))
                None
          | None => Returned self
          end)
         (fun self => Returned (self, _calculate_results (trades self)))).

End BacktestEngine.

(** ** [app/services/auto_trader.py] *)

Module AutoTrader.

(** The checks of the trading pipeline, in the order [_analyze_market] runs
    them (its steps 2 to 7). *)
Inductive Stage : Type :=
| CONFIDENCE_CHECK
| RISK_REWARD_CHECK
| ADVISOR_CHECK
| PROBABILITY_CHECK
| NEWS_CHECK
| LIQUIDITY_CHECK.

Definition stage_index (s : Stage) : nat :=
  match s with
  | CONFIDENCE_CHECK => 1
  | RISK_REWARD_CHECK => 2
  | ADVISOR_CHECK => 3
  | PROBABILITY_CHECK => 4
  | NEWS_CHECK => 5
  | LIQUIDITY_CHECK => 6
  end.

(** The part of [_analyze_market] a call is made from: before the checks,
    within one of them, or in sizing and execution (step 8). *)
Inductive Step : Type :=
| SETUP
| CHECK (s : Stage)
| EXECUTION.

Definition step_index (s : Step) : nat :=
  match s with
  | SETUP => 0
  | CHECK c => stage_index c
  | EXECUTION => 7
  end.

(** Calls that leave [_analyze_market] and [_execute_trade]. *)
Inductive Call : Type :=
| BroadcastLog (source log_type : string)
| GetHistoricalCandles
| GenerateSignal
| DetectRegime
| ValidateSignal
| PredictProbability
| CheckNewsStop
| NotifyNewsBlock
| GetLivePrice
| GetAccountInfo
| CalculateLotSize
| CalculateCompoundingLot
| PlaceOrder
| BroadcastTrade.

Definition Event : Type := (Step * Call)%type.

Inductive TradeOutcome : Type :=
| LotRefused                (* lots <= 0: logged, nothing sent *)
| TradeFailed (e : PyExc)   (* except Exception in _execute_trade *)
| TradeSent (filled : bool).

Inductive Outcome : Type :=
| Halted                    (* MT5 connection lost *)
| InPosition                (* the symbol already has a position *)
| CoolingDown
| InsufficientData
| InvalidPriceData
| NoSignal
| Rejected (s : Stage)
| Failed (e : PyExc)        (* except Exception in _analyze_market *)
| Handed (t : TradeOutcome).

Record t : Type := make {
  last_signal_time : PyDict.t float;
  signal_cooldown : float;
  min_confidence : float;
  min_risk_reward : float
}.

Definition __init__ : t := make [] (of_int 300) (f64 0.4) (f64 1.5).

(** What one call of [_analyze_market] reads from the rest of the system. *)
Record World : Type := world {
  settings : Settings.t;
  telegram : bool;               (* telegram_enabled and telegram_chat_id *)
  feed_connected : bool;         (* realtime_service.mt5_connected *)
  engine : ExecutionEngine.t;
  clock : float;                 (* time.time() *)
  candles : list QuantEngine.OHLC;
  rnd : QuantEngine.Draws;
  agent : AIAgent.t;
  recheck : AIAgent.TagsReply;
  llm : AIAgent.LlmReply;
  hour : Z;                      (* datetime.now().hour *)
  news_stop : bool;              (* news_check.get('stop', False) *)
  tick : option (float * float); (* bid, ask of get_live_price *)
  account : PyDict.t float;      (* get_account_info() *)
  mt5_equity : option float;     (* mt5.account_info() *)
  mt5_symbol : option RiskManager.SymbolInfo;
  risk : RiskManager.t
}.

Definition Run : Type := (Outcome * list Event)%type.

Definition emit (e : Event) (k : Run) : Run := (fst k, e :: snd k).

Definition done (o : Outcome) : Run := (o, []).

(** Binding the keyword arguments of a call to the parameters the callee
    requires: a required parameter that is not passed raises [TypeError]
    before the callee runs. *)
Definition bind_keywords (required passed : list string) : Res unit :=
  if forallb (fun r => existsb (String.eqb r) passed) required
  then Ok tt else Raise TypeError.

(** Parameters of [ExecutionEngine.place_order] without a default. *)
Definition place_order_required : list string :=
  ["symbol"; "side"; "quantity"; "price"; "stop_loss"; "take_profit"].

(** [_execute_trade(symbol, signal, lots, ...)]: what became of the trade and
    the calls made. *)
Definition _execute_trade
    (symbol : string) (signal : QuantEngine.SignalStrength.t) (lots : float)
    : TradeOutcome * list Event :=
  if leb lots 0 then (LotRefused, [])
  else
    match bind_keywords place_order_required
            ["symbol"; "order_type"; "quantity"; "stop_loss"; "take_profit"]
    with
    | Raise e =>
        (TradeFailed e,
         [(EXECUTION, BroadcastLog "BOT" "info"); (EXECUTION, PlaceOrder);
          (EXECUTION, BroadcastLog "ERROR" "error")])
    | Ok _ =>
        (TradeSent true,
         [(EXECUTION, BroadcastLog "BOT" "info"); (EXECUTION, PlaceOrder)])
    end.


Section Analysis.

Variable np_sqrt : float -> float.
Variable pow_half : float -> float.

(** [df['close'].pct_change().std() * 100]. *)
Definition volatility (close : list float) : float :=
  QuantEngine.sample_std np_sqrt
    (Np.zip_with (fun prev cur => cur / prev - 1) close (tl close))
  * of_int 100.

(** Step 8: position sizing and execution. *)
Definition execution_step
    (w : World) (symbol : string) (signal : QuantEngine.SignalStrength.t)
    : Run :=
  let equity := Settings.get (account w) "equity" 0 in
  let balance := Settings.get (account w) "balance" 0 in
  let base_lot :=
    snd (RiskManager.calculate_lot_size (risk w) (settings w)
           (mt5_equity w) (mt5_symbol w)
           (QuantEngine.SignalStrength.entry_price signal)
           (QuantEngine.SignalStrength.stop_loss signal)) in
  let drawdown :=
    if ltb 0 balance
    then (balance - equity) / balance * of_int 100 else 0 in
  let final_lot :=
    MLEngine.calculate_compounding_lot pow_half base_lot equity drawdown in
  let growth :=
    if ltb base_lot final_lot
    then [(EXECUTION, BroadcastLog "GROWTH" "info")] else [] in
  let '(traded, calls) := _execute_trade symbol signal final_lot in
  (Handed traded,
   ([(EXECUTION, GetAccountInfo); (EXECUTION, BroadcastLog "EXEC" "info");
     (EXECUTION, CalculateLotSize); (EXECUTION, CalculateCompoundingLot)]
    ++ growth ++ calls)%list).

(** Step 7: spread protection. *)
Definition liquidity_step
    (w : World) (symbol : string) (signal : QuantEngine.SignalStrength.t)
    : Run :=
  emit (CHECK LIQUIDITY_CHECK, BroadcastLog "RISK" "info")
  (emit (CHECK LIQUIDITY_CHECK, GetLivePrice)
     (let too_wide :=
        match tick w with
        | Some (bid, ask) =>
            let spread := ask - bid in
            let atr :=
              BacktestEngine.py_max
                (Np.last_n 14 (map QuantEngine.high (candles w)))
              - BacktestEngine.py_min
                  (Np.last_n 14 (map QuantEngine.low (candles w))) in
            ltb 0 atr && ltb (f64 0.3 * atr) spread
        | None => false
        end in
      if too_wide
      then emit (CHECK LIQUIDITY_CHECK, BroadcastLog "RISK" "warning")
             (done (Rejected LIQUIDITY_CHECK))
      else emit (CHECK LIQUIDITY_CHECK, BroadcastLog "RISK" "success")
             (execution_step w symbol signal))).

(** Step 6: news filter. *)
Definition news_step
    (w : World) (symbol : string) (signal : QuantEngine.SignalStrength.t)
    : Run :=
  emit (CHECK NEWS_CHECK, BroadcastLog "NEWS" "info")
  (emit (CHECK NEWS_CHECK, CheckNewsStop)
     (if news_stop w
      then emit (CHECK NEWS_CHECK, BroadcastLog "NEWS" "warning")
             (if telegram w
              then emit (CHECK NEWS_CHECK, NotifyNewsBlock)
                     (done (Rejected NEWS_CHECK))
              else done (Rejected NEWS_CHECK))
      else emit (CHECK NEWS_CHECK, BroadcastLog "NEWS" "success")
             (liquidity_step w symbol signal))).

(** Step 5: ML probability check. *)
Definition probability_step
    (w : World) (symbol : string) (signal : QuantEngine.SignalStrength.t)
    (ai_confidence : float) : Run :=
  let features :=
    [("hour", of_int (hour w));
     ("volatility", volatility (map QuantEngine.close (candles w)))] in
  let ml_threshold :=
    Settings.get (settings w) "ml_threshold" (of_int 60) / f64 100.0 in
  emit (CHECK PROBABILITY_CHECK, PredictProbability)
    match MLEngine.predict_probability symbol features with
    | Raise e => done (Failed e)
    | Ok prob =>
        let prob :=
          if ltb (f64 0.8) ai_confidence
          then fmin (f64 0.95) (prob + f64 0.05) else prob in
        if ltb prob ml_threshold
        then emit (CHECK PROBABILITY_CHECK, BroadcastLog "ML" "warning")
               (done (Rejected PROBABILITY_CHECK))
        else emit (CHECK PROBABILITY_CHECK, BroadcastLog "ML" "success")
               (news_step w symbol signal)
    end.

(** Step 4: AI brain validation. *)
Definition advisor_step
    (w : World) (symbol : string) (signal : QuantEngine.SignalStrength.t)
    : Run :=
  emit (CHECK ADVISOR_CHECK, DetectRegime)
    match QuantEngine.detect_regime np_sqrt (candles w) with
    | Raise e => done (Failed e)
    | Ok regime =>
        emit (CHECK ADVISOR_CHECK, BroadcastLog "BRAIN" "info")
        (emit (CHECK ADVISOR_CHECK, ValidateSignal)
           (let '(_, ai_decision, _) :=
              AIAgent.validate_signal (agent w) (recheck w) (llm w) in
            let ai_confidence :=
              match AIAgent.confidence ai_decision with
              | Some c => c
              | None => 0
              end in
            let ai_decision_type :=
              match AIAgent.decision ai_decision with
              | Some d => d
              | None => "HOLD"
              end in
            if ltb ai_confidence (f64 0.5) || String.eqb ai_decision_type "HOLD"
            then emit (CHECK ADVISOR_CHECK, BroadcastLog "BRAIN" "error")
                   (done (Rejected ADVISOR_CHECK))
            else if negb (String.eqb ai_decision_type
                            (QuantEngine.SignalStrength.direction signal))
            then emit (CHECK ADVISOR_CHECK, BroadcastLog "BRAIN" "warning")
                   (done (Rejected ADVISOR_CHECK))
            else emit (CHECK ADVISOR_CHECK, BroadcastLog "BRAIN" "success")
                   (probability_step w symbol signal ai_confidence)))
    end.

(** The checks of [_analyze_market] on a signal that is not NEUTRAL, from
    step 2 on. *)
Definition run_pipeline
    (self : t) (w : World) (symbol : string)
    (signal : QuantEngine.SignalStrength.t) : Run :=
  emit (SETUP, BroadcastLog "QUANT" "info")
    (* Step 2: confidence check *)
    (if ltb (QuantEngine.SignalStrength.confidence signal) (min_confidence self)
     then emit (CHECK CONFIDENCE_CHECK, BroadcastLog "QUANT" "warning")
            (done (Rejected CONFIDENCE_CHECK))
     else
       (* Step 3: risk/reward check *)
       if ltb (QuantEngine.SignalStrength.risk_reward signal)
              (min_risk_reward self - f64 0.01)
       then emit (CHECK RISK_REWARD_CHECK, BroadcastLog "RISK" "warning")
              (done (Rejected RISK_REWARD_CHECK))
       else advisor_step w symbol signal).

(** [_analyze_market(symbol)]: the trader afterwards, the way the call
    ended and the calls it made, in order. *)
Definition _analyze_market (self : t) (w : World) (symbol : string)
    : t * Run :=
  let self :=
    make (last_signal_time self) (signal_cooldown self)
         (Settings.get (settings w) "quant_confidence" (of_int 40) / f64 100.0)
         (Settings.get (settings w) "risk_reward_min" (f64 1.5)) in
  if negb (feed_connected w)
  then (self, emit (SETUP, BroadcastLog "SYSTEM" "error") (done Halted))
  else if PyDict.contains (ExecutionEngine.positions (engine w)) symbol
  then (self, done InPosition)
  else
    let last_signal := Settings.get (last_signal_time self) symbol 0 in
    if ltb (clock w - last_signal) (signal_cooldown self)
    then (self, done CoolingDown)
    else
      let run : Run :=
        emit (SETUP, GetHistoricalCandles)
        (if Nat.ltb (List.length (candles w)) 50 then done InsufficientData
         else if existsb (fun c => eqb (QuantEngine.close c) 0) (candles w)
         then done InvalidPriceData
         else
           emit (SETUP, GenerateSignal)
           (match QuantEngine.generate_signal np_sqrt (settings w) (rnd w)
                    (candles w) symbol with
            | Raise e => done (Failed e)
            | Ok None => done NoSignal
            | Ok (Some signal) =>
                if String.eqb (QuantEngine.SignalStrength.direction signal)
                     "NEUTRAL"
                then done NoSignal
                else run_pipeline self w symbol signal
            end)) in
      match fst run with
      | Handed _ =>
          (make (PyDict.set (last_signal_time self) symbol (clock w))
                (signal_cooldown self) (min_confidence self)
                (min_risk_reward self),
           run)
      | _ => (self, run)
      end.

End Analysis.

(** *** Start-up *)

(** The ['reason'] of a validation result. *)
Inductive Reason : Type :=
| FeedRequired          (* DIRECT MT5 CONNECTION REQUIRED ... *)
| BrainOffline          (* AI Brain offline - Ollama could not be started *)
| ModelNotLoaded (required : string) (available : list string)
| Operational.          (* All systems operational *)

Record Validation : Type := validation { ready : bool; reason : Reason }.

(** [_validate_system_ready()]: the agent afterwards and the verdict.
    [feed_connected] is [realtime_service.mt5_connected]. *)
Definition _validate_system_ready
    (feed_connected : bool) (agent : AIAgent.t)
    (launch : option AIAgent.TagsReply) : AIAgent.t * Validation :=
  if negb feed_connected then (agent, validation false FeedRequired)
  else
    let ai_status := AIAgent.get_status agent in
    let '(agent, checked) :=
      if negb (AIAgent.status_ollama_ready ai_status)
      then
        let '(agent, started) := AIAgent.start_ollama_service agent launch in
        if started then (agent, Some (AIAgent.get_status agent))
        else (agent, None)
      else (agent, Some ai_status) in
    match checked with
    | None => (agent, validation false BrainOffline)
    | Some ai_status =>
        let required_model := AIAgent.model agent in
        if negb (AIAgent.name_in required_model
                   (AIAgent.status_loaded_models ai_status))
        then (agent,
              validation false
                (ModelNotLoaded required_model
                   (AIAgent.status_loaded_models ai_status)))
        else (agent, validation true Operational)
    end.

(** [start()]: whether the trader runs afterwards, the agent afterwards,
    and how the call ended. *)
Definition start
    (running : bool) (feed_connected : bool) (agent : AIAgent.t)
    (launch : option AIAgent.TagsReply) : bool * AIAgent.t * Res unit :=
  if running then (running, agent, Ok tt)
  else
    let '(agent, validation_result) :=
      _validate_system_ready feed_connected agent launch in
    if negb (ready validation_result) then (running, agent, Raise RuntimeError)
    else (true, agent, Ok tt).

(** *** Position maintenance *)

(** The [prices] dict of [_update_positions]: the bid of every symbol that
    has a live tick.  [get_live_price] answers with the bid and the ask. *)
Definition live_prices
    (symbols : list string) (get_live_price : string -> option (float * float))
    : PyDict.t float :=
  fold_left
    (fun prices symbol =>
       match get_live_price symbol with
       | Some (bid, _) => PyDict.set prices symbol bid
       | None => prices
       end)
    symbols [].

Definition _update_positions
    (execution_engine : ExecutionEngine.t)
    (get_live_price : string -> option (float * float))
    : ExecutionEngine.t * Res unit :=
  ExecutionEngine.update_positions execution_engine
    (live_prices (PyDict.keys (ExecutionEngine.positions execution_engine))
       get_live_price).

End AutoTrader.

(** ** Concrete inputs used by the examples below *)

Module Examples.

Import ExecutionEngine.

Definition t0 : datetime := 20260105093000%Z.

(** Two long positions, opened in this order. *)
Definition eurusd : Position.t :=
  Position.make "EURUSD" "BUY" (f64 1) (f64 1.10) (f64 1.10) (f64 1.09)
    (f64 1.12) 0 0 t0.

Definition gbpusd : Position.t :=
  Position.make "GBPUSD" "BUY" (f64 1) (f64 1.30) (f64 1.30) (f64 1.29)
    (f64 1.32) 0 0 t0.

Definition two_open : ExecutionEngine.t :=
  ExecutionEngine.make true [] [("EURUSD", eurusd); ("GBPUSD", gbpusd)] []
    2 (f64 10000) (f64 10000) false.

(** Both prices are beyond the take-profit of their position. *)
Definition both_through_target : PyDict.t float :=
  [("EURUSD", f64 1.13); ("GBPUSD", f64 1.33)].

(** Neither price reaches a stop or a target. *)
Definition both_inside : PyDict.t float :=
  [("EURUSD", f64 1.11); ("GBPUSD", f64 1.31)].

(** A second buy of EURUSD, with its own stop and target. *)
Definition add_on : Order.t :=
  Order.make "ORD_20260105093100_3" "EURUSD" MARKET_BUY "BUY" (f64 3)
    (f64 1.20) (f64 1.15) (f64 1.30) PENDING None 0 (Some t0) None 0.

(** A backtest with a single closed trade, a winner of 5. *)
Definition one_winner : list BacktestEngine.Trade :=
  [BacktestEngine.trade BacktestEngine.LONG (f64 100) (Some (f64 105)) (f64 1)
     (f64 95) (f64 105) (f64 5) (f64 50000) "CLOSED"].

(** A winner of 6 and a loser of 3. *)
Definition winner_and_loser : list BacktestEngine.Trade :=
  [BacktestEngine.trade BacktestEngine.LONG (f64 100) (Some (f64 106)) (f64 1)
     (f64 97) (f64 106) (f64 6) (f64 60000) "CLOSED";
   BacktestEngine.trade BacktestEngine.SHORT (f64 100) (Some (f64 103)) (f64 1)
     (f64 103) (f64 94) (- f64 3) (f64 30000) "CLOSED"].

(** A currency pair: lots from 0.01 to 100 in steps of 0.01. *)
Definition eurusd_info : RiskManager.SymbolInfo :=
  RiskManager.symbol_info (f64 1) (f64 0.00001) (f64 0.01) (f64 100) (f64 0.01).

(** An instrument traded in thousandths of a lot. *)
Definition btc_info : RiskManager.SymbolInfo :=
  RiskManager.symbol_info (f64 0.01) (f64 0.01) (f64 0.001) (f64 10) (f64 0.001).

(** Sixteen closes rising by one each bar. *)
Definition rising : list float :=
  map (fun k => of_int (Z.of_nat k)) (seq 1 16).

(** Sixteen closes falling by one each bar. *)
Definition falling : list float :=
  map (fun k => of_int (20 - Z.of_nat k)) (seq 1 16).

(** A square root to eight decimals, for the examples that need one. *)
Definition sqrt_8dp (x : float) : float :=
  Q2Qc (Z.sqrt (Qnum x * 10 ^ 16 / Zpos (Qden x)) # 10 ^ 8).

(** A bar on which nothing moved. *)
Definition quiet_bar (k : nat) : QuantEngine.OHLC :=
  QuantEngine.candle (Z.of_nat k) (f64 1.1000) (f64 1.1000) (f64 1.1000)
    (f64 1.1000) 10.

(** A hundred bars at one price. *)
Definition flat_market : list QuantEngine.OHLC := map quiet_bar (seq 0 100).

(** Ninety-eight quiet bars, a small bearish bar, then a bullish bar that
    engulfs it. *)
Definition engulfing_market : list QuantEngine.OHLC :=
  (map quiet_bar (seq 0 98)
   ++ [QuantEngine.candle 98 (f64 1.1000) (f64 1.1000) (f64 1.0990)
         (f64 1.0990) 10;
       QuantEngine.candle 99 (f64 1.0980) (f64 1.1020) (f64 1.0980)
         (f64 1.1020) 10])%list.

(** Draws of [generate_signal]: both factors at 1, and the confidence
    factor at its lower end. *)
Definition calm : QuantEngine.Draws := QuantEngine.draws (f64 1.0) (f64 1.0) 0.

Definition low_jitter : QuantEngine.Draws :=
  QuantEngine.draws (f64 0.95) (f64 1.0) 0.

(** An agent whose Ollama service never came up, and one with its model
    loaded. *)
Definition agent_offline : AIAgent.t := AIAgent.make "llama3.1:8b" false [].

Definition agent_online : AIAgent.t :=
  AIAgent.make "llama3.1:8b" true ["llama3.1:8b"].

(** The surroundings of one analysis of EURUSD: feed connected, no open
    position, no earlier signal. *)
Definition market_world
    (candles : list QuantEngine.OHLC) (rnd : QuantEngine.Draws)
    (agent : AIAgent.t) : AutoTrader.World :=
  AutoTrader.world Settings.defaults false true
    (ExecutionEngine.__init__ true false) (f64 1767605400) candles rnd agent
    AIAgent.TagsFailed
    (AIAgent.LlmJson
       (AIAgent.decision_dict (Some "BUY") (Some (f64 0.9)) (Some "ok")))
    10 false (Some (f64 1.1019, f64 1.1020))
    [("equity", f64 10000); ("balance", f64 10000)]
    (Some (f64 10000)) (Some eurusd_info) RiskManager.__init__.

(** Only the second price is beyond the take-profit of its position. *)
Definition second_through_target : PyDict.t float :=
  [("EURUSD", f64 1.11); ("GBPUSD", f64 1.33)].

(** A feed that only quotes EURUSD, with the bid above the target of the
    open position. *)
Definition bids_only_eurusd (symbol : string) : option (float * float) :=
  if String.eqb symbol "EURUSD" then Some (f64 1.125, f64 1.1251) else None.

(** A long trade of the backtester, still open. *)
Definition long_trade : BacktestEngine.Trade :=
  BacktestEngine.trade BacktestEngine.LONG (f64 1.10) None (f64 1000)
    (f64 1.09) (f64 1.12) 0 0 "OPEN".

(** A strategy that buys at 1.1 with the stop at 1.0 and the target at
    1.2 on every bar. *)
Definition always_buy : BacktestEngine.Strategy :=
  fun _ => Some ("BUY", f64 1.1, f64 1.0, f64 1.2).

(** A frame of 103 bars at one price. *)
Definition quiet_frame : list QuantEngine.OHLC := map quiet_bar (seq 0 103).



(** The model answers in prose that holds the word BUY. *)
Definition prose_world : AutoTrader.World :=
  AutoTrader.world Settings.defaults false true
    (ExecutionEngine.__init__ true false) (f64 1767605400) engulfing_market
    calm agent_online AIAgent.TagsFailed (AIAgent.LlmText true false)
    10 false None [] None None RiskManager.__init__.

Definition buy_signal : QuantEngine.SignalStrength.t :=
  QuantEngine.SignalStrength.make "BUY" (f64 0.8) (f64 1.1020) (f64 1.1000)
    (f64 1.1040) (f64 1.1050) (f64 1.1060) (f64 1.5) "Smart Money Flow" [].

End Examples.

(** * Properties *)

(** ** Comparisons on floats *)

Lemma ltb_lt (a b : float) : ltb a b = true <-> a < b.
Proof.
  unfold ltb. rewrite Qclt_alt.
  destruct (a ?= b); split; intro H; congruence.
Qed.

Lemma leb_le (a b : float) : leb a b = true <-> a <= b.
Proof.
  unfold leb. rewrite Qcle_alt.
  destruct (a ?= b); split; intro H; congruence.
Qed.

Lemma eqb_eq (a b : float) : eqb a b = true <-> a = b.
Proof.
  unfold eqb. rewrite Qceq_alt.
  destruct (a ?= b); split; intro H; congruence.
Qed.

Lemma ltb_ge (a b : float) : ltb a b = false <-> b <= a.
Proof.
  split; intro H.
  - apply Qcnot_lt_le. intro L. apply ltb_lt in L. congruence.
  - destruct (ltb a b) eqn:E; [|reflexivity].
    apply ltb_lt in E. exfalso. exact (Qcle_not_lt _ _ H E).
Qed.

Lemma leb_gt (a b : float) : leb a b = false <-> b < a.
Proof.
  split; intro H.
  - apply Qcnot_le_lt. intro L. apply leb_le in L. congruence.
  - destruct (leb a b) eqn:E; [|reflexivity].
    apply leb_le in E. exfalso. exact (Qclt_not_le _ _ H E).
Qed.

Lemma eqb_neq (a b : float) : eqb a b = false <-> a <> b.
Proof.
  split; intro H.
  - intro E. apply eqb_eq in E. congruence.
  - destruct (eqb a b) eqn:E; [|reflexivity].
    apply eqb_eq in E. contradiction.
Qed.

(** ** Dictionaries *)

Lemma get_set_same {V : Type} (d : PyDict.t V) (k : string) (v : V) :
  PyDict.get (PyDict.set d k v) k = Some v.
Proof.
  induction d as [|[k' v'] r IH]; simpl.
  - rewrite String.eqb_refl. reflexivity.
  - destruct (String.eqb k k') eqn:E; simpl; rewrite E; auto.
Qed.

Lemma get_set_other {V : Type} (d : PyDict.t V) (k k2 : string) (v : V) :
  k2 <> k -> PyDict.get (PyDict.set d k v) k2 = PyDict.get d k2.
Proof.
  intro N. induction d as [|[k' v'] r IH]; simpl.
  - destruct (String.eqb k2 k) eqn:E; [|reflexivity].
    apply String.eqb_eq in E. contradiction.
  - destruct (String.eqb k k') eqn:E; simpl.
    + apply String.eqb_eq in E. subst k'.
      destruct (String.eqb k2 k) eqn:E2; [|reflexivity].
      apply String.eqb_eq in E2. contradiction.
    + rewrite IH. reflexivity.
Qed.

Lemma keys_set_present {V : Type} (d : PyDict.t V) (k : string) (v v0 : V) :
  PyDict.get d k = Some v0 -> PyDict.keys (PyDict.set d k v) = PyDict.keys d.
Proof.
  induction d as [|[k' v'] r IH]; simpl; [discriminate|].
  destruct (String.eqb k k') eqn:E; simpl; intro H; [reflexivity|].
  f_equal. apply IH. exact H.
Qed.

Lemma len_set_present {V : Type} (d : PyDict.t V) (k : string) (v v0 : V) :
  PyDict.get d k = Some v0 -> PyDict.len (PyDict.set d k v) = PyDict.len d.
Proof.
  intro H. unfold PyDict.len.
  rewrite <- (length_map fst (PyDict.set d k v)), <- (length_map fst d).
  f_equal. exact (keys_set_present d k v v0 H).
Qed.

Lemma len_del_present {V : Type} (d : PyDict.t V) (k : string) (v : V) :
  PyDict.get d k = Some v -> S (PyDict.len (PyDict.del d k)) = PyDict.len d.
Proof.
  unfold PyDict.len. induction d as [|[k' v'] r IH]; simpl; [discriminate|].
  destruct (String.eqb k k'); [reflexivity|].
  intro H. simpl. f_equal. apply IH. exact H.
Qed.

(** ** Execution engine *)

Section ExecutionEngineFacts.

Import ExecutionEngine.

(** C10.  Closing a symbol that has no open position returns [None] and
    leaves the engine as it was: position map, paper balance, paper equity,
    trade history and every other field. *)
Theorem close_position_without_position_is_noop
    (self : ExecutionEngine.t) (symbol : string) (current_price : float) :
  PyDict.contains (positions self) symbol = false ->
  close_position self symbol current_price = (self, None).
Proof.
  unfold PyDict.contains, close_position.
  destruct (PyDict.get (positions self) symbol); [discriminate|reflexivity].
Qed.

Lemma close_position_without_position_witness :
  close_position Examples.two_open "USDJPY" (f64 150) = (Examples.two_open, None).
Proof.
  apply (close_position_without_position_is_noop Examples.two_open "USDJPY").
  reflexivity.
Defined.

(** C9.  A paper fill into a symbol that already has a position: the entry
    price becomes the plain mean of the old entry and the fill price,
    whatever the two quantities; the quantity is the sum; side, stop-loss
    and take-profit stay those of the old position; the map keeps its
    keys. *)
Theorem paper_fill_averages_into_open_position
    (self : ExecutionEngine.t) (order : Order.t) (rnd : Z) (now : datetime)
    (pos : Position.t) :
  PyDict.get (positions self) (Order.symbol order) = Some pos ->
  let after := fst (_execute_paper_order self order rnd now) in
  exists pos',
    PyDict.get (positions after) (Order.symbol order) = Some pos'
    /\ Position.entry_price pos'
       = (Position.entry_price pos + paper_fill_price order rnd) / of_int 2
    /\ Position.quantity pos' = Position.quantity pos + Order.quantity order
    /\ Position.side pos' = Position.side pos
    /\ Position.stop_loss pos' = Position.stop_loss pos
    /\ Position.take_profit pos' = Position.take_profit pos
    /\ PyDict.keys (positions after) = PyDict.keys (positions self).
Proof.
  intros H after. subst after.
  unfold _execute_paper_order. cbn [fst positions store_order Order.symbol Order.quantity].
  rewrite H.
  eexists. split; [apply get_set_same|].
  cbn. repeat split; try reflexivity.
  eapply keys_set_present. exact H.
Qed.

Lemma paper_fill_averages_witness :
  exists pos',
    PyDict.get
      (positions (fst (_execute_paper_order Examples.two_open Examples.add_on 1 Examples.t0)))
      "EURUSD" = Some pos'
    /\ Position.entry_price pos'
       = (f64 1.10 + paper_fill_price Examples.add_on 1) / of_int 2
    /\ Position.quantity pos' = f64 1 + f64 3
    /\ Position.side pos' = "BUY"
    /\ Position.stop_loss pos' = f64 1.09
    /\ Position.take_profit pos' = f64 1.12
    /\ PyDict.keys
         (positions (fst (_execute_paper_order Examples.two_open Examples.add_on 1 Examples.t0)))
       = ["EURUSD"; "GBPUSD"].
Proof.
  apply (paper_fill_averages_into_open_position Examples.two_open
           Examples.add_on 1 Examples.t0 Examples.eurusd).
  reflexivity.
Defined.

Lemma iterate_items_size_changed
    (used : nat) (todo : list string) (prices : PyDict.t float)
    (st : ExecutionEngine.t * float) :
  PyDict.len (positions (fst st)) <> used ->
  iterate_items used todo prices st = (st, Raise RuntimeError).
Proof.
  intro N. apply Nat.eqb_neq in N.
  destruct todo; simpl; rewrite N; reflexivity.
Qed.

Lemma close_position_head
    (self : ExecutionEngine.t) (symbol : string) (pos : Position.t)
    (rest : PyDict.t Position.t) (price : float) :
  positions self = (symbol, pos) :: rest ->
  positions (fst (close_position self symbol price)) = rest.
Proof.
  intro Hp. unfold close_position. rewrite Hp.
  cbn [PyDict.get]. rewrite String.eqb_refl.
  cbn [fst positions PyDict.del]. rewrite String.eqb_refl. reflexivity.
Qed.

(** Whenever the first position of the map is closed by [update_positions],
    the call ends in [RuntimeError] right after that close: the positions
    behind it are neither repriced nor tested. *)
Lemma update_positions_raises_after_first_close
    (self : ExecutionEngine.t) (prices : PyDict.t float)
    (symbol : string) (pos : Position.t) (rest : PyDict.t Position.t)
    (price : float) :
  positions self = (symbol, pos) :: rest ->
  PyDict.get prices symbol = Some price ->
  stop_or_target_hit (mark_to_market pos price) = true ->
  exists after,
    update_positions self prices = (after, Raise RuntimeError)
    /\ positions after = rest.
Proof.
  intros Hp Hprice Hhit.
  pose (marked := with_positions self ((symbol, mark_to_market pos price) :: rest)).
  assert (Hm : positions marked = (symbol, mark_to_market pos price) :: rest)
    by reflexivity.
  exists (fst (close_position marked symbol price)). split.
  - unfold update_positions. rewrite Hp.
    cbn [PyDict.len PyDict.keys map fst List.length iterate_items].
    rewrite Hp. unfold PyDict.len at 1. cbn [List.length].
    rewrite Nat.eqb_refl.
    cbn [negb update_body]. rewrite Hp.
    cbn [PyDict.get]. rewrite String.eqb_refl, Hprice.
    cbn [PyDict.set]. rewrite String.eqb_refl.
    rewrite Hhit. fold marked.
    rewrite iterate_items_size_changed.
    + reflexivity.
    + cbn [fst]. rewrite (close_position_head _ _ _ _ _ Hm).
      unfold PyDict.len. lia.
  - apply (close_position_head _ _ _ _ _ Hm).
Qed.

(** One pass of the loop body: either the position was closed and the map
    is one entry shorter, or the map keeps its size and every other
    symbol keeps its position. *)
Lemma update_body_cases (prices : PyDict.t float) (st : ExecutionEngine.t * float)
    (symbol : string) :
  let st' := update_body prices st symbol in
  (S (PyDict.len (positions (fst st'))) = PyDict.len (positions (fst st))
   /\ exists pos price,
        PyDict.get (positions (fst st)) symbol = Some pos
        /\ PyDict.get prices symbol = Some price
        /\ stop_or_target_hit (mark_to_market pos price) = true)
  \/ (PyDict.len (positions (fst st')) = PyDict.len (positions (fst st))
      /\ (forall k, k <> symbol ->
            PyDict.get (positions (fst st')) k = PyDict.get (positions (fst st)) k)
      /\ forall pos price,
           PyDict.get (positions (fst st)) symbol = Some pos ->
           PyDict.get prices symbol = Some price ->
           stop_or_target_hit (mark_to_market pos price) = false).
Proof.
  destruct st as [self total]. unfold update_body. cbn [fst].
  destruct (PyDict.get (positions self) symbol) as [pos|] eqn:Hg;
    [|right; repeat split; auto; intros; discriminate].
  destruct (PyDict.get prices symbol) as [price|] eqn:Hp;
    [|right; repeat split; auto; intros; discriminate].
  destruct (stop_or_target_hit (mark_to_market pos price)) eqn:Hhit.
  - left. cbn [fst]. split.
    + unfold close_position. cbn [positions with_positions].
      rewrite get_set_same. cbn [fst positions].
      rewrite (len_del_present _ _ _ (get_set_same _ _ _)).
      apply (len_set_present _ _ _ _ Hg).
    + exists pos, price. auto.
  - right. cbn [fst positions with_positions]. split; [|split].
    + apply (len_set_present _ _ _ _ Hg).
    + intros k Hk. apply get_set_other. exact Hk.
    + intros pos' price' E1 E2. injection E1 as <-. injection E2 as <-.
      exact Hhit.
Qed.

Lemma iterate_items_raises (used : nat) (todo : list string)
    (prices : PyDict.t float) (st : ExecutionEngine.t * float) :
  PyDict.len (positions (fst st)) = used ->
  NoDup todo ->
  (exists symbol pos price,
      In symbol todo
      /\ PyDict.get (positions (fst st)) symbol = Some pos
      /\ PyDict.get prices symbol = Some price
      /\ stop_or_target_hit (mark_to_market pos price) = true) ->
  snd (iterate_items used todo prices st) = Raise RuntimeError.
Proof.
  revert st. induction todo as [|s0 rest IH]; intros st Hlen Hnd Hex.
  - destruct Hex as (? & ? & ? & [] & _).
  - simpl. rewrite Hlen, Nat.eqb_refl. cbn [negb].
    inversion Hnd as [|? ? Hnotin Hnd']; subst.
    destruct (update_body_cases prices st s0) as [[Hshort _] | (Hsame & Hother & Hnohit)].
    + rewrite iterate_items_size_changed; [reflexivity|]. lia.
    + apply IH; [exact Hsame | exact Hnd' |].
      destruct Hex as (symbol & pos & price & Hin & Hg & Hp & Hhit).
      destruct Hin as [<-|Hin].
      * rewrite (Hnohit pos price Hg Hp) in Hhit. discriminate Hhit.
      * exists symbol, pos, price. repeat split; auto.
        rewrite Hother; [exact Hg|]. intros ->. contradiction.
Qed.

Lemma update_positions_raises_on_any_close
    (self : ExecutionEngine.t) (prices : PyDict.t float)
    (symbol : string) (pos : Position.t) (price : float) :
  NoDup (PyDict.keys (positions self)) ->
  PyDict.get (positions self) symbol = Some pos ->
  PyDict.get prices symbol = Some price ->
  stop_or_target_hit (mark_to_market pos price) = true ->
  snd (update_positions self prices) = Raise RuntimeError.
Proof.
  intros Hnd Hg Hp Hhit. unfold update_positions.
  assert (R : snd (iterate_items (PyDict.len (positions self))
                     (PyDict.keys (positions self)) prices (self, 0))
              = Raise RuntimeError).
  { apply iterate_items_raises; [reflexivity | exact Hnd |].
    exists symbol, pos, price. repeat split; auto.
    clear - Hg. unfold PyDict.keys.
    induction (positions self) as [|[k v] r IH]; simpl in *; [discriminate|].
    destruct (String.eqb symbol k) eqn:E.
    - left. apply String.eqb_eq in E. auto.
    - right. apply IH. exact Hg. }
  destruct (iterate_items _ _ _ _) as [[self' total] r]. cbn [snd] in R.
  subst r. reflexivity.
Qed.

(** When no price is through a stop or a target the loop runs to its end:
    both positions are repriced and stay open, and the equity is the
    balance plus the unrealized pnl. *)
Example update_positions_without_close :
  let '(after, r) := update_positions Examples.two_open Examples.both_inside in
  r = Ok tt
  /\ PyDict.keys (positions after) = ["EURUSD"; "GBPUSD"]
  /\ paper_balance after = paper_balance Examples.two_open
  /\ paper_equity after = f64 10000.02.
Proof.
  vm_compute. repeat split; apply Qc_is_canon; reflexivity.
Qed.

(** C1 (the code departs from it).  With two open positions whose prices
    are both beyond their take-profit, [update_positions] closes the first
    one and then raises: the second position stays in the map, with its
    old price and unrealized pnl, although its price is through its
    target. *)
Theorem update_positions_leaves_crossed_position_open :
  let '(after, r) :=
    update_positions Examples.two_open Examples.both_through_target in
  r = Raise RuntimeError
  /\ positions after = [("GBPUSD", Examples.gbpusd)]
  /\ PyDict.get Examples.both_through_target "GBPUSD" = Some (f64 1.33)
  /\ stop_or_target_hit (mark_to_market Examples.gbpusd (f64 1.33)) = true
  /\ paper_balance after = f64 10000.03
  /\ paper_equity after = f64 10000.03.
Proof.
  vm_compute. repeat split; apply Qc_is_canon; reflexivity.
Qed.

End ExecutionEngineFacts.

(** ** Probability estimator *)

(** C2 (the code departs from it).  [predict_probability] never returns:
    on every symbol and every feature dict the first use of [prob] raises
    [UnboundLocalError]. *)
Theorem predict_probability_always_raises
    (symbol : string) (features : PyDict.t float) :
  MLEngine.predict_probability symbol features = Raise UnboundLocalError.
Proof.
  unfold MLEngine.predict_probability, MLEngine.iadd, MLEngine.load, bind.
  repeat match goal with
         | |- context [if ?c then _ else _] => destruct c
         end; reflexivity.
Qed.

(** The failing input of C2: a trading-hours reading with ordinary
    volatility. *)
Example predict_probability_trading_hours :
  MLEngine.predict_probability "EURUSD"
    [("hour", of_int 10); ("volatility", f64 1.0)]
  = Raise UnboundLocalError.
Proof. reflexivity. Qed.

(** ** From [Qc] to [Q], for [lra] and [field] *)

Lemma this_plus (a b : Qc) : (this (a + b) == this a + this b)%Q.
Proof. apply Qred_correct. Qed.

Lemma this_mult (a b : Qc) : (this (a * b) == this a * this b)%Q.
Proof. apply Qred_correct. Qed.

Lemma this_opp (a : Qc) : (this (- a) == - this a)%Q.
Proof. apply Qred_correct. Qed.

Lemma this_minus (a b : Qc) : (this (a - b) == this a - this b)%Q.
Proof. unfold Qcminus. rewrite this_plus, this_opp. reflexivity. Qed.

Lemma this_inv (a : Qc) : (this (/ a) == / this a)%Q.
Proof. apply Qred_correct. Qed.

Lemma this_div (a b : Qc) : (this (a / b) == this a / this b)%Q.
Proof. unfold Qcdiv. rewrite this_mult, this_inv. reflexivity. Qed.

Lemma this_Q2Qc (q : Q) : (this (Q2Qc q) == q)%Q.
Proof. apply Qred_correct. Qed.

Lemma this_f64 (q : Q) : (this (f64 q) == q)%Q.
Proof. apply Qred_correct. Qed.

Lemma this_of_int (z : Z) : (this (of_int z) == inject_Z z)%Q.
Proof. apply Qred_correct. Qed.

Lemma Qc_eq_this (a b : Qc) : a = b <-> (this a == this b)%Q.
Proof. split; [intros ->; reflexivity | apply Qc_is_canon]. Qed.

Ltac is_float T := constr_eq T Qc.

Ltac to_Q :=
  unfold Qclt, Qcle in *;
  repeat match goal with
         | H : @eq ?T _ _ |- _ => is_float T; apply Qc_eq_this in H
         | H : ~ @eq ?T _ _ |- _ => is_float T; rewrite Qc_eq_this in H
         | |- @eq ?T _ _ => is_float T; apply Qc_eq_this
         | |- ~ @eq ?T _ _ => is_float T; rewrite Qc_eq_this
         end;
  repeat (rewrite ?this_plus, ?this_mult, ?this_minus, ?this_opp, ?this_div,
            ?this_inv, ?this_f64, ?this_of_int, ?this_Q2Qc in * ).

Lemma div_one (x : float) : x / 1 = x.
Proof. to_Q. field. Qed.

Lemma fabs_neg (x : float) : x < 0 -> fabs x = - x /\ 0 < fabs x.
Proof.
  intro H. unfold fabs. apply ltb_lt in H as E. rewrite E.
  split; [reflexivity | to_Q; lra].
Qed.

Lemma filter_Forall {A : Type} (f : A -> bool) (l : list A) :
  Forall (fun x => f x = true) (filter f l).
Proof.
  induction l as [|a l IH]; simpl; [constructor|].
  destruct (f a) eqn:E; auto.
Qed.

(** ** Backtest statistics *)

Section BacktestFacts.

Import BacktestEngine.

Lemma fold_plus_negative (l : list float) (a : float) :
  Forall (fun p => p < 0) l ->
  fold_left Qcplus l a <= a /\ (l <> [] -> fold_left Qcplus l a < a).
Proof.
  revert a. induction l as [|x r IH]; intros a F; simpl.
  - split; [apply Qcle_refl | congruence].
  - inversion F as [|? ? Hx Hr]; subst.
    destruct (IH (a + x) Hr) as [Hle _].
    assert (a + x < a) by (to_Q; lra).
    split; [|intros _].
    + apply Qclt_le_weak. eapply Qcle_lt_trans; eauto.
    + eapply Qcle_lt_trans; eauto.
Qed.

(** C7, as the code has it.  With no trade at all the profit factor is 0.
    With at least one losing trade it is gross profit over the absolute
    gross loss.  With trades but no losing one the divisor is 1, so the
    profit factor is the gross profit itself. *)
Theorem profit_factor_of_results (trades : list Trade) :
  let pnls := map pnl trades in
  let wins := filter (fun p => ltb 0 p) pnls in
  let losses := filter (fun p => ltb p 0) pnls in
  let r := _calculate_results trades in
  (trades = [] -> profit_factor r = 0)
  /\ (losses <> [] -> profit_factor r = py_sum wins / fabs (py_sum losses))
  /\ (trades <> [] -> losses = [] -> profit_factor r = py_sum wins).
Proof.
  intros pnls wins losses r. subst r.
  assert (Hneg : losses <> [] -> py_sum losses < 0).
  { intro Hl. apply fold_plus_negative; [|exact Hl].
    eapply Forall_impl; [|apply filter_Forall].
    intros p Hp. apply ltb_lt. exact Hp. }
  repeat split.
  - intros ->. reflexivity.
  - intro Hl. specialize (Hneg Hl).
    assert (Ht : is_empty trades = false).
    { destruct trades; [|reflexivity]. exfalso. apply Hl. reflexivity. }
    unfold _calculate_results. rewrite Ht. cbn [profit_factor].
    fold pnls. fold wins. fold losses.
    destruct (fabs_neg _ Hneg) as [_ Hpos].
    apply ltb_lt in Hpos.
    clearbody losses wins.
    destruct losses; [congruence|]. cbn [is_empty]. rewrite Hpos.
    destruct wins; reflexivity.
  - intros Ht Hl.
    unfold _calculate_results.
    destruct trades as [|t ts]; [congruence|].
    cbn [is_empty profit_factor].
    fold pnls. fold wins. fold losses. rewrite Hl. cbn [is_empty].
    replace (ltb 0 1) with true by reflexivity.
    rewrite div_one. clearbody wins. destruct wins; reflexivity.
Qed.

Lemma profit_factor_of_results_witness :
  profit_factor (_calculate_results Examples.winner_and_loser)
  = py_sum [f64 6] / fabs (py_sum [- f64 3])
  /\ profit_factor (_calculate_results Examples.one_winner) = py_sum [f64 5].
Proof.
  split.
  - apply (profit_factor_of_results Examples.winner_and_loser). discriminate.
  - apply (profit_factor_of_results Examples.one_winner);
      [discriminate | reflexivity].
Defined.

(** C7 as stated fails: one closed trade, a winner of 5 and no loser, gives
    a profit factor of 5, not 0. *)
Lemma profit_factor_without_losses_is_gross_profit :
  filter (fun p => ltb p 0) (map pnl Examples.one_winner) = []
  /\ profit_factor (_calculate_results Examples.one_winner) = of_int 5
  /\ profit_factor (_calculate_results Examples.one_winner) <> 0.
Proof.
  split; [reflexivity|]. split.
  - apply Qc_is_canon. reflexivity.
  - intro H. apply Qc_eq_this in H. vm_compute in H. discriminate H.
Qed.

End BacktestFacts.

(** ** Rounding *)

Lemma of_int_le (a b : Z) : (a <= b)%Z -> of_int a <= of_int b.
Proof.
  intro H. unfold Qcle. rewrite !this_of_int. rewrite <- Zle_Qle. exact H.
Qed.

Lemma of_int_le_inv (a b : Z) : of_int a <= of_int b -> (a <= b)%Z.
Proof.
  unfold Qcle. rewrite !this_of_int. rewrite <- Zle_Qle. auto.
Qed.

Lemma of_int_mult (a b : Z) : of_int (a * b) = of_int a * of_int b.
Proof. to_Q. rewrite inject_Z_mult. reflexivity. Qed.

Lemma floor_of_int (z : Z) : Qfloor (of_int z) = z.
Proof.
  rewrite (Qfloor_comp _ _ (this_of_int z)). apply Qfloor_Z.
Qed.

Lemma py_round_of_int (z : Z) : py_round (of_int z) = z.
Proof.
  unfold py_round. rewrite floor_of_int.
  replace (of_int z - of_int z) with 0 by (to_Q; lra).
  reflexivity.
Qed.

Lemma py_round_floor (x : float) :
  py_round x = Qfloor x \/ (py_round x = (Qfloor x + 1)%Z /\ of_int (Qfloor x) < x).
Proof.
  unfold py_round.
  destruct (x - of_int (Qfloor x) ?= f64 0.5) eqn:E.
  - apply Qceq_alt in E.
    destruct (Z.even (Qfloor x)); [left; reflexivity|right].
    split; [reflexivity|]. to_Q. lra.
  - left; reflexivity.
  - right. split; [reflexivity|]. apply Qcgt_alt in E. to_Q. lra.
Qed.

Lemma py_round_lower (x : float) (a : Z) : of_int a <= x -> (a <= py_round x)%Z.
Proof.
  intro H.
  assert (a <= Qfloor x)%Z.
  { rewrite <- (floor_of_int a). apply Qfloor_resp_le. exact H. }
  destruct (py_round_floor x) as [-> | [-> _]]; lia.
Qed.

Lemma py_round_upper (x : float) (b : Z) : x <= of_int b -> (py_round x <= b)%Z.
Proof.
  intro H.
  assert (Hf : (Qfloor x <= b)%Z).
  { rewrite <- (floor_of_int b). apply Qfloor_resp_le. exact H. }
  destruct (py_round_floor x) as [-> | [-> Hlt]]; [exact Hf|].
  assert (of_int (Qfloor x) < of_int b) by (eapply Qclt_le_trans; eauto).
  assert (Qfloor x < b)%Z; [|lia].
  apply Z.nle_gt. intro N. apply of_int_le in N.
  exact (Qcle_not_lt _ _ N H0).
Qed.

Lemma of_int_pos (z : Z) : (0 < z)%Z -> 0 < of_int z.
Proof.
  intro H. to_Q. change 0%Q with (inject_Z 0). rewrite <- Zlt_Qlt. exact H.
Qed.

(** ** Position sizing *)

Section RiskManagerFacts.

Import RiskManager.

Lemma clamp_bounds (lo hi x : float) :
  lo <= hi -> lo <= fmax lo (fmin hi x) /\ fmax lo (fmin hi x) <= hi.
Proof.
  intro H. unfold fmax, fmin.
  destruct (ltb x hi) eqn:E1.
  - apply ltb_lt in E1. destruct (ltb lo x) eqn:E2.
    + apply ltb_lt in E2. split; apply Qclt_le_weak; assumption.
    + split; [apply Qcle_refl | exact H].
  - destruct (ltb lo hi) eqn:E2.
    + split; [exact H | apply Qcle_refl].
    + split; [apply Qcle_refl | exact H].
Qed.

Lemma truediv_ok (a b : float) : b <> 0 -> truediv a b = Ok (a / b).
Proof. intro H. unfold truediv. apply eqb_neq in H. rewrite H. reflexivity. Qed.

Lemma fabs_pos_of_neq (a b : float) : a <> b -> 0 < fabs (a - b).
Proof.
  intro N. unfold fabs. destruct (ltb (a - b) 0) eqn:E.
  - apply ltb_lt in E. to_Q. lra.
  - apply ltb_ge in E. to_Q. 
    destruct (Qlt_le_dec 0 (this a - this b)) as [L|L]; [exact L|].
    exfalso. apply N. lra.
Qed.

Lemma div_nonzero (a b : float) : a <> 0 -> b <> 0 -> a / b <> 0.
Proof.
  intros Ha Hb E. apply Ha.
  replace a with (a / b * b) by (field; exact Hb).
  rewrite E. ring.
Qed.

Lemma normalized_lot (si : SymbolInfo) (raw : float) :
  well_formed si ->
  exists lot,
    (steps <- truediv (fmax (volume_min si) (fmin (volume_max si) raw))
                (volume_step si) ;;
     Ok (py_round2 (of_int (py_round steps) * volume_step si))) = Ok lot
    /\ normalized si lot.
Proof.
  intros (m & a & b & Hm & Hab & Hstep & Hmin & Hmax).
  set (step := volume_step si) in *.
  assert (Hpos : 0 < step).
  { rewrite Hstep.
    pose proof (of_int_pos m Hm) as Hm'.
    to_Q. apply Qlt_shift_div_l; [reflexivity|]. lra. }
  assert (Hnz : step <> 0) by (intro E; rewrite E in Hpos; discriminate Hpos).
  assert (Hab' : volume_min si <= volume_max si).
  { rewrite Hmin, Hmax. apply Qcmult_le_compat_r.
    - apply of_int_le. exact Hab.
    - apply Qclt_le_weak. exact Hpos. }
  destruct (clamp_bounds _ _ raw Hab') as [Hlo Hhi].
  set (c := fmax (volume_min si) (fmin (volume_max si) raw)) in *.
  rewrite (truediv_ok c step Hnz). cbn [bind].
  set (k := py_round (c / step)).
  assert (Hk : (a <= k <= b)%Z).
  { split.
    - apply py_round_lower.
      apply (Qcmult_lt_0_le_reg_r _ _ step Hpos).
      replace (c / step * step) with c by (field; exact Hnz).
      rewrite <- Hmin. exact Hlo.
    - apply py_round_upper.
      apply (Qcmult_lt_0_le_reg_r _ _ step Hpos).
      replace (c / step * step) with c by (field; exact Hnz).
      rewrite <- Hmax. exact Hhi. }
  assert (Hr : py_round2 (of_int k * step) = of_int k * step).
  { unfold py_round2.
    replace (of_int k * step * of_int 100) with (of_int (k * m)).
    - rewrite py_round_of_int. rewrite of_int_mult, Hstep. field. discriminate.
    - rewrite of_int_mult, Hstep. field. discriminate. }
  exists (of_int k * step). split; [rewrite Hr; reflexivity|].
  unfold normalized. fold step. rewrite Hmin, Hmax. repeat split.
  - apply Qcmult_le_compat_r; [apply of_int_le; lia | apply Qclt_le_weak, Hpos].
  - apply Qcmult_le_compat_r; [apply of_int_le; lia | apply Qclt_le_weak, Hpos].
  - exists k. reflexivity.
Qed.

(** C8, as the code has it.  [calculate_lot_size] is total.  With a zero
    stop distance it divides nothing and returns the default lot.  When the
    account and the instrument are known, the stop distance and the tick
    value and size are non-zero and the instrument is well formed, the lot
    is within the volume limits and on the step grid.  A lot of zero or
    less makes [_execute_trade] return before any order is placed. *)
Theorem lot_size_normalized_or_default
    (self : RiskManager.t) (settings : Settings.t) (account : option float)
    (info : option SymbolInfo) (entry_price stop_loss : float) :
  let lot :=
    snd (calculate_lot_size self settings account info entry_price stop_loss) in
  (entry_price = stop_loss -> lot = base_lot self)
  /\ (forall equity si,
         account = Some equity -> info = Some si ->
         entry_price <> stop_loss ->
         trade_tick_value si <> 0 -> trade_tick_size si <> 0 ->
         well_formed si -> normalized si lot)
  /\ (forall symbol signal lots,
         lots <= 0 ->
         AutoTrader._execute_trade symbol signal lots
         = (AutoTrader.LotRefused, [])).
Proof.
  intro lot. subst lot. split; [|split].
  - intros ->. unfold calculate_lot_size, lot_size_body.
    destruct account; [|reflexivity].
    replace (stop_loss - stop_loss) with 0 by ring.
    reflexivity.
  - intros equity si -> -> Hne Htv Hts Hwf.
    unfold calculate_lot_size, lot_size_body.
    cbn [base_lot max_position_risk].
    pose proof (fabs_pos_of_neq _ _ Hne) as Hd.
    assert (Hd' : leb (fabs (entry_price - stop_loss)) 0 = false)
      by (apply leb_gt; exact Hd).
    rewrite Hd'.
    apply eqb_neq in Htv as Etv. apply eqb_neq in Hts as Ets.
    rewrite Etv, Ets. cbn [orb].
    rewrite (truediv_ok _ _ Hts). cbn [bind].
    rewrite truediv_ok.
    + cbn [bind].
      match goal with
      | |- context [fmin (volume_max si) ?r] =>
          destruct (normalized_lot si r Hwf) as (lot & Hlot & Hn)
      end.
      cbv zeta. rewrite Hlot. exact Hn.
    + intro E. apply Qcmult_integral in E. destruct E as [E|E].
      * revert E. apply div_nonzero; [|exact Hts].
        intro Z0. rewrite Z0 in Hd. discriminate Hd.
      * contradiction.
  - intros symbol signal lots H. unfold AutoTrader._execute_trade.
    apply leb_le in H. rewrite H. reflexivity.
Qed.

Lemma lot_size_witness :
  normalized Examples.eurusd_info
    (snd (calculate_lot_size __init__ Settings.defaults (Some (f64 10000))
            (Some Examples.eurusd_info)
            (f64 1.1000) (f64 1.0950))).
Proof.
  apply (lot_size_normalized_or_default __init__ Settings.defaults
           (Some (f64 10000))
           (Some Examples.eurusd_info)
           (f64 1.1000) (f64 1.0950)) with (equity := f64 10000);
    try reflexivity; try (intro H; discriminate H).
  exists 1%Z, 1%Z, 10000%Z. repeat split; try (intro; discriminate);
    apply Qc_is_canon; reflexivity.
Defined.

(** C8 as stated fails: on an instrument traded in thousandths of a lot the
    rounding to two decimals yields 0, below the minimum volume. *)
Lemma lot_size_below_minimum :
  let lot :=
    snd (calculate_lot_size __init__ Settings.defaults (Some (f64 100))
           (Some Examples.btc_info) (f64 50000) (f64 49750)) in
  lot = 0 /\ lot < volume_min Examples.btc_info /\ ~ normalized Examples.btc_info lot.
Proof.
  assert (E : snd (calculate_lot_size __init__ Settings.defaults (Some (f64 100))
           (Some Examples.btc_info) (f64 50000) (f64 49750)) = 0)
    by (apply Qc_is_canon; vm_compute; reflexivity).
  cbv zeta. rewrite E. split; [reflexivity|]. split; [reflexivity|].
  intros [H _]. revert H. apply Qclt_not_le. reflexivity.
Qed.

End RiskManagerFacts.

(** ** Arrays *)

Lemma upd_length (a : list float) (i : nat) (v : float) :
  List.length (Np.upd a i v) = List.length a.
Proof.
  revert i. induction a as [|x r IH]; intros [|i]; simpl; auto.
Qed.

Lemma item_upd_same (a : list float) (i : nat) (v : float) :
  (i < List.length a)%nat -> Np.item (Np.upd a i v) i = v.
Proof.
  unfold Np.item. revert i. induction a as [|x r IH]; intros [|i] H; simpl in *;
    try lia; auto. apply IH. lia.
Qed.

Lemma item_upd_other (a : list float) (i k : nat) (v : float) :
  k <> i -> Np.item (Np.upd a i v) k = Np.item a k.
Proof.
  unfold Np.item. revert i k.
  induction a as [|x r IH]; intros [|i] [|k] H; simpl; auto; try lia.
Qed.

Lemma item_zeros (n k : nat) : Np.item (Np.zeros n) k = 0.
Proof.
  unfold Np.item, Np.zeros. revert k.
  induction n; intros [|k]; simpl; auto.
Qed.

Lemma zeros_length (n : nat) : List.length (Np.zeros n) = n.
Proof. apply repeat_length. Qed.

Lemma item_map0 (f : float -> float) (l : list float) (k : nat) :
  f 0 = 0 -> Np.item (map f l) k = f (Np.item l k).
Proof.
  intro H. unfold Np.item. revert k.
  induction l as [|x r IH]; intros [|k]; simpl; auto.
Qed.

Lemma item_Forall (P : float -> Prop) (l : list float) (k : nat) :
  P 0 -> Forall P l -> P (Np.item l k).
Proof.
  intros H0 F. unfold Np.item.
  destruct (Nat.lt_ge_cases k (List.length l)) as [L|L].
  - rewrite Forall_forall in F. apply F. apply nth_In. exact L.
  - rewrite nth_overflow; auto.
Qed.

Lemma fold_seq_invariant {S : Type} (P : nat -> S -> Prop)
    (body : nat -> S -> S) (d lo : nat) (s : S) :
  P lo s ->
  (forall i s, (lo <= i < lo + d)%nat -> P i s -> P (Datatypes.S i) (body i s)) ->
  P (lo + d)%nat (fold_left (fun s i => body i s) (seq lo d) s).
Proof.
  revert lo s. induction d as [|d IH]; intros lo s H0 Hstep.
  - simpl. rewrite Nat.add_0_r. exact H0.
  - simpl. replace (lo + Datatypes.S d)%nat with (Datatypes.S lo + d)%nat by lia.
    apply IH.
    + apply Hstep; [lia | exact H0].
    + intros i s' Hi. apply Hstep. lia.
Qed.

Lemma for_range_invariant {S : Type} (P : nat -> S -> Prop)
    (lo hi : nat) (body : nat -> S -> S) (s : S) :
  (lo <= hi)%nat ->
  P lo s ->
  (forall i s, (lo <= i < hi)%nat -> P i s -> P (Datatypes.S i) (body i s)) ->
  P hi (Np.for_range lo hi body s).
Proof.
  intros Hle H0 Hstep. unfold Np.for_range.
  replace hi with (lo + (hi - lo))%nat at 1 by lia.
  apply fold_seq_invariant; [exact H0|].
  intros i s' Hi. apply Hstep. lia.
Qed.

(** The loop of Wilder's smoothing over one array. *)
Lemma wilder_invariant (Q : nat -> float -> Prop)
    (xs a0 : list float) (period n : nat) (p : float) :
  List.length a0 = n ->
  (period < n)%nat ->
  (forall k, (k <= period)%nat -> Q k (Np.item a0 k)) ->
  (forall i v, (period < i < n)%nat -> Q (i - 1)%nat v ->
               Q i ((v * (p - 1) + Np.item xs (i - 1)) / p)) ->
  let a :=
    Np.for_range (period + 1) n
      (fun i a => Np.upd a i ((Np.item a (i - 1) * (p - 1) + Np.item xs (i - 1)) / p))
      a0 in
  List.length a = n /\ forall k, (k < n)%nat -> Q k (Np.item a k).
Proof.
  intros Hlen Hpn H0 Hstep a. subst a.
  pose (P := fun (i : nat) (a : list float) =>
               List.length a = n /\ forall k, (k < i)%nat -> Q k (Np.item a k)).
  assert (HP : P n (Np.for_range (period + 1) n
      (fun i a => Np.upd a i ((Np.item a (i - 1) * (p - 1) + Np.item xs (i - 1)) / p))
      a0)).
  { apply for_range_invariant.
    - lia.
    - split; [exact Hlen|]. intros k Hk. apply H0. lia.
    - intros i a Hi [Hl Hq]. split; [rewrite upd_length; exact Hl|].
      intros k Hk. destruct (Nat.eq_dec k i) as [->|Hne].
      + rewrite item_upd_same by lia. apply Hstep; [lia|]. apply Hq. lia.
      + rewrite item_upd_other by exact Hne. apply Hq. lia. }
  exact HP.
Qed.

Lemma for_range_pair {A B : Type} (lo hi : nat)
    (f : nat -> A -> A) (g : nat -> B -> B) (a : A) (b : B) :
  Np.for_range lo hi (fun i '(x, y) => (f i x, g i y)) (a, b)
  = (Np.for_range lo hi f a, Np.for_range lo hi g b).
Proof.
  unfold Np.for_range. generalize (seq lo (hi - lo)) as l.
  intro l. revert a b. induction l as [|i l IH]; intros a b; simpl; auto.
Qed.

Lemma setitem_ok (a : list float) (i : nat) (v : float) :
  (i < List.length a)%nat -> Np.setitem a i v = Ok (Np.upd a i v).
Proof.
  intro H. unfold Np.setitem. apply Nat.ltb_lt in H. rewrite H. reflexivity.
Qed.

Lemma item_zip_with (f : float -> float -> float) (a b : list float) (k : nat) :
  (k < List.length a)%nat -> (k < List.length b)%nat ->
  Np.item (Np.zip_with f a b) k = f (Np.item a k) (Np.item b k).
Proof.
  unfold Np.item, Np.zip_with. revert b k.
  induction a as [|x r IH]; intros [|y s] [|k] Ha Hb; simpl in *; try lia; auto.
  apply IH; lia.
Qed.

Lemma zip_with_length {A B C : Type} (f : A -> B -> C) (a : list A) (b : list B) :
  List.length a = List.length b ->
  List.length (Np.zip_with f a b) = List.length a.
Proof.
  intro H. unfold Np.zip_with. rewrite length_map, length_combine. lia.
Qed.

Lemma item_map (f : float -> float) (l : list float) (k : nat) :
  (k < List.length l)%nat -> Np.item (map f l) k = f (Np.item l k).
Proof.
  unfold Np.item. revert k.
  induction l as [|x r IH]; intros [|k] H; simpl in *; try lia; auto.
  apply IH. lia.
Qed.

Lemma diff_length (data : list float) :
  List.length (Np.diff data) = (List.length data - 1)%nat.
Proof.
  unfold Np.diff. rewrite length_map, length_combine.
  destruct data as [|x r]; [reflexivity|]. cbn [tl List.length]. lia.
Qed.

(** Sums of one-signed lists. *)
Lemma fold_plus_nonneg (l : list float) (a : float) :
  Forall (fun x => 0 <= x) l -> 0 <= a ->
  a <= fold_left Qcplus l a
  /\ ((exists x, In x l /\ 0 < x) -> 0 < fold_left Qcplus l a).
Proof.
  revert a. induction l as [|x r IH]; intros a F Ha; simpl.
  - split; [apply Qcle_refl|]. intros (x & [] & _).
  - inversion F as [|? ? Hx Hr]; subst.
    assert (Hax : 0 <= a + x) by (to_Q; lra).
    destruct (IH (a + x) Hr Hax) as [Hle Hpos].
    split.
    + eapply Qcle_trans; [|exact Hle]. to_Q; lra.
    + intros (y & [->|Hin] & Hy).
      * eapply Qclt_le_trans; [|exact Hle]. to_Q; lra.
      * apply Hpos. exists y. auto.
Qed.

Lemma sum_zeros (l : list float) : Forall (fun x => x = 0) l -> Np.sum l = 0.
Proof.
  unfold Np.sum. induction l as [|x r IH]; intro F; simpl; auto.
  inversion F; subst. rewrite Qcplus_0_l. auto.
Qed.

Lemma mean_zeros (l : list float) : Forall (fun x => x = 0) l -> Np.mean l = 0.
Proof.
  intro F. unfold Np.mean. rewrite (sum_zeros l F).
  unfold Qcdiv. apply Qcmult_0_l.
Qed.

Lemma Forall_firstn {A : Type} (P : A -> Prop) (k : nat) (l : list A) :
  Forall P l -> Forall P (firstn k l).
Proof.
  revert k. induction l as [|x r IH]; intros [|k] F; simpl; auto.
  inversion F; subst. constructor; auto.
Qed.

Lemma mult_nonneg (a b : float) : 0 <= a -> 0 <= b -> 0 <= a * b.
Proof. intros. to_Q. apply Qmult_le_0_compat; assumption. Qed.

Lemma div_nonneg (a b : float) : 0 <= a -> 0 < b -> 0 <= a / b.
Proof.
  intros Ha Hb. to_Q. apply Qle_shift_div_l; [exact Hb | lra].
Qed.

Lemma div_pos (a b : float) : 0 < a -> 0 < b -> 0 < a / b.
Proof.
  intros Ha Hb. to_Q. apply Qlt_shift_div_l; [exact Hb | lra].
Qed.

Lemma of_nat_pos (k : nat) : (0 < k)%nat -> 0 < of_int (Z.of_nat k).
Proof. intro H. apply of_int_pos. lia. Qed.

Lemma mean_nonneg (l : list float) : Forall (fun x => 0 <= x) l -> 0 <= Np.mean l.
Proof.
  intro F. unfold Np.mean. destruct l as [|x r].
  - intro H. discriminate H.
  - apply div_nonneg.
    + apply (fold_plus_nonneg (x :: r) 0 F (Qcle_refl 0)).
    + apply of_nat_pos. simpl. lia.
Qed.

Section RsiFacts.

Import QuantEngine.

Variable data : list float.
Variable period : nat.
Hypothesis Hperiod : (0 < period < List.length data)%nat.

Let n := List.length data.
Let deltas := Np.diff data.
Let gains := map (fun d => if ltb 0 d then d else 0) deltas.
Let losses := map (fun d => if ltb d 0 then - d else 0) deltas.
Let p := of_int (Z.of_nat period).
Let avg (xs : list float) : list float :=
  Np.for_range (period + 1) n
    (fun i a => Np.upd a i ((Np.item a (i - 1) * (p - 1) + Np.item xs (i - 1)) / p))
    (Np.upd (Np.zeros n) period (Np.mean (firstn period xs))).

Lemma calculate_rsi_unfold :
  calculate_rsi data period
  = Ok (map (fun r => of_int 100 - of_int 100 / (1 + r))
          (Np.zip_with relative_strength (avg gains) (avg losses))).
Proof.
  unfold calculate_rsi. fold n deltas gains losses p.
  rewrite !setitem_ok by (rewrite zeros_length; unfold n; lia).
  cbn [bind]. rewrite for_range_pair. reflexivity.
Qed.

Lemma avg_length (xs : list float) : List.length (avg xs) = n.
Proof.
  unfold avg.
  apply (wilder_invariant (fun _ _ => True)); auto.
  - rewrite upd_length. apply zeros_length.
  - unfold n. lia.
Qed.

Lemma avg_zero (xs : list float) (k : nat) :
  Forall (fun x => x = 0) xs -> (k < n)%nat -> Np.item (avg xs) k = 0.
Proof.
  intros F Hk. unfold avg.
  apply (wilder_invariant (fun _ v => v = 0)); auto.
  - rewrite upd_length. apply zeros_length.
  - unfold n. lia.
  - intros j Hj. destruct (Nat.eq_dec j period) as [->|Hne].
    + rewrite item_upd_same by (rewrite zeros_length; unfold n; lia).
      apply mean_zeros. apply Forall_firstn. exact F.
    + rewrite item_upd_other by exact Hne. apply item_zeros.
  - intros i v Hi ->.
    rewrite (item_Forall (fun x => x = 0) xs (i - 1) eq_refl F).
    rewrite Qcmult_0_l, Qcplus_0_l. unfold Qcdiv. apply Qcmult_0_l.
Qed.

Lemma losses_zero :
  Forall (fun d => 0 <= d) deltas -> Forall (fun x => x = 0) losses.
Proof.
  intro F. unfold losses. apply Forall_map.
  eapply Forall_impl; [|exact F]. intros d Hd. cbv beta.
  apply ltb_ge in Hd. rewrite Hd. reflexivity.
Qed.

Lemma gains_zero :
  Forall (fun d => d <= 0) deltas -> Forall (fun x => x = 0) gains.
Proof.
  intro F. unfold gains. apply Forall_map.
  eapply Forall_impl; [|exact F]. intros d Hd. cbv beta.
  apply ltb_ge in Hd. rewrite Hd. reflexivity.
Qed.

Lemma avg_is_wilder_average (xs : list float) :
  avg xs = wilder_average xs period (List.length data).
Proof. reflexivity. Qed.

Lemma firstn_zeros (xs : list float) (k : nat) :
  (forall j, (j < k)%nat -> Np.item xs j = 0) ->
  Forall (fun x => x = 0) (firstn k xs).
Proof.
  revert xs. induction k as [|k IH]; intros [|x r] H; simpl; constructor.
  - exact (H 0%nat ltac:(lia)).
  - apply IH. intros j Hj. exact (H (S j) ltac:(lia)).
Qed.

(** The smoothed average is 0 as long as nothing but zeros went into it. *)
Lemma avg_zero_prefix (xs : list float) (k : nat) :
  (k < n)%nat ->
  (forall j, (j < k)%nat -> Np.item xs j = 0) ->
  Np.item (avg xs) k = 0.
Proof.
  intros Hk. unfold avg.
  apply (wilder_invariant
           (fun k v => (forall j, (j < k)%nat -> Np.item xs j = 0) -> v = 0));
    auto.
  - rewrite upd_length. apply zeros_length.
  - unfold n. lia.
  - intros j Hj Hz. destruct (Nat.eq_dec j period) as [->|Hne].
    + rewrite item_upd_same by (rewrite zeros_length; unfold n; lia).
      apply mean_zeros. apply firstn_zeros. exact Hz.
    + rewrite item_upd_other by exact Hne. apply item_zeros.
  - intros i v Hi Hv Hz.
    rewrite Hv by (intros j Hj; apply Hz; lia).
    rewrite (Hz (i - 1)%nat) by lia.
    rewrite Qcmult_0_l, Qcplus_0_l. unfold Qcdiv. apply Qcmult_0_l.
Qed.

(** Before the entry [period] the smoothed average is still 0. *)
Lemma avg_before_period (xs : list float) (k : nat) :
  (k < period)%nat -> Np.item (avg xs) k = 0.
Proof.
  intro Hk. unfold avg.
  apply (wilder_invariant (fun k v => (k < period)%nat -> v = 0)); auto.
  - rewrite upd_length. apply zeros_length.
  - unfold n. lia.
  - intros j Hj Hlt. rewrite item_upd_other by lia. apply item_zeros.
  - intros i v Hi _ Hlt. lia.
  - unfold n. lia.
Qed.

Lemma zero_prefix_dec (xs : list float) (k : nat) :
  (forall j, (j < k)%nat -> Np.item xs j = 0)
  \/ (exists j, (j < k)%nat /\ Np.item xs j <> 0).
Proof.
  induction k as [|k [IH|(j & Hj & Hne)]].
  - left. intros j Hj. lia.
  - destruct (Qc_eq_dec (Np.item xs k) 0) as [E|E].
    + left. intros j Hj. destruct (Nat.eq_dec j k) as [->|N]; [exact E|].
      apply IH. lia.
    + right. exists k. split; [lia | exact E].
  - right. exists j. split; [lia | exact Hne].
Qed.

Lemma item_losses_nonzero (j : nat) :
  Np.item losses j <> 0 -> Np.item deltas j < 0.
Proof.
  unfold losses. rewrite item_map0 by reflexivity.
  destruct (ltb (Np.item deltas j) 0) eqn:E; [|congruence].
  intros _. apply ltb_lt. exact E.
Qed.

(** C6, as the code has it.  On a series longer than the period the RSI
    is computed, entry by entry, from the smoothed average gain and loss.
    When no delta is negative the average loss is 0, RS is set to 100 and
    every RSI entry is 100 - 100/101, not 100.  When no delta is positive,
    an RSI entry is 0 where the smoothed average loss is not 0 and
    100 - 100/101 where it is 0; it can only be 0 from the entry [period]
    on and after a negative delta.  Before the entry [period] every RSI
    entry is 100 - 100/101, whatever the data. *)
Theorem rsi_of_one_sided_series :
  exists rsi,
    calculate_rsi data period = Ok rsi
    /\ rsi = map (fun r => of_int 100 - of_int 100 / (1 + r))
               (Np.zip_with relative_strength
                  (wilder_average (rsi_gains data) period (List.length data))
                  (wilder_average (rsi_losses data) period (List.length data)))
    /\ List.length rsi = List.length data
    /\ (Forall (fun d => 0 <= d) (Np.diff data) ->
        forall i, (i < List.length data)%nat ->
                  Np.item rsi i = of_int 100 - of_int 100 / (1 + of_int 100))
    /\ (Forall (fun d => d <= 0) (Np.diff data) ->
        forall i, (i < List.length data)%nat ->
          Np.item rsi i
          = (if eqb (Np.item (wilder_average (rsi_losses data) period
                                (List.length data)) i) 0
             then of_int 100 - of_int 100 / (1 + of_int 100)
             else 0)
          /\ (Np.item rsi i = 0 ->
              (period <= i)%nat
              /\ exists j, (j < i)%nat /\ Np.item (Np.diff data) j < 0))
    /\ (forall i, (i < period)%nat ->
                  Np.item rsi i = of_int 100 - of_int 100 / (1 + of_int 100)).
Proof.
  eexists. split; [apply calculate_rsi_unfold|].
  split; [reflexivity|].
  assert (Hlen : List.length (Np.zip_with relative_strength (avg gains) (avg losses)) = n).
  { rewrite zip_with_length; rewrite !avg_length; reflexivity. }
  assert (Hitem : forall i, (i < n)%nat ->
            Np.item (map (fun r => of_int 100 - of_int 100 / (1 + r))
                       (Np.zip_with relative_strength (avg gains) (avg losses))) i
            = of_int 100
              - of_int 100
                / (1 + relative_strength (Np.item (avg gains) i)
                         (Np.item (avg losses) i))).
  { intros i Hi.
    rewrite item_map by (rewrite Hlen; exact Hi).
    rewrite item_zip_with by (rewrite avg_length; exact Hi).
    reflexivity. }
  assert (Hnot0 : of_int 100 - of_int 100 / (1 + of_int 100) <> 0).
  { intro Y. apply Qc_eq_this in Y. vm_compute in Y. discriminate Y. }
  split; [rewrite length_map; exact Hlen|]. split; [|split].
  - intros F i Hi. fold n in Hi. rewrite (Hitem i Hi).
    rewrite (avg_zero losses i (losses_zero F) Hi).
    reflexivity.
  - intros F i Hi. fold n in Hi. rewrite (Hitem i Hi).
    rewrite <- avg_is_wilder_average. fold deltas. fold losses.
    change (rsi_losses data) with losses.
    rewrite (avg_zero gains i (gains_zero F) Hi).
    unfold relative_strength.
    destruct (eqb (Np.item (avg losses) i) 0) eqn:E; cbn [negb].
    + split; [reflexivity|]. intro Y. exfalso. exact (Hnot0 Y).
    + split.
      * replace (0 / Np.item (avg losses) i) with 0
          by (unfold Qcdiv; rewrite Qcmult_0_l; reflexivity).
        apply Qc_is_canon. reflexivity.
      * intros _. apply eqb_neq in E.
        assert (Hp : (period <= i)%nat).
        { destruct (Nat.lt_ge_cases i period) as [Hlt|Hge]; [|exact Hge].
          exfalso. apply E. apply avg_before_period. exact Hlt. }
        split; [exact Hp|].
        destruct (zero_prefix_dec losses i) as [Z|(j & Hj & Hne)].
        -- exfalso. apply E. apply avg_zero_prefix; assumption.
        -- exists j. split; [exact Hj|]. apply item_losses_nonzero. exact Hne.
  - intros i Hi.
    assert (Hin : (i < n)%nat) by (unfold n; lia).
    rewrite (Hitem i Hin).
    rewrite (avg_before_period losses i Hi).
    reflexivity.
Qed.

End RsiFacts.

Lemma rsi_of_one_sided_series_witness :
  exists rsi,
    QuantEngine.calculate_rsi Examples.falling 14 = Ok rsi
    /\ List.length rsi = 16%nat
    /\ Np.item rsi 15 = 0
    /\ Np.item rsi 13 = of_int 100 - of_int 100 / (1 + of_int 100).
Proof.
  destruct (rsi_of_one_sided_series Examples.falling 14)
    as (rsi & E & _ & L & _ & H & B).
  - simpl. lia.
  - exists rsi. split; [exact E|]. split; [exact L|]. split.
    + destruct (H ltac:(repeat constructor; intro X; discriminate X) 15%nat)
        as [V _]; [simpl; lia|].
      rewrite V. vm_compute. reflexivity.
    + apply B. lia.
Defined.

(** C6 as stated fails: on sixteen rising closes every delta is positive,
    and the last RSI value is 10000/101, not 100. *)
Lemma rsi_of_rising_series_is_not_100 :
  exists rsi,
    QuantEngine.calculate_rsi Examples.rising 14 = Ok rsi
    /\ Forall (fun d => 0 <= d) (Np.diff Examples.rising)
    /\ Np.item_back rsi 1 = f64 (10000 # 101)
    /\ Np.item_back rsi 1 <> of_int 100.
Proof.
  eexists. split; [vm_compute; reflexivity|].
  split; [repeat constructor; intro X; discriminate X|].
  split.
  - apply Qc_is_canon. vm_compute. reflexivity.
  - intro Y. apply Qc_eq_this in Y. vm_compute in Y. discriminate Y.
Qed.

(** ** Sign of the smoothed ranges *)

Lemma Forall_item_iff (P : float -> Prop) (l : list float) :
  (forall k, (k < List.length l)%nat -> P (Np.item l k)) -> Forall P l.
Proof.
  intro H. apply Forall_nth. intros i d Hi.
  rewrite (nth_indep l d 0 Hi). apply H. exact Hi.
Qed.

Lemma Forall_zip_with {A B : Type} (P : float -> Prop) (f : A -> B -> float)
    (a : list A) (b : list B) :
  (forall x y, P (f x y)) -> Forall P (Np.zip_with f a b).
Proof.
  intro H. unfold Np.zip_with. apply Forall_map. apply Forall_forall.
  intros [x y] _. apply H.
Qed.

Lemma Forall_zip_with_snd {A : Type} (P Q : float -> Prop)
    (f : A -> float -> float) (a : list A) (b : list float) :
  (forall x y, P y -> Q (f x y)) -> Forall P b -> Forall Q (Np.zip_with f a b).
Proof.
  intros H F. unfold Np.zip_with. apply Forall_map. apply Forall_forall.
  intros [x y] Hin. apply H. rewrite Forall_forall in F. apply F.
  exact (in_combine_r _ _ _ _ Hin).
Qed.

Lemma fabs_nonneg (x : float) : 0 <= fabs x.
Proof.
  unfold fabs. destruct (ltb x 0) eqn:E.
  - apply ltb_lt in E. to_Q. lra.
  - apply ltb_ge in E. exact E.
Qed.

Lemma fmax_ge_r (x y : float) : y <= fmax x y.
Proof.
  unfold fmax. destruct (ltb x y) eqn:E.
  - apply Qcle_refl.
  - apply ltb_ge in E. exact E.
Qed.

(** Wilder's smoothing of a non-negative series stays non-negative. *)
Lemma wilder_nonneg (xs : list float) (period n : nat) :
  (1 <= period)%nat -> (period < n)%nat ->
  Forall (fun x => 0 <= x) xs ->
  let p := of_int (Z.of_nat period) in
  let a :=
    Np.for_range (period + 1) n
      (fun i a => Np.upd a i ((Np.item a (i - 1) * (p - 1) + Np.item xs (i - 1)) / p))
      (Np.upd (Np.zeros n) period (Np.mean (firstn period xs))) in
  List.length a = n
  /\ (forall k, (k < n)%nat -> 0 <= Np.item a k)
  /\ (forall k, (k < period)%nat -> Np.item a k = 0).
Proof.
  intros H1 Hn F p a. subst a.
  assert (Hp : 0 < p) by (apply of_nat_pos; lia).
  assert (Hp1 : 0 <= p - 1).
  { assert (of_int 1 <= p) by (apply of_int_le; lia).
    revert H. to_Q. unfold inject_Z. intro. lra. }
  pose (Q := fun (k : nat) (v : float) =>
               0 <= v /\ ((k < period)%nat -> v = 0)).
  destruct (wilder_invariant Q xs
              (Np.upd (Np.zeros n) period (Np.mean (firstn period xs)))
              period n p) as [L HQ].
  - rewrite upd_length. apply zeros_length.
  - exact Hn.
  - intros k Hk. destruct (Nat.eq_dec k period) as [->|Hne].
    + rewrite item_upd_same by (rewrite zeros_length; lia).
      split; [|lia]. apply mean_nonneg. apply Forall_firstn. exact F.
    + rewrite item_upd_other by exact Hne. rewrite item_zeros.
      split; [apply Qcle_refl | reflexivity].
  - intros i v Hi [Hv _]. split; [|lia].
    apply div_nonneg; [|exact Hp].
    pose proof (mult_nonneg v (p - 1) Hv Hp1).
    pose proof (item_Forall (fun x => 0 <= x) xs (i - 1) (Qcle_refl 0) F).
    to_Q. lra.
  - split; [exact L|]. split.
    + intros k Hk. apply (HQ k Hk).
    + intros k Hk. apply (HQ k); lia.
Qed.

(** ** Signal generator *)

Section QuantEngineFacts.

Import QuantEngine.

Ltac bind_ok H x :=
  match type of H with
  | bind ?m _ = _ =>
      let E := fresh "E" in
      destruct m as [x|] eqn:E; cbn [bind] in H; [|discriminate H]
  end.







End QuantEngineFacts.

(** ** Validation pipeline *)

Section AutoTraderFacts.

Import AutoTrader.





Section PipelineFacts.

Variable np_sqrt : float -> float.
Variable pow_half : float -> float.







(** The run of [_analyze_market], apart from the trader it returns. *)
Lemma analyze_market_run self w symbol :
  snd (_analyze_market np_sqrt pow_half self w symbol)
  = if negb (feed_connected w)
    then emit (SETUP, BroadcastLog "SYSTEM" "error") (done Halted)
    else if PyDict.contains (ExecutionEngine.positions (engine w)) symbol
    then done InPosition
    else if ltb (clock w - Settings.get (last_signal_time self) symbol 0)
                (signal_cooldown self)
    then done CoolingDown
    else
      emit (SETUP, GetHistoricalCandles)
        (if Nat.ltb (List.length (candles w)) 50 then done InsufficientData
         else if existsb (fun c => eqb (QuantEngine.close c) 0) (candles w)
         then done InvalidPriceData
         else
           emit (SETUP, GenerateSignal)
             match QuantEngine.generate_signal np_sqrt (settings w) (rnd w)
                     (candles w) symbol with
             | Raise e => done (Failed e)
             | Ok None => done NoSignal
             | Ok (Some signal) =>
                 if String.eqb (QuantEngine.SignalStrength.direction signal)
                      "NEUTRAL"
                 then done NoSignal
                 else
                   run_pipeline np_sqrt pow_half
                     (make (last_signal_time self) (signal_cooldown self)
                        (Settings.get (settings w) "quant_confidence" (of_int 40)
                         / f64 100.0)
                        (Settings.get (settings w) "risk_reward_min" (f64 1.5)))
                     w symbol signal
             end).
Proof.
  unfold _analyze_market.
  destruct (negb (feed_connected w)); [reflexivity|].
  destruct (PyDict.contains _ symbol); [reflexivity|].
  cbn [last_signal_time signal_cooldown].
  destruct (ltb _ (signal_cooldown self)); [reflexivity|].
  match goal with
  | |- snd (match fst ?r with _ => _ end) = _ => destruct (fst r)
  end; reflexivity.
Qed.



Lemma validate_signal_unusable self recheck llm :
  AIAgent.usable self recheck = false ->
  exists self' d,
    AIAgent.validate_signal self recheck llm = (self', d, false)
    /\ AIAgent.confidence d = Some (f64 0.0)
    /\ AIAgent.decision d = Some "HOLD".
Proof.
  unfold AIAgent.usable, AIAgent.validate_signal. intro H.
  destruct (AIAgent.ollama_ready self); cbn [negb andb] in *.
  - apply orb_false_iff in H. destruct H as [H1 H2].
    rewrite H1. cbn [negb].
    assert (Hm : AIAgent.model (AIAgent._check_ollama_health self recheck)
                 = AIAgent.model self)
      by (destruct recheck as [|[|] names]; reflexivity).
    rewrite Hm, H2. cbn [negb]. eexists. eexists. repeat split.
  - eexists. eexists. repeat split.
Qed.

Ltac no_such_call :=
  cbn [snd fst emit done In];
  repeat match goal with
         | |- ~ _ => intro
         | |- forall _, _ => intro
         | H : _ \/ _ |- _ => destruct H
         | H : False |- _ => destruct H
         | H : @eq Event _ _ |- _ => discriminate H
         | H : @eq (Step * Call) _ _ |- _ => discriminate H
         | H : @eq Outcome _ _ |- _ => discriminate H
         end.


(** C3.  When the advisory service has no usable model, an analysis that
    gets as far as consulting it is rejected at ADVISOR_CHECK, whatever the
    signal's score and confidence; no order is placed and the analysis
    never hands a trade to execution. *)
Theorem advisor_offline_rejects self w symbol :
  AIAgent.usable (agent w) (recheck w) = false ->
  let run := snd (_analyze_market np_sqrt pow_half self w symbol) in
  (In (CHECK ADVISOR_CHECK, ValidateSignal) (snd run) ->
   fst run = Rejected ADVISOR_CHECK)
  /\ ~ In (EXECUTION, PlaceOrder) (snd run)
  /\ (forall t, fst run <> Handed t).
Proof.
  intros Hoff run. subst run.
  rewrite analyze_market_run.
  destruct (negb (feed_connected w)); [repeat split; no_such_call|].
  destruct (PyDict.contains _ symbol); [repeat split; no_such_call|].
  destruct (ltb _ (signal_cooldown self)); [repeat split; no_such_call|].
  destruct (Nat.ltb _ 50); [repeat split; no_such_call|].
  destruct (existsb _ _); [repeat split; no_such_call|].
  destruct (QuantEngine.generate_signal _ _ _ _ _) as [[signal|]|e];
    [|repeat split; no_such_call..].
  destruct (String.eqb _ "NEUTRAL"); [repeat split; no_such_call|].
  unfold run_pipeline.
  match goal with |- context [if ?c then _ else _] => destruct c end;
    [repeat split; no_such_call|].
  match goal with |- context [if ?c then _ else _] => destruct c end;
    [repeat split; no_such_call|].
  unfold advisor_step.
  destruct (QuantEngine.detect_regime _ _) as [regime|e];
    [|repeat split; no_such_call].
  destruct (validate_signal_unusable (agent w) (recheck w) (llm w) Hoff)
    as (a & d & Hv & Hc & Hd).
  rewrite Hv, Hc, Hd.
  replace (ltb (f64 0.0) (f64 0.5)) with true by reflexivity.
  cbn [orb]. repeat split; no_such_call.
Qed.

End PipelineFacts.


Lemma advisor_offline_rejects_witness :
  let run :=
    snd (_analyze_market Examples.sqrt_8dp Examples.sqrt_8dp AutoTrader.__init__
           (Examples.market_world Examples.engulfing_market Examples.calm
              Examples.agent_offline)
           "EURUSD") in
  fst run = Rejected ADVISOR_CHECK /\ ~ In (EXECUTION, PlaceOrder) (snd run).
Proof.
  destruct (advisor_offline_rejects Examples.sqrt_8dp Examples.sqrt_8dp
              AutoTrader.__init__
              (Examples.market_world Examples.engulfing_market Examples.calm
                 Examples.agent_offline)
              "EURUSD" eq_refl) as (H1 & H2 & _).
  split; [apply H1; vm_compute; do 5 right; left; reflexivity | exact H2].
Defined.

End AutoTraderFacts.

(** * Further properties *)

(** ** Dictionaries *)

Section DictFacts.

Open Scope list_scope.

Lemma get_app_notin {V : Type} (a b : PyDict.t V) (k : string) :
  ~ In k (PyDict.keys a) -> PyDict.get (a ++ b) k = PyDict.get b k.
Proof.
  induction a as [|[k' v'] r IH]; simpl; intro N; [reflexivity|].
  destruct (String.eqb k k') eqn:E.
  - apply String.eqb_eq in E. exfalso. apply N. left. symmetry. exact E.
  - apply IH. intro H. apply N. right. exact H.
Qed.

Lemma set_app_notin {V : Type} (a b : PyDict.t V) (k : string) (v : V) :
  ~ In k (PyDict.keys a) -> PyDict.set (a ++ b) k v = a ++ PyDict.set b k v.
Proof.
  induction a as [|[k' v'] r IH]; simpl; intro N; [reflexivity|].
  destruct (String.eqb k k') eqn:E.
  - apply String.eqb_eq in E. exfalso. apply N. left. symmetry. exact E.
  - f_equal. apply IH. intro H. apply N. right. exact H.
Qed.

Lemma get_Some_In {V : Type} (d : PyDict.t V) (k : string) (v : V) :
  PyDict.get d k = Some v -> In (k, v) d.
Proof.
  induction d as [|[k' v'] r IH]; simpl; [discriminate|].
  destruct (String.eqb k k') eqn:E.
  - apply String.eqb_eq in E. subst k'. intro H. injection H as ->. left. reflexivity.
  - intro H. right. apply IH. exact H.
Qed.

Lemma get_In {V : Type} (d : PyDict.t V) (k : string) (v : V) :
  NoDup (PyDict.keys d) -> In (k, v) d -> PyDict.get d k = Some v.
Proof.
  induction d as [|[k' v'] r IH]; simpl; intros Hnd Hin; [contradiction|].
  inversion Hnd as [|? ? Hnotin Hnd']; subst.
  destruct Hin as [E|Hin].
  - injection E as -> ->. rewrite String.eqb_refl. reflexivity.
  - destruct (String.eqb k k') eqn:E.
    + apply String.eqb_eq in E. subst k'. exfalso. apply Hnotin.
      change k with (fst (k, v)). apply in_map. exact Hin.
    + apply IH; assumption.
Qed.

Lemma get_None_notin {V : Type} (d : PyDict.t V) (k : string) :
  PyDict.get d k = None -> ~ In k (PyDict.keys d).
Proof.
  induction d as [|[k' v'] r IH]; simpl; [tauto|].
  destruct (String.eqb k k') eqn:E; [discriminate|].
  intros H [F|F].
  - subst k'. rewrite String.eqb_refl in E. discriminate E.
  - exact (IH H F).
Qed.

Lemma del_set_absent {V : Type} (d : PyDict.t V) (k : string) (v : V) :
  PyDict.get d k = None -> PyDict.del (PyDict.set d k v) k = d.
Proof.
  induction d as [|[k' v'] r IH]; simpl.
  - rewrite String.eqb_refl. reflexivity.
  - destruct (String.eqb k k') eqn:E; [discriminate|].
    intro H. simpl. rewrite E. f_equal. apply IH. exact H.
Qed.

Lemma get_del_other {V : Type} (d : PyDict.t V) (k k2 : string) :
  k2 <> k -> PyDict.get (PyDict.del d k) k2 = PyDict.get d k2.
Proof.
  intro N. induction d as [|[k' v'] r IH]; simpl; [reflexivity|].
  destruct (String.eqb k k') eqn:E; simpl.
  - apply String.eqb_eq in E. subst k'.
    destruct (String.eqb k2 k) eqn:E2; [|reflexivity].
    apply String.eqb_eq in E2. contradiction.
  - rewrite IH. reflexivity.
Qed.

Lemma get_del_same {V : Type} (d : PyDict.t V) (k : string) :
  NoDup (PyDict.keys d) -> PyDict.get (PyDict.del d k) k = None.
Proof.
  induction d as [|[k' v'] r IH]; simpl; intro Hnd; [reflexivity|].
  inversion Hnd as [|? ? Hnotin Hnd']; subst.
  destruct (String.eqb k k') eqn:E; simpl.
  - apply String.eqb_eq in E. subst k'.
    destruct (PyDict.get r k) eqn:G; [|reflexivity].
    exfalso. apply Hnotin. change k with (fst (k, v)). apply in_map.
    apply get_Some_In. exact G.
  - rewrite E. apply IH. exact Hnd'.
Qed.

Lemma set_set {V : Type} (d : PyDict.t V) (k : string) (v w : V) :
  PyDict.set (PyDict.set d k v) k w = PyDict.set d k w.
Proof.
  induction d as [|[k' v'] r IH]; simpl.
  - rewrite String.eqb_refl. reflexivity.
  - destruct (String.eqb k k') eqn:E; simpl; rewrite E; [reflexivity|].
    f_equal. exact IH.
Qed.

Lemma keys_set_absent {V : Type} (d : PyDict.t V) (k : string) (v : V) :
  PyDict.get d k = None -> PyDict.keys (PyDict.set d k v) = PyDict.keys d ++ [k].
Proof.
  induction d as [|[k' v'] r IH]; simpl; [reflexivity|].
  destruct (String.eqb k k') eqn:E; [discriminate|].
  intro H. simpl. f_equal. apply IH. exact H.
Qed.

Lemma In_keys_get {V : Type} (d : PyDict.t V) (k : string) :
  In k (PyDict.keys d) -> exists v, PyDict.get d k = Some v.
Proof.
  induction d as [|[k' v'] r IH]; simpl; [contradiction|].
  intros [E|H].
  - subst k'. rewrite String.eqb_refl. eauto.
  - destruct (String.eqb k k'); eauto.
Qed.

Lemma get_Some_In_keys {V : Type} (d : PyDict.t V) (k : string) (v : V) :
  PyDict.get d k = Some v -> In k (PyDict.keys d).
Proof.
  induction d as [|[k' v'] r IH]; simpl; [discriminate|].
  destruct (String.eqb k k') eqn:E.
  - apply String.eqb_eq in E. auto.
  - intro H. right. apply IH. exact H.
Qed.


End DictFacts.

(** ** The order book and the position map *)

Section OrderBookFacts.

Import ExecutionEngine.
Open Scope list_scope.

Lemma with_positions_id (self : ExecutionEngine.t) :
  with_positions self (positions self) = self.
Proof. destruct self; reflexivity. Qed.

Lemma iterate_items_reprices (prices : PyDict.t float) :
  forall (rest done : PyDict.t Position.t) (self : ExecutionEngine.t)
         (total : float),
    positions self = done ++ rest ->
    NoDup (PyDict.keys (done ++ rest)) ->
    Forall (no_hit prices) rest ->
    iterate_items (PyDict.len (done ++ rest)) (PyDict.keys rest) prices
      (self, total)
    = ((with_positions self (done ++ reprice prices rest),
        fold_left Qcplus (unrealized_of prices rest) total),
       Ok tt).
Proof.
  induction rest as [|[s pos] rest IH]; intros done self total Hp Hnd Hno.
  - cbn [PyDict.keys map iterate_items fst reprice unrealized_of flat_map fold_left].
    rewrite Hp, Nat.eqb_refl. cbn [negb].
    rewrite <- Hp, with_positions_id. reflexivity.
  - cbn [PyDict.keys map iterate_items fst].
    rewrite Hp, Nat.eqb_refl. cbn [negb].
    assert (Hs : ~ In s (PyDict.keys done)).
    { unfold PyDict.keys in Hnd. rewrite map_app in Hnd.
      intro F. apply NoDup_remove_2 in Hnd. apply Hnd.
      apply in_or_app. left. exact F. }
    inversion Hno as [|? ? Hno1 Hno']; subst.
    assert (Hnd' : NoDup (PyDict.keys ((done ++ [(s, pos)]) ++ rest))).
    { rewrite <- app_assoc. exact Hnd. }
    unfold update_body. rewrite Hp.
    rewrite (get_app_notin done _ s Hs). cbn [PyDict.get].
    rewrite String.eqb_refl.
    destruct (PyDict.get prices s) as [price|] eqn:Hprice.
    + pose proof (Hno1 price Hprice) as Hh. cbn [snd] in Hh.
      cbv zeta. rewrite Hh.
      rewrite (set_app_notin done _ s _ Hs). cbn [PyDict.set].
      rewrite String.eqb_refl.
      set (pos' := mark_to_market pos price).
      set (self1 := with_positions self (done ++ (s, pos') :: rest)).
      assert (Hp1 : positions self1 = (done ++ [(s, pos')]) ++ rest).
      { subst self1. cbn [positions with_positions]. rewrite <- app_assoc.
        reflexivity. }
      assert (Hnd1 : NoDup (PyDict.keys ((done ++ [(s, pos')]) ++ rest))).
      { unfold PyDict.keys in *. rewrite !map_app in *. exact Hnd'. }
      pose proof (IH (done ++ [(s, pos')]) self1
                    (total + Position.unrealized_pnl pos') Hp1 Hnd1 Hno') as R.
      replace (PyDict.len ((done ++ [(s, pos')]) ++ rest))
        with (PyDict.len (done ++ (s, pos) :: rest)) in R
        by (unfold PyDict.len; rewrite !length_app; simpl; lia).
      etransitivity; [exact R|]. subst self1.
      cbn [reprice map fst snd unrealized_of flat_map].
      rewrite Hprice. cbn [app fold_left]. fold pos'.
      rewrite <- app_assoc. reflexivity.
    + pose proof (IH (done ++ [(s, pos)]) self total) as R.
      rewrite <- app_assoc in R. specialize (R Hp Hnd Hno').
      etransitivity; [exact R|].
      cbn [reprice map fst snd unrealized_of flat_map].
      rewrite Hprice. cbn [app]. rewrite <- app_assoc. reflexivity.
Qed.

(** Without a stop or target reached, [update_positions] runs to its end. *)
Lemma update_positions_no_close
    (self : ExecutionEngine.t) (prices : PyDict.t float) :
  NoDup (PyDict.keys (positions self)) ->
  (forall symbol pos price,
      PyDict.get (positions self) symbol = Some pos ->
      PyDict.get prices symbol = Some price ->
      stop_or_target_hit (mark_to_market pos price) = false) ->
  update_positions self prices
  = (make (paper_trading self) (orders self)
       (reprice prices (positions self)) (trade_history self)
       (order_counter self) (paper_balance self)
       (paper_balance self
        + fold_left Qcplus (unrealized_of prices (positions self)) 0)
       (mt5_connected self),
     Ok tt).
Proof.
  intros Hnd Hno. unfold update_positions.
  pose proof (iterate_items_reprices prices (positions self) [] self 0
                eq_refl Hnd) as R.
  cbn [app] in R. rewrite R; [reflexivity|].
  apply Forall_forall. intros [s pos] Hin price Hprice. cbn [fst snd] in *.
  apply (Hno s pos price); [|exact Hprice].
  apply get_In; assumption.
Qed.

(** [update_positions] ends in [RuntimeError] exactly when some quoted
    position is through its stop or target; otherwise it marks every
    quoted position to market, in place, keeps the balance and sets the
    equity to the balance plus the unrealized pnl of the quoted
    positions. *)
Lemma update_positions_cases
    (self : ExecutionEngine.t) (prices : PyDict.t float) :
  NoDup (PyDict.keys (positions self)) ->
  (any_hit prices (positions self) = true ->
   snd (update_positions self prices) = Raise RuntimeError)
  /\ (any_hit prices (positions self) = false ->
      update_positions self prices
      = (make (paper_trading self) (orders self)
           (reprice prices (positions self)) (trade_history self)
           (order_counter self) (paper_balance self)
           (paper_balance self
            + fold_left Qcplus (unrealized_of prices (positions self)) 0)
           (mt5_connected self),
         Ok tt)).
Proof.
  intro Hnd. split; intro H.
  - unfold any_hit in H. apply existsb_exists in H.
    destruct H as ([s pos] & Hin & Hhit). cbn [fst snd] in Hhit.
    destruct (PyDict.get prices s) as [price|] eqn:Hp; [|discriminate Hhit].
    apply (update_positions_raises_on_any_close self prices s pos price);
      auto.
    apply get_In; assumption.
  - apply update_positions_no_close; [exact Hnd|].
    intros s pos price Hg Hp.
    unfold any_hit in H.
    destruct (stop_or_target_hit (mark_to_market pos price)) eqn:Hhit;
      [|reflexivity].
    rewrite <- H. symmetry. apply existsb_exists.
    exists (s, pos). split; [apply get_Some_In; exact Hg|].
    cbn [fst snd]. rewrite Hp. exact Hhit.
Qed.

(** Whenever a quoted position is through its stop or target,
    [update_positions] ends in [RuntimeError], wherever the position sits
    in the map; when none is, it marks every quoted position to market, in
    place, keeps the balance and sets the equity to the balance plus the
    unrealized pnl of the quoted positions. *)
Theorem update_positions_outcome
    (self : ExecutionEngine.t) (prices : PyDict.t float) :
  NoDup (PyDict.keys (positions self)) ->
  ((exists symbol pos price,
       PyDict.get (positions self) symbol = Some pos
       /\ PyDict.get prices symbol = Some price
       /\ stop_or_target_hit (mark_to_market pos price) = true) ->
   snd (update_positions self prices) = Raise RuntimeError)
  /\ ((forall symbol pos price,
         PyDict.get (positions self) symbol = Some pos ->
         PyDict.get prices symbol = Some price ->
         stop_or_target_hit (mark_to_market pos price) = false) ->
      update_positions self prices
      = (make (paper_trading self) (orders self)
           (reprice prices (positions self)) (trade_history self)
           (order_counter self) (paper_balance self)
           (paper_balance self
            + fold_left Qcplus (unrealized_of prices (positions self)) 0)
           (mt5_connected self),
         Ok tt)).
Proof.
  intro Hnd. split.
  - intros (symbol & pos & price & Hg & Hp & Hhit).
    exact (update_positions_raises_on_any_close self prices symbol pos price
             Hnd Hg Hp Hhit).
  - intro Hno. apply update_positions_no_close; assumption.
Qed.

Lemma two_open_keys : NoDup (PyDict.keys (positions Examples.two_open)).
Proof. repeat constructor; simpl; intuition discriminate. Qed.

Lemma update_positions_outcome_witness :
  snd (update_positions Examples.two_open Examples.second_through_target)
  = Raise RuntimeError
  /\ snd (update_positions Examples.two_open Examples.both_inside) = Ok tt.
Proof.
  destruct (update_positions_outcome Examples.two_open Examples.second_through_target
              two_open_keys) as [R _].
  destruct (update_positions_outcome Examples.two_open Examples.both_inside
              two_open_keys) as [_ O].
  split.
  - apply R. exists "GBPUSD", Examples.gbpusd, (f64 1.33).
    repeat split; reflexivity.
  - rewrite O; [reflexivity|].
    intros symbol pos price Hg Hp. cbn in Hg.
    destruct (String.eqb symbol "EURUSD") eqn:E1.
    + apply String.eqb_eq in E1. subst symbol.
      injection Hg as <-. injection Hp as <-. reflexivity.
    + destruct (String.eqb symbol "GBPUSD") eqn:E2; [|discriminate Hg].
      apply String.eqb_eq in E2. subst symbol.
      injection Hg as <-. injection Hp as <-. reflexivity.
Defined.

(** A paper order always fills, in full and at once: the fill price is the
    asked price plus the slippage [price * 0.0001 * choice], the order is
    stored under its id and appended to the trade history, and neither
    the balance nor the equity moves. *)
Theorem place_order_paper_fills
    (self : ExecutionEngine.t) (now : datetime) (rnd : Z) (sent : SendResult)
    (symbol side : string) (quantity price stop_loss take_profit : float)
    (order_type : OrderType) :
  paper_trading self = true ->
  let after :=
    fst (place_order self now rnd sent symbol side quantity price stop_loss
           take_profit order_type) in
  let order :=
    snd (place_order self now rnd sent symbol side quantity price stop_loss
           take_profit order_type) in
  Order.status order = FILLED
  /\ Order.filled_quantity order = quantity
  /\ Order.filled_price order
     = Some (price + price * f64 0.0001 * of_int rnd)
  /\ PyDict.get (orders after) (Order.id order) = Some order
  /\ trade_history after = trade_history self ++ [order]
  /\ order_counter after = (order_counter self + 1)%Z
  /\ paper_balance after = paper_balance self
  /\ paper_equity after = paper_equity self.
Proof.
  intros Hpaper after order. subst after order.
  unfold place_order, _generate_order_id.
  cbn [paper_trading store_order]. rewrite Hpaper.
  unfold _execute_paper_order.
  cbn [fst snd Order.status Order.filled_quantity Order.filled_price Order.id
       Order.price Order.quantity Order.symbol store_order orders
       trade_history order_counter paper_balance paper_equity positions].
  repeat split.
  rewrite get_set_same. reflexivity.
Qed.

Lemma place_order_paper_fills_witness :
  let r := place_order (__init__ true false) Examples.t0 1 SendRaised
             "EURUSD" "BUY" (f64 0.1) (f64 1.1) (f64 1.09) (f64 1.12)
             MARKET_BUY in
  Order.status (snd r) = FILLED
  /\ Order.filled_quantity (snd r) = f64 0.1
  /\ Order.filled_price (snd r)
     = Some (f64 1.1 + f64 1.1 * f64 0.0001 * of_int 1)
  /\ PyDict.get (orders (fst r)) (Order.id (snd r)) = Some (snd r)
  /\ trade_history (fst r) = trade_history (__init__ true false) ++ [snd r]
  /\ order_counter (fst r) = (order_counter (__init__ true false) + 1)%Z
  /\ paper_balance (fst r) = paper_balance (__init__ true false)
  /\ paper_equity (fst r) = paper_equity (__init__ true false).
Proof.
  apply (place_order_paper_fills (__init__ true false) Examples.t0 1 SendRaised
           "EURUSD" "BUY" (f64 0.1) (f64 1.1) (f64 1.09) (f64 1.12) MARKET_BUY).
  reflexivity.
Defined.

(** A live order never touches the local book: whatever the terminal
    answers, positions, trade history, balance and equity stay as they
    were; the order is stored under its id, and it is FILLED exactly when
    the terminal is connected and reports the request as done, REJECTED
    otherwise. *)
Theorem place_order_live_keeps_book
    (self : ExecutionEngine.t) (now : datetime) (rnd : Z) (sent : SendResult)
    (symbol side : string) (quantity price stop_loss take_profit : float)
    (order_type : OrderType) :
  paper_trading self = false ->
  let after :=
    fst (place_order self now rnd sent symbol side quantity price stop_loss
           take_profit order_type) in
  let order :=
    snd (place_order self now rnd sent symbol side quantity price stop_loss
           take_profit order_type) in
  positions after = positions self
  /\ trade_history after = trade_history self
  /\ paper_balance after = paper_balance self
  /\ paper_equity after = paper_equity self
  /\ PyDict.get (orders after) (Order.id order) = Some order
  /\ (Order.status order = FILLED \/ Order.status order = REJECTED)
  /\ (Order.status order = FILLED <->
      mt5_connected self = true /\ exists fill, sent = SendAnswer true fill).
Proof.
  intros Hlive after order. subst after order.
  unfold place_order, _generate_order_id.
  cbn [paper_trading store_order]. rewrite Hlive.
  unfold _execute_mt5_order.
  cbn [mt5_connected store_order fst snd positions trade_history
       paper_balance paper_equity orders].
  destruct (mt5_connected self); cbn [negb].
  - destruct sent as [|[|] fill];
      cbn [with_status Order.id Order.status];
      rewrite get_set_same;
      repeat split; auto; try (intro X; discriminate X);
      try (intros [_ [f X]]; discriminate X);
      try (eexists; reflexivity); try discriminate.
  - cbn [with_status Order.id Order.status]. rewrite get_set_same.
    repeat split; auto; try discriminate.
    intros [X _]. discriminate X.
Qed.

Lemma place_order_live_keeps_book_witness :
  let live := ExecutionEngine.make false [] [] [] 0 (f64 10000) (f64 10000) true in
  let r := place_order live Examples.t0 1 (SendAnswer true (f64 1.1))
             "EURUSD" "BUY" (f64 0.1) (f64 1.1) (f64 1.09) (f64 1.12)
             MARKET_BUY in
  positions (fst r) = []
  /\ trade_history (fst r) = []
  /\ Order.status (snd r) = FILLED.
Proof.
  intros live r.
  destruct (place_order_live_keeps_book live Examples.t0 1
              (SendAnswer true (f64 1.1)) "EURUSD" "BUY" (f64 0.1) (f64 1.1)
              (f64 1.09) (f64 1.12) MARKET_BUY eq_refl)
    as (H1 & H2 & _ & _ & _ & _ & H7).
  split; [exact H1|]. split; [exact H2|].
  apply H7. split; [reflexivity|]. exists (f64 1.1). reflexivity.
Defined.

(** [place_order] on a paper engine, in one step. *)
Lemma place_order_paper
    (self : ExecutionEngine.t) (now : datetime) (rnd : Z) (sent : SendResult)
    (symbol side : string) (quantity price stop_loss take_profit : float)
    (order_type : OrderType) :
  paper_trading self = true ->
  let order_id :=
    ("ORD_" ++ str_of_int now ++ "_" ++ str_of_int (order_counter self + 1))%string in
  let fill := price + price * f64 0.0001 * of_int rnd in
  let order :=
    Order.make order_id symbol order_type side quantity price stop_loss
      take_profit FILLED (Some fill) quantity (Some now) (Some now) 0 in
  place_order self now rnd sent symbol side quantity price stop_loss
    take_profit order_type
  = (make (paper_trading self) (PyDict.set (orders self) order_id order)
       (match PyDict.get (positions self) symbol with
        | Some pos =>
            PyDict.set (positions self) symbol
              (Position.make (Position.symbol pos) (Position.side pos)
                 (Position.quantity pos + quantity)
                 ((Position.entry_price pos + fill) / of_int 2)
                 (Position.current_price pos) (Position.stop_loss pos)
                 (Position.take_profit pos) (Position.unrealized_pnl pos)
                 (Position.realized_pnl pos) (Position.opened_at pos))
        | None =>
            PyDict.set (positions self) symbol
              (Position.make symbol side quantity fill fill stop_loss
                 take_profit 0 0 now)
        end)
       (trade_history self ++ [order]) (order_counter self + 1)
       (paper_balance self) (paper_equity self) (mt5_connected self),
     order).
Proof.
  intros Hpaper order_id fill order. subst order_id fill order.
  unfold place_order, _generate_order_id, _execute_paper_order, store_order,
    paper_fill_price.
  cbn [paper_trading orders positions trade_history order_counter
       paper_balance paper_equity mt5_connected
       Order.id Order.symbol Order.order_type Order.side Order.quantity
       Order.price Order.stop_loss Order.take_profit Order.created_at
       Order.pnl].
  rewrite Hpaper. cbv zeta.
  cbn [paper_trading orders positions trade_history order_counter
       paper_balance paper_equity mt5_connected
       Order.id Order.symbol Order.order_type Order.side Order.quantity
       Order.price Order.stop_loss Order.take_profit Order.created_at
       Order.pnl].
  rewrite set_set.
  destruct (PyDict.get (positions self) symbol); reflexivity.
Qed.

(** Opening a position on paper and closing it at its fill price is flat:
    the realized pnl is 0, the position map and the balance are what they
    were before the order, and the equity is reset to the balance. *)
Theorem open_then_close_at_fill_is_flat
    (self : ExecutionEngine.t) (now : datetime) (rnd : Z) (sent : SendResult)
    (symbol side : string) (quantity price stop_loss take_profit : float)
    (order_type : OrderType) :
  paper_trading self = true ->
  PyDict.contains (positions self) symbol = false ->
  let opened :=
    fst (place_order self now rnd sent symbol side quantity price stop_loss
           take_profit order_type) in
  let fill := price + price * f64 0.0001 * of_int rnd in
  PyDict.get (positions opened) symbol
  = Some (Position.make symbol side quantity fill fill stop_loss take_profit
            0 0 now)
  /\ exists closed,
       close_position opened symbol fill = (closed, Some 0)
       /\ positions closed = positions self
       /\ paper_balance closed = paper_balance self
       /\ paper_equity closed = paper_balance self.
Proof.
  intros Hpaper Hnone opened fill. subst opened.
  unfold PyDict.contains in Hnone.
  destruct (PyDict.get (positions self) symbol) eqn:Hg; [discriminate Hnone|].
  rewrite (place_order_paper self now rnd sent symbol side quantity price
             stop_loss take_profit order_type Hpaper).
  cbv zeta. rewrite Hg. fold fill. cbn [fst positions].
  split; [apply get_set_same|].
  unfold close_position. cbn [positions]. rewrite get_set_same.
  cbn [Position.side Position.entry_price Position.quantity paper_trading
       paper_balance paper_equity].
  rewrite Hpaper.
  assert (Z0 : (if String.eqb side "BUY"
                then (fill - fill) * quantity
                else (fill - fill) * quantity) = 0).
  { destruct (String.eqb side "BUY"); to_Q; ring. }
  rewrite Z0.
  eexists. split; [reflexivity|].
  cbn [positions paper_balance paper_equity].
  split; [apply del_set_absent; exact Hg|].
  split; to_Q; ring.
Qed.

Lemma open_then_close_at_fill_witness :
  let opened :=
    fst (place_order Examples.two_open Examples.t0 1 SendRaised "USDJPY" "SELL"
           (f64 0.5) (f64 150) (f64 151) (f64 148) MARKET_SELL) in
  let fill := f64 150 + f64 150 * f64 0.0001 * of_int 1 in
  exists closed,
    close_position opened "USDJPY" fill = (closed, Some 0)
    /\ positions closed = positions Examples.two_open
    /\ paper_balance closed = paper_balance Examples.two_open
    /\ paper_equity closed = paper_balance Examples.two_open.
Proof.
  apply (open_then_close_at_fill_is_flat Examples.two_open Examples.t0 1
           SendRaised "USDJPY" "SELL" (f64 0.5) (f64 150) (f64 151) (f64 148)
           MARKET_SELL); reflexivity.
Defined.

(** Closing an open position on paper realizes its pnl, signed by its
    side: the pnl is added to the balance, the equity is set to the new
    balance, exactly this position leaves the map, and neither the orders
    nor the trade history record the close. *)
Theorem close_position_realizes_pnl
    (self : ExecutionEngine.t) (symbol : string) (current_price : float)
    (pos : Position.t) :
  paper_trading self = true ->
  NoDup (PyDict.keys (positions self)) ->
  PyDict.get (positions self) symbol = Some pos ->
  let pnl :=
    if String.eqb (Position.side pos) "BUY"
    then (current_price - Position.entry_price pos) * Position.quantity pos
    else (Position.entry_price pos - current_price) * Position.quantity pos in
  exists after,
    close_position self symbol current_price = (after, Some pnl)
    /\ paper_balance after = paper_balance self + pnl
    /\ paper_equity after = paper_balance self + pnl
    /\ PyDict.contains (positions after) symbol = false
    /\ S (PyDict.len (positions after)) = PyDict.len (positions self)
    /\ (forall other, other <> symbol ->
          PyDict.get (positions after) other = PyDict.get (positions self) other)
    /\ trade_history after = trade_history self
    /\ orders after = orders self.
Proof.
  intros Hpaper Hnd Hg pnl. subst pnl.
  unfold close_position. rewrite Hg, Hpaper.
  eexists. split; [reflexivity|].
  cbn [paper_balance paper_equity positions trade_history orders].
  repeat split.
  - unfold PyDict.contains. rewrite get_del_same; [reflexivity | exact Hnd].
  - apply (len_del_present _ _ _ Hg).
  - intros other Hne. apply get_del_other. exact Hne.
Qed.

Lemma close_position_realizes_pnl_witness :
  exists after,
    close_position Examples.two_open "EURUSD" (f64 1.12)
    = (after, Some ((f64 1.12 - f64 1.10) * f64 1))
    /\ paper_balance after = f64 10000 + (f64 1.12 - f64 1.10) * f64 1
    /\ PyDict.contains (positions after) "EURUSD" = false
    /\ PyDict.get (positions after) "GBPUSD" = Some Examples.gbpusd.
Proof.
  destruct (close_position_realizes_pnl Examples.two_open "EURUSD" (f64 1.12)
              Examples.eurusd eq_refl)
    as (after & H1 & H2 & _ & H4 & _ & H6 & _).
  - repeat constructor; simpl; intuition discriminate.
  - reflexivity.
  - exists after. split; [exact H1|]. split; [exact H2|]. split; [exact H4|].
    rewrite H6; [reflexivity | discriminate].
Defined.

Lemma no_underscore_uint (d : Decimal.uint) :
  no_underscore (NilEmpty.string_of_uint d).
Proof.
  induction d; simpl; auto; split; auto; discriminate.
Qed.

Lemma no_underscore_str_of_int (z : Z) : no_underscore (str_of_int z).
Proof.
  unfold str_of_int, NilZero.string_of_int, NilZero.string_of_uint.
  destruct (Z.to_int z) as [d|d]; destruct d; simpl;
    repeat split; try discriminate; apply no_underscore_uint.
Qed.

Lemma str_of_int_inj (a b : Z) : str_of_int a = str_of_int b -> a = b.
Proof.
  unfold str_of_int. intro H.
  assert (N : forall z, Z.to_int z <> Decimal.Pos Decimal.Nil
                        /\ Z.to_int z <> Decimal.Neg Decimal.Nil).
  { intros [|p|p]; simpl; split; try discriminate;
      intro X; injection X as X; exact (DecimalPos.Unsigned.to_uint_nonnil p X). }
  apply DecimalZ.to_int_inj.
  assert (S : Some (Z.to_int a) = Some (Z.to_int b)).
  { rewrite <- (NilZero.isi (Z.to_int a)) by apply N.
    rewrite <- (NilZero.isi (Z.to_int b)) by apply N.
    rewrite H. reflexivity. }
  injection S as S. exact S.
Qed.

Lemma split_at_underscore (a a' b b' : string) :
  no_underscore a -> no_underscore a' ->
  (a ++ "_" ++ b)%string = (a' ++ "_" ++ b')%string -> a = a' /\ b = b'.
Proof.
  revert a'. induction a as [|c r IH]; intros [|c' r'] Ha Ha' H; simpl in *.
  - injection H as H. auto.
  - injection H as Hc _. destruct Ha' as [N _]. exfalso. apply N. symmetry. exact Hc.
  - injection H as Hc _. destruct Ha as [N _]. exfalso. apply N. exact Hc.
  - injection H as Hc H. destruct Ha as [_ Ha]. destruct Ha' as [_ Ha'].
    destruct (IH r' Ha Ha' H) as [-> ->]. subst. auto.
Qed.

Lemma order_id_of_inj (now now' : datetime) (c c' : Z) :
  order_id_of now c = order_id_of now' c' -> now = now' /\ c = c'.
Proof.
  unfold order_id_of. intro H. simpl in H. injection H as H.
  destruct (split_at_underscore _ _ _ _ (no_underscore_str_of_int now)
              (no_underscore_str_of_int now') H) as [A B].
  split; apply str_of_int_inj; assumption.
Qed.

Lemma place_order_books
    (self : ExecutionEngine.t) (now : datetime) (rnd : Z) (sent : SendResult)
    (symbol side : string) (quantity price stop_loss take_profit : float)
    (order_type : OrderType) :
  let r := place_order self now rnd sent symbol side quantity price stop_loss
             take_profit order_type in
  Order.id (snd r) = order_id_of now (order_counter self + 1)
  /\ orders (fst r)
     = PyDict.set (orders self) (order_id_of now (order_counter self + 1)) (snd r)
  /\ order_counter (fst r) = (order_counter self + 1)%Z.
Proof.
  unfold place_order, _generate_order_id, _execute_paper_order,
    _execute_mt5_order, store_order, with_status, order_id_of.
  cbv zeta.
  cbn [paper_trading orders positions trade_history order_counter
       paper_balance paper_equity mt5_connected
       Order.id Order.symbol Order.order_type Order.side Order.quantity
       Order.price Order.stop_loss Order.take_profit Order.created_at
       Order.pnl Order.status Order.filled_price Order.filled_quantity
       Order.filled_at].
  destruct (paper_trading self).
  - cbn [fst snd orders order_counter Order.id]. rewrite set_set. auto.
  - destruct (mt5_connected self); cbn [negb].
    + destruct sent as [|[|] fill];
        cbn [fst snd orders order_counter Order.id]; rewrite set_set; auto.
    + cbn [fst snd orders order_counter Order.id]. rewrite set_set. auto.
Qed.

(** Order ids never collide: while every stored id was built from a counter
    the engine has passed, [place_order] stores its order under an id that
    was not in use, keeps every earlier order, and the same holds of the
    engine it leaves. *)
Theorem place_order_issues_fresh_id
    (self : ExecutionEngine.t) (now : datetime) (rnd : Z) (sent : SendResult)
    (symbol side : string) (quantity price stop_loss take_profit : float)
    (order_type : OrderType) :
  orders_issued self ->
  let r := place_order self now rnd sent symbol side quantity price stop_loss
             take_profit order_type in
  PyDict.contains (orders self) (Order.id (snd r)) = false
  /\ PyDict.get (orders (fst r)) (Order.id (snd r)) = Some (snd r)
  /\ PyDict.len (orders (fst r)) = S (PyDict.len (orders self))
  /\ (forall id o, PyDict.get (orders self) id = Some o ->
                   PyDict.get (orders (fst r)) id = Some o)
  /\ orders_issued (fst r).
Proof.
  intros Hinv r.
  destruct (place_order_books self now rnd sent symbol side quantity price
              stop_loss take_profit order_type) as (Hid & Hord & Hcnt).
  fold r in Hid, Hord, Hcnt.
  assert (Hfresh : PyDict.get (orders self)
                     (order_id_of now (order_counter self + 1)) = None).
  { destruct (PyDict.get (orders self) _) eqn:G; [|reflexivity].
    exfalso. apply get_Some_In_keys in G.
    unfold orders_issued in Hinv. rewrite Forall_forall in Hinv.
    destruct (Hinv _ G) as (now' & c' & E & Hle).
    apply order_id_of_inj in E. destruct E as [_ E]. lia. }
  rewrite Hid, Hord.
  split; [unfold PyDict.contains; rewrite Hfresh; reflexivity|].
  split; [apply get_set_same|].
  split.
  { unfold PyDict.len.
    rewrite <- (length_map fst (PyDict.set _ _ _)), <- (length_map fst (orders self)).
    change (map fst ?d) with (PyDict.keys d).
    rewrite (keys_set_absent _ _ _ Hfresh), length_app. simpl. lia. }
  split.
  { intros id o G. rewrite get_set_other; [exact G|].
    intros ->. rewrite Hfresh in G. discriminate G. }
  unfold orders_issued. rewrite Hord, Hcnt.
  rewrite (keys_set_absent _ _ _ Hfresh).
  apply Forall_app. split.
  - unfold orders_issued in Hinv. rewrite Forall_forall in *.
    intros id Hin. destruct (Hinv id Hin) as (n' & c' & E & Hle).
    exists n', c'. split; [exact E | lia].
  - constructor; [|constructor].
    exists now, (order_counter self + 1)%Z. split; [reflexivity | lia].
Qed.

Lemma place_order_issues_fresh_id_witness :
  let first := fst (place_order (__init__ true false) Examples.t0 1 SendRaised
                      "EURUSD" "BUY" (f64 0.1) (f64 1.1) (f64 1.09) (f64 1.12)
                      MARKET_BUY) in
  let r := place_order first Examples.t0 (-1) SendRaised
             "EURUSD" "BUY" (f64 0.1) (f64 1.1) (f64 1.09) (f64 1.12)
             MARKET_BUY in
  PyDict.len (orders (fst r)) = 2%nat /\ orders_issued (fst r).
Proof.
  intros first r.
  assert (I0 : orders_issued (__init__ true false)) by constructor.
  pose proof (place_order_issues_fresh_id (__init__ true false) Examples.t0 1
                SendRaised "EURUSD" "BUY" (f64 0.1) (f64 1.1) (f64 1.09)
                (f64 1.12) MARKET_BUY I0) as H1.
  cbv zeta in H1. fold first in H1.
  destruct H1 as (_ & _ & L1 & _ & I1).
  pose proof (place_order_issues_fresh_id first Examples.t0 (-1)
                SendRaised "EURUSD" "BUY" (f64 0.1) (f64 1.1) (f64 1.09)
                (f64 1.12) MARKET_BUY I1) as H2.
  cbv zeta in H2. fold r in H2.
  destruct H2 as (_ & _ & L2 & _ & I2).
  split; [rewrite L2, L1; reflexivity | exact I2].
Defined.

End OrderBookFacts.

(** ** Levels and indicators *)

Section IndicatorFacts.

Import QuantEngine.
Open Scope list_scope.

(** The Fibonacci levels come in descending order from the high to the
    low whenever the low is not above the high, and all of them lie
    between the two. *)
Theorem fibonacci_levels_descend (high low : float) :
  low <= high ->
  let levels := calculate_fibonacci_levels high low in
  PyDict.keys levels = ["0.0"; "0.236"; "0.382"; "0.5"; "0.618"; "0.786"; "1.0"]
  /\ PyDict.get levels "0.0" = Some high
  /\ PyDict.get levels "1.0" = Some low
  /\ descending (map snd levels)
  /\ Forall (fun x => low <= x <= high) (map snd levels).
Proof.
  intros H levels. subst levels. unfold calculate_fibonacci_levels.
  cbv zeta. split; [reflexivity|]. split; [reflexivity|]. split; [reflexivity|].
  split.
  - unfold descending. cbn [map snd].
    repeat (apply SSorted_cons; [|repeat (apply Forall_cons); try apply Forall_nil]);
      try apply SSorted_nil; to_Q; lra.
  - cbn [map snd]. repeat (apply Forall_cons); try apply Forall_nil;
      split; to_Q; lra.
Qed.

Lemma fibonacci_levels_descend_witness :
  let levels := calculate_fibonacci_levels (f64 1.12) (f64 1.08) in
  PyDict.get levels "0.0" = Some (f64 1.12)
  /\ PyDict.get levels "1.0" = Some (f64 1.08)
  /\ descending (map snd levels).
Proof.
  destruct (fibonacci_levels_descend (f64 1.12) (f64 1.08)) as (_ & A & B & C & _).
  - intro X. discriminate X.
  - auto.
Defined.

(** On a series longer than the period, [calculate_rsi] returns one value
    per point and every value lies between 0 and 100. *)
Theorem rsi_within_0_100 (data : list float) (period : nat) :
  (1 <= period)%nat -> (period < List.length data)%nat ->
  exists rsi,
    calculate_rsi data period = Ok rsi
    /\ List.length rsi = List.length data
    /\ Forall (fun x => 0 <= x /\ x <= of_int 100) rsi.
Proof.
  intros H1 Hn.
  unfold calculate_rsi.
  set (n := List.length data).
  set (gains := map (fun d => if ltb 0 d then d else 0) (Np.diff data)).
  set (losses := map (fun d => if ltb d 0 then - d else 0) (Np.diff data)).
  set (p := of_int (Z.of_nat period)).
  rewrite !setitem_ok by (rewrite zeros_length; exact Hn).
  cbn [bind]. rewrite for_range_pair.
  assert (Fg : Forall (fun x => 0 <= x) gains).
  { subst gains. apply Forall_map. apply Forall_forall. intros d _. cbv beta.
    destruct (ltb 0 d) eqn:E; [|apply Qcle_refl].
    apply ltb_lt in E. apply Qclt_le_weak. exact E. }
  assert (Fl : Forall (fun x => 0 <= x) losses).
  { subst losses. apply Forall_map. apply Forall_forall. intros d _. cbv beta.
    destruct (ltb d 0) eqn:E; [|apply Qcle_refl].
    apply ltb_lt in E. to_Q. lra. }
  destruct (wilder_nonneg gains period n H1 Hn Fg) as (Lg & Gg & _).
  destruct (wilder_nonneg losses period n H1 Hn Fl) as (Ll & Gl & _).
  cbv zeta in Lg, Gg, Ll, Gl. fold p in Lg, Gg, Ll, Gl.
  set (ag := Np.for_range (period + 1) n _
               (Np.upd (Np.zeros n) period (Np.mean (firstn period gains)))) in *.
  set (al := Np.for_range (period + 1) n _
               (Np.upd (Np.zeros n) period (Np.mean (firstn period losses)))) in *.
  eexists. split; [reflexivity|].
  assert (Lz : List.length (Np.zip_with relative_strength ag al) = n).
  { rewrite zip_with_length; [exact Lg | rewrite Lg, Ll; reflexivity]. }
  split; [rewrite length_map; exact Lz|].
  apply Forall_item_iff. intros k Hk. rewrite length_map, Lz in Hk.
  rewrite item_map by (rewrite Lz; exact Hk).
  rewrite item_zip_with by (rewrite ?Lg, ?Ll; exact Hk).
  assert (Hrs : 0 <= relative_strength (Np.item ag k) (Np.item al k)).
  { unfold relative_strength.
    destruct (eqb (Np.item al k) 0) eqn:E; cbn [negb].
    - intro X. discriminate X.
    - apply eqb_neq in E. apply div_nonneg; [apply Gg; exact Hk|].
      pose proof (Gl k Hk) as Hl.
      apply Qcle_lt_or_eq in Hl. destruct Hl as [Hl|Hl]; [exact Hl|].
      exfalso. apply E. symmetry. exact Hl. }
  set (rs := relative_strength (Np.item ag k) (Np.item al k)) in *.
  clearbody rs.
  assert (D : 0 < 1 + rs) by (to_Q; lra).
  assert (Q1 : 0 < of_int 100 / (1 + rs)).
  { apply div_pos; [apply of_int_pos; lia | exact D]. }
  assert (Q2 : of_int 100 / (1 + rs) <= of_int 100).
  { revert D Hrs. to_Q. unfold inject_Z. intros D Hrs.
    apply Qle_shift_div_r; [exact D|].
    assert (0 <= 100 * rs)%Q by (apply Qmult_le_0_compat; lra). lra. }
  split; revert Q1 Q2; to_Q; unfold inject_Z; intros; lra.
Qed.

Lemma rsi_within_0_100_witness :
  exists rsi,
    calculate_rsi Examples.rising 14 = Ok rsi
    /\ List.length rsi = 16%nat
    /\ Forall (fun x => 0 <= x /\ x <= of_int 100) rsi.
Proof.
  destruct (rsi_within_0_100 Examples.rising 14) as (rsi & E & L & B).
  - lia.
  - simpl. lia.
  - exists rsi. auto.
Defined.

(** The RSI needs more points than its period: on a series with at most
    [period] points the first store raises [IndexError], on a longer one
    the call returns. *)
Theorem rsi_needs_more_points_than_period (data : list float) (period : nat) :
  ((List.length data <= period)%nat ->
   calculate_rsi data period = Raise IndexError)
  /\ ((period < List.length data)%nat ->
      exists rsi, calculate_rsi data period = Ok rsi).
Proof.
  split; intro H.
  - unfold calculate_rsi, Np.setitem. rewrite zeros_length.
    replace (Nat.ltb period (List.length data)) with false
      by (symmetry; apply Nat.ltb_ge; exact H).
    reflexivity.
  - unfold calculate_rsi.
    rewrite !setitem_ok by (rewrite zeros_length; exact H).
    cbn [bind].
    match goal with
    | |- context [Np.for_range ?lo ?hi ?f ?init] =>
        destruct (Np.for_range lo hi f init) as [avg_gain avg_loss]
    end.
    eexists. reflexivity.
Qed.

Lemma rsi_needs_more_points_witness :
  calculate_rsi Examples.rising 16 = Raise IndexError
  /\ exists rsi, calculate_rsi Examples.rising 15 = Ok rsi.
Proof.
  destruct (rsi_needs_more_points_than_period Examples.rising 16) as [A _].
  destruct (rsi_needs_more_points_than_period Examples.rising 15) as [_ B].
  split; [apply A; simpl; lia | apply B; simpl; lia].
Defined.

(** The ATR of frames of equal length, longer than the period: one value
    per bar, none negative, and zero before the period is complete. *)
Theorem atr_is_nonnegative (high low close : list float) (period : nat) :
  (1 <= period)%nat -> (period < List.length close)%nat ->
  List.length high = List.length close ->
  List.length low = List.length close ->
  exists atr,
    calculate_atr high low close period = Ok atr
    /\ List.length atr = List.length close
    /\ Forall (fun x => 0 <= x) atr
    /\ forall k, (k < period)%nat -> Np.item atr k = 0.
Proof.
  intros H1 Hn _ _. unfold calculate_atr.
  set (tr := Np.zip_with fmax _ _).
  assert (Ft : Forall (fun x => 0 <= x) tr).
  { subst tr.
    apply (Forall_zip_with_snd (fun y => 0 <= y) (fun y => 0 <= y)).
    - intros x y Hy. eapply Qcle_trans; [exact Hy | apply fmax_ge_r].
    - apply (Forall_zip_with_snd (fun y => 0 <= y) (fun y => 0 <= y)).
      + intros x y Hy. eapply Qcle_trans; [exact Hy | apply fmax_ge_r].
      + apply Forall_zip_with. intros x y. apply fabs_nonneg. }
  rewrite setitem_ok by (rewrite zeros_length; exact Hn).
  cbn [bind].
  destruct (wilder_nonneg tr period (List.length close) H1 Hn Ft) as (L & G & Z).
  eexists. split; [reflexivity|].
  split; [exact L|]. split; [|exact Z].
  apply Forall_item_iff. intros k Hk. apply G. rewrite L in Hk. exact Hk.
Qed.

Lemma atr_is_nonnegative_witness :
  exists atr,
    calculate_atr (map high Examples.engulfing_market)
      (map low Examples.engulfing_market)
      (map close Examples.engulfing_market) 14 = Ok atr
    /\ List.length atr = 100%nat
    /\ Forall (fun x => 0 <= x) atr.
Proof.
  destruct (atr_is_nonnegative (map high Examples.engulfing_market)
              (map low Examples.engulfing_market)
              (map close Examples.engulfing_market) 14)
    as (atr & E & L & B & _).
  - lia.
  - vm_compute. lia.
  - reflexivity.
  - reflexivity.
  - exists atr. auto.
Defined.

End IndicatorFacts.

(** ** Emitted signals *)

Section SignalFacts.

Import QuantEngine.
Open Scope list_scope.

Ltac bind_ok H x :=
  match type of H with
  | bind ?m _ = _ =>
      let E := fresh "E" in
      destruct m as [x|] eqn:E; cbn [bind] in H; [|discriminate H]
  end.

Ltac forget_texts H :=
  match type of H with
  | Ok (Some (SignalStrength.make _ _ _ _ _ _ _ _ _ ?re)) = _ =>
      let x := fresh "reasoning" in set (x := re) in H; clearbody x
  end;
  match type of H with
  | Ok (Some (SignalStrength.make _ _ _ _ _ _ _ _ ?st _)) = _ =>
      let x := fresh "strategy" in set (x := st) in H; clearbody x
  end.

(** The confidence and the risk:reward figure of an emitted signal. *)
Lemma generate_signal_scores
    (np_sqrt : float -> float) (settings : Settings.t) (rnd : Draws)
    (df : list OHLC) (symbol : string) (s : SignalStrength.t) :
  generate_signal np_sqrt settings rnd df symbol = Ok (Some s) ->
  (exists total : Z,
      (1 <= Z.abs total)%Z
      /\ SignalStrength.confidence s
         = fmin (py_round2 (fmin (of_int (Z.abs total) / of_int 5) (f64 1.0)
                            * jitter rnd))
                (f64 1.0))
  /\ SignalStrength.risk_reward s
     = (if ltb 0 (fabs (SignalStrength.entry_price s - SignalStrength.stop_loss s))
        then fabs (SignalStrength.take_profit_2 s - SignalStrength.entry_price s)
             / fabs (SignalStrength.entry_price s - SignalStrength.stop_loss s)
        else 0).
Proof.
  intro H.
  unfold generate_signal in H.
  destruct (Nat.ltb (List.length df) 100); [discriminate H|].
  cbv zeta in H.
  bind_ok H regime. bind_ok H ema_20. bind_ok H ema_50. bind_ok H ema_200.
  bind_ok H rsi. bind_ok H macd.
  destruct macd as [[macd_line signal_line] histogram].
  destruct (calculate_bollinger_bands np_sqrt (map close df) 20 (f64 2.0))
    as [[upper middle] lower].
  bind_ok H atr.
  match type of H with
  | (if Z.ltb (Z.abs ?t) _ then _ else _) = _ => set (total := t) in H
  end.
  assert (T1 : (1 <= Z.abs total)%Z).
  { match type of H with
    | (if Z.ltb ?a ?b then _ else _) = _ =>
        destruct (Z.ltb a b) eqn:C; [discriminate H|];
        apply Z.ltb_ge in C; destruct regime; exact C
    end. }
  match type of H with
  | (if ?c then _ else _) = _ => destruct c; [discriminate H|]
  end.
  clearbody total.
  destruct (Z.ltb 0 total).
  - change (String.eqb "BUY" "BUY") with true in H. cbv beta iota in H.
    forget_texts H. injection H as <-.
    cbn [SignalStrength.confidence SignalStrength.risk_reward
         SignalStrength.entry_price SignalStrength.stop_loss
         SignalStrength.take_profit_2].
    split; [exists total; split; [exact T1 | reflexivity] | reflexivity].
  - change (String.eqb "SELL" "BUY") with false in H. cbv beta iota in H.
    forget_texts H. injection H as <-.
    cbn [SignalStrength.confidence SignalStrength.risk_reward
         SignalStrength.entry_price SignalStrength.stop_loss
         SignalStrength.take_profit_2].
    split; [exists total; split; [exact T1 | reflexivity] | reflexivity].
Qed.

Lemma fmin_cases (a b : float) :
  (a <= b /\ fmin a b = a) \/ (b < a /\ fmin a b = b).
Proof.
  unfold fmin. destruct (ltb b a) eqn:E.
  - right. apply ltb_lt in E. auto.
  - left. apply ltb_ge in E. auto.
Qed.

(** The confidence of an emitted signal, for a confidence factor of at
    least 0.95: a whole number of hundredths between 0.19 and 1. *)
Theorem emitted_confidence_range
    (np_sqrt : float -> float) (settings : Settings.t) (rnd : Draws)
    (df : list OHLC) (symbol : string) (s : SignalStrength.t) :
  generate_signal np_sqrt settings rnd df symbol = Ok (Some s) ->
  f64 0.95 <= jitter rnd ->
  f64 0.19 <= SignalStrength.confidence s
  /\ SignalStrength.confidence s <= f64 1.0
  /\ exists m : Z, SignalStrength.confidence s = of_int m / of_int 100.
Proof.
  intros H Hj.
  destruct (generate_signal_scores _ _ _ _ _ _ H) as [(total & T1 & Hc) _].
  rewrite Hc. clear Hc H.
  set (raw := fmin (of_int (Z.abs total) / of_int 5) (f64 1.0)).
  assert (Hraw : f64 0.2 <= raw).
  { subst raw.
    assert (A : of_int 1 <= of_int (Z.abs total)) by (apply of_int_le; exact T1).
    assert (B : f64 0.2 <= of_int (Z.abs total) / of_int 5).
    { to_Q. unfold inject_Z in *. apply Qle_shift_div_l; lra. }
    destruct (fmin_cases (of_int (Z.abs total) / of_int 5) (f64 1.0))
      as [[_ ->] | [_ ->]]; [exact B | intro X; discriminate X]. }
  clearbody raw.
  unfold py_round2.
  set (k := py_round (raw * jitter rnd * of_int 100)).
  assert (Hk : (19 <= k)%Z).
  { subst k. apply py_round_lower. to_Q. unfold inject_Z in *. nra. }
  clearbody k.
  assert (Hq : f64 0.19 <= of_int k / of_int 100).
  { assert (A : of_int 19 <= of_int k) by (apply of_int_le; exact Hk).
    to_Q. unfold inject_Z in *. apply Qle_shift_div_l; lra. }
  destruct (fmin_cases (of_int k / of_int 100) (f64 1.0)) as [[L ->] | [L ->]].
  - split; [exact Hq|]. split; [exact L|]. exists k. reflexivity.
  - split; [intro X; discriminate X|]. split; [apply Qcle_refl|].
    exists 100%Z. apply Qc_is_canon. reflexivity.
Qed.

Lemma emitted_confidence_range_witness :
  exists s,
    generate_signal Examples.sqrt_8dp Settings.defaults Examples.low_jitter
      Examples.flat_market "EURUSD" = Ok (Some s)
    /\ f64 0.19 <= SignalStrength.confidence s
    /\ SignalStrength.confidence s <= f64 1.0.
Proof.
  assert (E : exists s,
             generate_signal Examples.sqrt_8dp Settings.defaults
               Examples.low_jitter Examples.flat_market "EURUSD" = Ok (Some s))
    by (eexists; vm_compute; reflexivity).
  destruct E as (s & E).
  destruct (emitted_confidence_range Examples.sqrt_8dp Settings.defaults
              Examples.low_jitter Examples.flat_market "EURUSD" s E)
    as (A & B & _).
  - intro X. discriminate X.
  - exists s. auto.
Defined.

End SignalFacts.

(** ** Replay of a backtest *)

Section ReplayFacts.

Import BacktestEngine.
Open Scope list_scope.

(** [_check_exit] never closes a trade: when the bar touches the stop or
    the target of the open trade the call raises [ValueError], and
    otherwise it returns with the engine as it was. *)
Lemma check_exit_cases (self : t) (bar : QuantEngine.OHLC) :
  let touched :=
    match current_position self with
    | None => false
    | Some pos =>
        match direction pos with
        | LONG => leb (QuantEngine.low bar) (stop_loss pos)
                  || leb (take_profit pos) (QuantEngine.high bar)
        | SHORT => leb (stop_loss pos) (QuantEngine.high bar)
                   || leb (QuantEngine.low bar) (take_profit pos)
        end
    end in
  _check_exit self bar = if touched then Threw ValueError else Returned self.
Proof.
  unfold _check_exit, _close_position, set_exit_price.
  destruct (current_position self) as [pos|] eqn:P; [|reflexivity].
  destruct (direction pos);
    repeat match goal with
           | |- context [if leb ?a ?b then _ else _] =>
               destruct (leb a b); cbn [orb current_position with_position]
           end; reflexivity.
Qed.

Lemma check_exit_returns_same (self self' : t) (bar : QuantEngine.OHLC) :
  _check_exit self bar = Returned self' -> self' = self.
Proof.
  rewrite check_exit_cases. cbv zeta.
  match goal with |- (if ?c then _ else _) = _ -> _ => destruct c end;
    intro H; [discriminate H | injection H as <-; reflexivity].
Qed.

(** While bars are replayed nothing is booked: a pass that returns leaves
    the capital and the list of closed trades as they were and adds one
    point to the equity curve. *)
Lemma replay_bar_books_nothing
    (strategy_func : Strategy) (risk : float)
    (hist : list QuantEngine.OHLC) (bar : QuantEngine.OHLC) (self self' : t) :
  replay_bar strategy_func risk hist bar self = Returned self' ->
  initial_capital self' = initial_capital self
  /\ capital self' = capital self
  /\ trades self' = trades self
  /\ List.length (equity_curve self') = S (List.length (equity_curve self)).
Proof.
  unfold replay_bar. intro H.
  assert (G : forall mid : t,
             initial_capital mid = initial_capital self ->
             capital mid = capital self ->
             trades mid = trades self ->
             equity_curve mid = equity_curve self ->
             and_then (Returned mid)
               (fun self0 =>
                  Returned (make (initial_capital self0) (capital self0)
                              (trades self0)
                              (equity_curve self0
                               ++ [match current_position self0 with
                                   | Some _ =>
                                       capital self0
                                       + _calculate_unrealized_pnl self0
                                           (QuantEngine.close bar)
                                   | None => capital self0
                                   end])
                              (current_position self0)))
             = Returned self' ->
             initial_capital self' = initial_capital self
             /\ capital self' = capital self
             /\ trades self' = trades self
             /\ List.length (equity_curve self')
                = S (List.length (equity_curve self))).
  { intros mid A B C D E. cbn [and_then] in E. injection E as <-.
    cbn [initial_capital capital trades equity_curve].
    rewrite A, B, C, D, length_app. simpl. repeat split; lia. }
  destruct (current_position self) as [pos|] eqn:P.
  - destruct (_check_exit self bar) as [mid|e] eqn:C; [|discriminate H].
    apply check_exit_returns_same in C. subst mid.
    apply (G self); auto.
  - destruct (strategy_func hist) as [[[[d entry] sl] tp]|].
    + apply (G (_open_trade self d entry sl tp risk)); auto;
        unfold _open_trade; destruct (eqb _ 0); reflexivity.
    + apply (G self); auto.
Qed.

Lemma replay_books_nothing
    (strategy_func : Strategy) (risk : float) (df : list QuantEngine.OHLC) :
  forall (rest : list QuantEngine.OHLC) (i : nat) (self self' : t),
    replay strategy_func risk df i rest self = Returned self' ->
    initial_capital self' = initial_capital self
    /\ capital self' = capital self
    /\ trades self' = trades self
    /\ List.length (equity_curve self')
       = (List.length (equity_curve self) + List.length rest)%nat.
Proof.
  induction rest as [|bar rest IH]; intros i self self' H.
  - cbn [replay] in H. injection H as <-. simpl. repeat split; lia.
  - cbn [replay] in H.
    destruct (replay_bar strategy_func risk (firstn (i + 1) df) bar self)
      as [mid|e] eqn:B; [|discriminate H].
    cbn [and_then] in H.
    destruct (replay_bar_books_nothing _ _ _ _ _ _ B) as (A1 & A2 & A3 & A4).
    destruct (IH _ _ _ H) as (B1 & B2 & B3 & B4).
    rewrite B1, B2, B3, B4, A1, A2, A3, A4. simpl. repeat split; lia.
Qed.

(** A backtest that returns has closed at most one trade, the one still
    open after the last bar, at the last close; no trade is open
    afterwards, the capital is the initial capital plus the total pnl, and
    the equity curve has one point per replayed bar after the first. *)
Theorem completed_backtest_has_at_most_one_trade
    (self after : t) (df : list QuantEngine.OHLC) (strategy_func : Strategy)
    (risk : float) (res : BacktestResult) :
  run_backtest self df strategy_func risk = Returned (after, res) ->
  (total_trades res <= 1)%nat
  /\ total_trades res = List.length (trades after)
  /\ current_position after = None
  /\ capital after = initial_capital self + total_pnl res
  /\ List.length (equity_curve after) = (1 + (List.length df - 100))%nat
  /\ Forall (fun tr => exit_price tr
                       = Some (Np.item_back (map QuantEngine.close df) 1)
                       /\ status tr = "CLOSED")
       (trades after).
Proof.
  unfold run_backtest. intro H.
  destruct (replay strategy_func risk df 100 (skipn 100 df) (reset self))
    as [mid|e] eqn:R; [|discriminate H].
  cbn [and_then] in H.
  destruct (replay_books_nothing _ _ _ _ _ _ _ R) as (A1 & A2 & A3 & A4).
  cbn [reset initial_capital capital trades equity_curve List.length] in A1, A2, A3, A4.
  rewrite length_skipn in A4.
  destruct (current_position mid) as [pos|] eqn:P.
  - unfold set_exit_price, _close_position in H. rewrite P in H.
    cbn [with_position current_position exit_price and_then] in H.
    injection H as <- <-.
    cbn [trades capital current_position equity_curve initial_capital
         direction entry_price size].
    rewrite A3, A2. cbn [app].
    unfold _calculate_results. cbn [is_empty map pnl List.length total_trades total_pnl].
    split; [lia|]. split; [reflexivity|]. split; [reflexivity|].
    split; [unfold py_sum; cbn [fold_left]; to_Q; ring|].
    split; [rewrite A4; reflexivity|].
    repeat constructor.
  - cbn [and_then] in H. injection H as <- <-.
    rewrite A3, A2, P. cbn [_calculate_results is_empty total_trades total_pnl List.length].
    split; [lia|]. split; [reflexivity|]. split; [reflexivity|].
    split; [to_Q; ring|].
    split; [rewrite A4; reflexivity | constructor].
Qed.

(** [_check_exit] never closes a trade.  When the bar touches the stop or
    the target of the open trade, the call reaches [if bar:] on a row of
    the frame and raises [ValueError]; the same holds for the loop of
    [run_backtest] from that bar on. *)
Theorem check_exit_raises_on_touch
    (self : t) (bar : QuantEngine.OHLC) (pos : Trade) :
  current_position self = Some pos ->
  match direction pos with
  | LONG => QuantEngine.low bar <= stop_loss pos
            \/ take_profit pos <= QuantEngine.high bar
  | SHORT => stop_loss pos <= QuantEngine.high bar
             \/ QuantEngine.low bar <= take_profit pos
  end ->
  _check_exit self bar = Threw ValueError
  /\ forall strategy_func risk df i rest,
       replay strategy_func risk df i (bar :: rest) self = Threw ValueError.
Proof.
  intros P T.
  assert (C : _check_exit self bar = Threw ValueError).
  { rewrite check_exit_cases. cbv zeta. rewrite P.
    destruct (direction pos); destruct T as [T|T]; apply leb_le in T;
      rewrite T; cbn [orb]; try reflexivity;
      rewrite orb_true_r; reflexivity. }
  split; [exact C|].
  intros strategy_func risk df i rest.
  cbn [replay]. unfold replay_bar. rewrite P, C. reflexivity.
Qed.

Lemma check_exit_raises_on_touch_witness :
  _check_exit (make (f64 10000) (f64 10000) [] [f64 10000] (Some Examples.long_trade))
    (QuantEngine.candle 7 (f64 1.10) (f64 1.13) (f64 1.10) (f64 1.12) 10)
  = Threw ValueError.
Proof.
  apply (check_exit_raises_on_touch
           (make (f64 10000) (f64 10000) [] [f64 10000] (Some Examples.long_trade))
           (QuantEngine.candle 7 (f64 1.10) (f64 1.13) (f64 1.10) (f64 1.12) 10)
           Examples.long_trade eq_refl).
  right. intro X. discriminate X.
Defined.

Lemma completed_backtest_witness :
  exists after res,
    run_backtest (__init__ (f64 10000)) Examples.quiet_frame Examples.always_buy (f64 0.02)
    = Returned (after, res)
    /\ total_trades res = 1%nat
    /\ current_position after = None
    /\ List.length (equity_curve after) = 4%nat.
Proof.
  assert (E : exists after res,
             run_backtest (__init__ (f64 10000)) Examples.quiet_frame Examples.always_buy (f64 0.02)
             = Returned (after, res) /\ total_trades res = 1%nat)
    by (eexists; eexists; split; vm_compute; reflexivity).
  destruct E as (after & res & E & T).
  destruct (completed_backtest_has_at_most_one_trade _ _ _ _ _ _ E)
    as (_ & _ & P & _ & L & _).
  exists after, res. auto.
Defined.

End ReplayFacts.

(** ** Settings and the log buffer *)

Section SettingsFacts.

Import AutoTrader.
Open Scope list_scope.

Lemma removelast_firstn_len {A : Type} (l : list A) :
  removelast l = firstn (List.length l - 1) l.
Proof.
  induction l as [|x r IH]; [reflexivity|].
  destruct r as [|y r']; [reflexivity|].
  change (removelast (x :: y :: r')) with (x :: removelast (y :: r')).
  rewrite IH. simpl. rewrite Nat.sub_0_r. reflexivity.
Qed.

(** The log buffer holds the latest entries first and never more than a
    hundred of them. *)
Theorem add_log_keeps_latest_hundred
    (buffer : list Settings.LogEntry) (entry : Settings.LogEntry) :
  (List.length buffer <= 100)%nat ->
  Settings.add_log buffer entry = firstn 100 (entry :: buffer)
  /\ (List.length (Settings.add_log buffer entry) <= 100)%nat
  /\ hd_error (Settings.add_log buffer entry) = Some entry.
Proof.
  intro H. unfold Settings.add_log. cbv zeta.
  destruct (Nat.ltb 100 (List.length (entry :: buffer))) eqn:E.
  - apply Nat.ltb_lt in E. cbn [List.length] in E.
    assert (L : List.length buffer = 100%nat) by lia.
    rewrite removelast_firstn_len. cbn [List.length]. rewrite L.
    split; [reflexivity|].
    split; [rewrite length_firstn; cbn [List.length]; lia | reflexivity].
  - apply Nat.ltb_ge in E.
    split; [symmetry; apply firstn_all2; exact E|].
    split; [exact E | reflexivity].
Qed.

Lemma add_log_keeps_latest_hundred_witness :
  let e := Settings.log_entry "2026-01-05T09:30:00" "QUANT" "Setup Found" "info" in
  List.length (Settings.add_log (repeat e 100) e) = 100%nat.
Proof.
  intro e.
  destruct (add_log_keeps_latest_hundred (repeat e 100) e) as (E & _ & _).
  - rewrite repeat_length. lia.
  - rewrite E. reflexivity.
Defined.


Section SettingsReach.

Variable np_sqrt : float -> float.
Variable pow_half : float -> float.



End SettingsReach.


End SettingsFacts.

(** ** The trader: analysis, start-up and position maintenance *)

Section TraderFacts.

Import AutoTrader.
Open Scope list_scope.

Ltac no_such_call :=
  cbn [snd fst emit done In];
  repeat match goal with
         | |- ~ _ => intro
         | |- forall _, _ => intro
         | H : _ \/ _ |- _ => destruct H
         | H : False |- _ => destruct H
         | H : @eq Event _ _ |- _ => discriminate H
         | H : @eq (Step * Call) _ _ |- _ => discriminate H
         | H : @eq Outcome _ _ |- _ => discriminate H
         end.

Section ExecutionNeverReached.

Variable np_sqrt : float -> float.
Variable pow_half : float -> float.

(** The probability check ends every analysis that reaches it. *)
Lemma probability_step_fails w symbol signal ai_confidence :
  probability_step np_sqrt pow_half w symbol signal ai_confidence
  = emit (CHECK PROBABILITY_CHECK, PredictProbability)
      (done (Failed UnboundLocalError)).
Proof.
  unfold probability_step.
  set (features := [("hour", of_int (hour w)); _]).
  assert (E : MLEngine.predict_probability symbol features
              = Raise UnboundLocalError).
  { clearbody features.
    unfold MLEngine.predict_probability, MLEngine.iadd, MLEngine.load, bind.
    repeat match goal with
           | |- context [if ?c then _ else _] => destruct c
           end; reflexivity. }
  rewrite E. reflexivity.
Qed.

(** No analysis gets as far as the news filter, the spread check or the
    execution step: none of their calls is made, no trade is handed to
    execution, and the time of the last signal is never recorded. *)
Theorem analysis_never_reaches_execution self w symbol :
  let r := _analyze_market np_sqrt pow_half self w symbol in
  (forall t, fst (snd r) <> Handed t)
  /\ (forall st c, In (st, c) (snd (snd r)) -> (step_index st <= 4)%nat)
  /\ last_signal_time (fst r) = last_signal_time self.
Proof.
  intro r. subst r.
  assert (R : (forall t, fst (snd (_analyze_market np_sqrt pow_half self w symbol))
                         <> Handed t)
              /\ (forall st c,
                     In (st, c)
                       (snd (snd (_analyze_market np_sqrt pow_half self w symbol))) ->
                     (step_index st <= 4)%nat)).
  { rewrite analyze_market_run.
    assert (S : forall st c (l : list Event),
               In (st, c) l ->
               Forall (fun ev => (step_index (fst ev) <= 4)%nat) l ->
               (step_index st <= 4)%nat).
    { intros st c l Hin F. rewrite Forall_forall in F. exact (F _ Hin). }
    assert (G : forall run : Run,
               (forall t, fst run <> Handed t) ->
               Forall (fun ev => (step_index (fst ev) <= 4)%nat) (snd run) ->
               (forall t, fst run <> Handed t)
               /\ (forall st c, In (st, c) (snd run) -> (step_index st <= 4)%nat)).
    { intros run A B. split; [exact A|]. intros st c Hin. exact (S st c _ Hin B). }
    destruct (negb (feed_connected w));
      [apply G; [no_such_call | repeat constructor]|].
    destruct (PyDict.contains _ symbol);
      [apply G; [no_such_call | repeat constructor]|].
    destruct (ltb _ (signal_cooldown self));
      [apply G; [no_such_call | repeat constructor]|].
    destruct (Nat.ltb _ 50);
      [apply G; [no_such_call | repeat constructor]|].
    destruct (existsb _ _);
      [apply G; [no_such_call | repeat constructor]|].
    destruct (QuantEngine.generate_signal _ _ _ _ _) as [[signal|]|e];
      [|apply G; [no_such_call | repeat constructor]..].
    destruct (String.eqb _ "NEUTRAL");
      [apply G; [no_such_call | repeat constructor]|].
    unfold run_pipeline.
    match goal with |- context [if ?c then _ else _] => destruct c end;
      [apply G; [no_such_call | repeat constructor; simpl; lia]|].
    match goal with |- context [if ?c then _ else _] => destruct c end;
      [apply G; [no_such_call | repeat constructor; simpl; lia]|].
    unfold advisor_step.
    destruct (QuantEngine.detect_regime _ _) as [regime|e];
      [|apply G; [no_such_call | repeat constructor; simpl; lia]].
    destruct (AIAgent.validate_signal _ _ _) as [[a d] q].
    match goal with |- context [if ?c then _ else _] => destruct c end;
      [apply G; [no_such_call | repeat constructor; simpl; lia]|].
    match goal with |- context [if ?c then _ else _] => destruct c end;
      [apply G; [no_such_call | repeat constructor; simpl; lia]|].
    rewrite probability_step_fails.
    apply G; [no_such_call | repeat constructor; simpl; lia]. }
  destruct R as [R1 R2]. split; [exact R1|]. split; [exact R2|].
  revert R1. unfold _analyze_market.
  destruct (negb (feed_connected w)); [reflexivity|].
  destruct (PyDict.contains _ symbol); [reflexivity|].
  cbn [last_signal_time signal_cooldown].
  destruct (ltb _ (signal_cooldown self)); [reflexivity|].
  match goal with
  | |- context [match fst ?r with _ => _ end] =>
      destruct (fst r) eqn:F; cbn [fst snd last_signal_time]; intro R1;
        try reflexivity
  end.
  exfalso. eapply R1. exact F.
Qed.

Lemma validate_signal_usable self recheck llm :
  AIAgent.usable self recheck = true ->
  exists self',
    AIAgent.validate_signal self recheck llm
    = (self',
       match llm with
       | AIAgent.LlmJson d => d
       | AIAgent.LlmText true _ =>
           AIAgent.decision_dict (Some "BUY") (Some (f64 0.5))
             (Some "AI approved (parsed from text)")
       | AIAgent.LlmText false true =>
           AIAgent.decision_dict (Some "SELL") (Some (f64 0.5))
             (Some "AI approved (parsed from text)")
       | AIAgent.LlmText false false => AIAgent.hold "AI response unclear"
       | AIAgent.LlmFailed =>
           AIAgent.hold
             "AI validation failed - cannot proceed without AI Brain approval."
       end,
       true).
Proof.
  unfold AIAgent.usable, AIAgent.validate_signal. intro H.
  apply andb_true_iff in H. destruct H as [H1 H2]. rewrite H1. cbn [negb].
  destruct (AIAgent.name_in (AIAgent.model self) (AIAgent.loaded_models self))
    eqn:N; cbn [negb].
  - rewrite N. cbn [negb]. eexists. reflexivity.
  - cbn [orb] in H2.
    assert (Hm : AIAgent.model (AIAgent._check_ollama_health self recheck)
                 = AIAgent.model self)
      by (destruct recheck as [|[|] names]; reflexivity).
    rewrite Hm, H2. cbn [negb]. eexists. reflexivity.
Qed.

(** A reply of the model that is not JSON but holds the word BUY counts as
    an approval at confidence 0.5, and 0.5 is not below the floor of the
    advisor check: a BUY signal passes it and the analysis goes on to the
    probability check.  A reply holding SELL and not BUY does the same for
    a SELL signal. *)
Theorem free_text_reply_passes_advisor_check
    (w : World) (symbol : string) (signal : QuantEngine.SignalStrength.t)
    (regime : QuantEngine.MarketRegime) (has_buy has_sell : bool) :
  AIAgent.usable (agent w) (recheck w) = true ->
  QuantEngine.detect_regime np_sqrt (candles w) = Ok regime ->
  llm w = AIAgent.LlmText has_buy has_sell ->
  (has_buy = true /\ QuantEngine.SignalStrength.direction signal = "BUY"
   \/ has_buy = false /\ has_sell = true
      /\ QuantEngine.SignalStrength.direction signal = "SELL") ->
  let run := advisor_step np_sqrt pow_half w symbol signal in
  In (CHECK ADVISOR_CHECK, BroadcastLog "BRAIN" "success") (snd run)
  /\ In (CHECK PROBABILITY_CHECK, PredictProbability) (snd run)
  /\ fst run <> Rejected ADVISOR_CHECK.
Proof.
  intros Hu Hr Hl Hd run. subst run. unfold advisor_step. rewrite Hr.
  destruct (validate_signal_usable (agent w) (recheck w) (llm w) Hu) as [a Hv].
  rewrite Hv, Hl. clear Hv.
  destruct Hd as [[-> Hd] | (-> & -> & Hd)]; rewrite Hd;
    cbn [AIAgent.confidence AIAgent.decision];
    replace (ltb (f64 0.5) (f64 0.5)) with false by reflexivity;
    cbn [orb String.eqb Ascii.eqb Bool.eqb negb];
    rewrite probability_step_fails;
    (split; [cbn; tauto|]); (split; [cbn; tauto|]);
    cbn; intro X; discriminate X.
Qed.

End ExecutionNeverReached.

Lemma free_text_reply_passes_advisor_check_witness :
  let run :=
    advisor_step Examples.sqrt_8dp Examples.sqrt_8dp Examples.prose_world
      "EURUSD" Examples.buy_signal in
  In (CHECK ADVISOR_CHECK, BroadcastLog "BRAIN" "success") (snd run)
  /\ In (CHECK PROBABILITY_CHECK, PredictProbability) (snd run)
  /\ fst run <> Rejected ADVISOR_CHECK.
Proof.
  apply (free_text_reply_passes_advisor_check Examples.sqrt_8dp
           Examples.sqrt_8dp Examples.prose_world "EURUSD" Examples.buy_signal
           QuantEngine.VOLATILE true false).
  - vm_compute. reflexivity.
  - vm_compute. reflexivity.
  - reflexivity.
  - left. split; reflexivity.
Defined.
(** A stopped trader starts only when everything it needs is there: the
    call either raises [RuntimeError] and leaves it stopped, or returns
    with the trader running, the feed connected, Ollama ready and the
    configured AIAgent.model among the loaded ones. *)
Theorem start_engages_only_when_ready
    (feed_connected : bool) (agent : AIAgent.t) (launch : option AIAgent.TagsReply) :
  let '(running, agent', r) := start false feed_connected agent launch in
  (r = Ok tt
   /\ running = true
   /\ feed_connected = true
   /\ AIAgent.ollama_ready agent' = true
   /\ AIAgent.name_in (AIAgent.model agent') (AIAgent.loaded_models agent') = true)
  \/ (r = Raise RuntimeError /\ running = false
      /\ (feed_connected = false
          \/ AIAgent.ollama_ready agent' = false
          \/ AIAgent.name_in (AIAgent.model agent') (AIAgent.loaded_models agent') = false)).
Proof.
  unfold start, _validate_system_ready, AIAgent.start_ollama_service, AIAgent.get_status.
  destruct feed_connected; cbn -[AIAgent.name_in AIAgent._check_ollama_health];
    [|right; auto].
  destruct (AIAgent.ollama_ready agent) eqn:R; cbn -[AIAgent.name_in AIAgent._check_ollama_health].
  - destruct (AIAgent.name_in (AIAgent.model agent) (AIAgent.loaded_models agent)) eqn:N;
      cbn -[AIAgent.name_in AIAgent._check_ollama_health]; [left | right]; auto 8.
  - destruct launch as [reply|];
      [|cbn -[AIAgent.name_in AIAgent._check_ollama_health]; right; auto].
    destruct (AIAgent.ollama_ready (AIAgent._check_ollama_health agent reply)) eqn:R';
      cbn -[AIAgent.name_in AIAgent._check_ollama_health]; [|right; auto 8].
    destruct (AIAgent.name_in (AIAgent.model (AIAgent._check_ollama_health agent reply))
                (AIAgent.loaded_models (AIAgent._check_ollama_health agent reply))) eqn:N;
      cbn -[AIAgent.name_in AIAgent._check_ollama_health]; [left | right]; auto 8.
Qed.

Lemma get_live_prices (get_live_price : string -> option (float * float))
    (symbols : list string) (acc : PyDict.t float) (s : string) :
  PyDict.get
    (fold_left
       (fun prices symbol =>
          match get_live_price symbol with
          | Some (bid, _) => PyDict.set prices symbol bid
          | None => prices
          end)
       symbols acc) s
  = if existsb (String.eqb s) symbols
    then match get_live_price s with
         | Some (bid, _) => Some bid
         | None => PyDict.get acc s
         end
    else PyDict.get acc s.
Proof.
  revert acc. induction symbols as [|k r IH]; intro acc; [reflexivity|].
  cbn [fold_left existsb]. rewrite IH.
  destruct (String.eqb s k) eqn:E.
  - apply String.eqb_eq in E. subst k. cbn [orb].
    destruct (get_live_price s) as [[bid ask]|];
      [rewrite get_set_same|]; destruct (existsb _ r); reflexivity.
  - cbn [orb].
    assert (N : s <> k) by (intros ->; rewrite String.eqb_refl in E; discriminate E).
    destruct (get_live_price k) as [[bid ask]|];
      [rewrite (get_set_other _ _ _ _ N)|]; reflexivity.
Qed.

Lemma existsb_ext_In {A : Type} (f g : A -> bool) (l : list A) :
  (forall x, In x l -> f x = g x) -> existsb f l = existsb g l.
Proof.
  induction l as [|x r IH]; intro H; [reflexivity|].
  cbn [existsb]. rewrite (H x) by (left; reflexivity).
  rewrite IH; [reflexivity|]. intros y Hy. apply H. right. exact Hy.
Qed.

Lemma existsb_keys {V : Type} (d : PyDict.t V) (s : string) (v : V) :
  PyDict.get d s = Some v -> existsb (String.eqb s) (PyDict.keys d) = true.
Proof.
  intro H. apply existsb_exists. exists s. split; [|apply String.eqb_refl].
  clear - H. induction d as [|[k' v'] r IH]; simpl in *; [discriminate|].
  destruct (String.eqb s k') eqn:E.
  - apply String.eqb_eq in E. auto.
  - right. apply IH. exact H.
Qed.

(** The trading loop values ExecutionEngine.positions at the bid: [_update_positions]
    quotes exactly the open symbols that have a live tick, each at its
    bid, and ends in [RuntimeError] exactly when one of them is through
    its stop or target at that bid. *)
Theorem live_update_values_positions_at_bid
    (engine : ExecutionEngine.t)
    (get_live_price : string -> option (float * float)) :
  NoDup (PyDict.keys (ExecutionEngine.positions engine)) ->
  let prices := live_prices (PyDict.keys (ExecutionEngine.positions engine)) get_live_price in
  (forall symbol pos,
      PyDict.get (ExecutionEngine.positions engine) symbol = Some pos ->
      PyDict.get prices symbol
      = match get_live_price symbol with
        | Some (bid, _) => Some bid
        | None => None
        end)
  /\ (forall symbol,
         PyDict.get (ExecutionEngine.positions engine) symbol = None ->
         PyDict.get prices symbol = None)
  /\ snd (_update_positions engine get_live_price)
     = if existsb
            (fun sp =>
               match get_live_price (fst sp) with
               | Some (bid, _) =>
                   ExecutionEngine.stop_or_target_hit (ExecutionEngine.mark_to_market (snd sp) bid)
               | None => false
               end)
            (ExecutionEngine.positions engine)
       then Raise RuntimeError
       else Ok tt.
Proof.
  intros Hnd prices.
  assert (A : forall symbol pos,
             PyDict.get (ExecutionEngine.positions engine) symbol = Some pos ->
             PyDict.get prices symbol
             = match get_live_price symbol with
               | Some (bid, _) => Some bid
               | None => None
               end).
  { intros symbol pos Hg. subst prices. unfold live_prices.
    rewrite get_live_prices, (existsb_keys _ _ _ Hg).
    destruct (get_live_price symbol) as [[bid ask]|]; reflexivity. }
  split; [exact A|]. split.
  { intros symbol Hg. subst prices. unfold live_prices.
    rewrite get_live_prices.
    destruct (existsb (String.eqb symbol) (PyDict.keys (ExecutionEngine.positions engine))) eqn:E;
      [|reflexivity].
    apply existsb_exists in E. destruct E as (k & Hin & Hk).
    apply String.eqb_eq in Hk. subst k.
    exfalso. exact (get_None_notin _ _ Hg Hin). }
  unfold _update_positions. fold prices.
  assert (E : existsb
                (fun sp =>
                   match get_live_price (fst sp) with
                   | Some (bid, _) =>
                       ExecutionEngine.stop_or_target_hit (ExecutionEngine.mark_to_market (snd sp) bid)
                   | None => false
                   end)
                (ExecutionEngine.positions engine)
              = ExecutionEngine.any_hit prices (ExecutionEngine.positions engine)).
  { unfold ExecutionEngine.any_hit. apply existsb_ext_In. intros [s pos] Hin. cbn [fst snd].
    rewrite (A s pos) by (apply get_In; assumption).
    destruct (get_live_price s) as [[bid ask]|]; reflexivity. }
  rewrite E.
  destruct (update_positions_cases engine prices Hnd) as [R O].
  destruct (ExecutionEngine.any_hit prices (ExecutionEngine.positions engine)).
  - apply R. reflexivity.
  - rewrite O by reflexivity. reflexivity.
Qed.

Lemma live_update_witness :
  PyDict.get
    (live_prices (PyDict.keys (ExecutionEngine.positions Examples.two_open)) Examples.bids_only_eurusd)
    "EURUSD" = Some (f64 1.125)
  /\ PyDict.get
       (live_prices (PyDict.keys (ExecutionEngine.positions Examples.two_open)) Examples.bids_only_eurusd)
       "GBPUSD" = None
  /\ snd (_update_positions Examples.two_open Examples.bids_only_eurusd)
     = Raise RuntimeError.
Proof.
  destruct (live_update_values_positions_at_bid Examples.two_open
              Examples.bids_only_eurusd two_open_keys) as (A & _ & C).
  split; [exact (A "EURUSD" Examples.eurusd eq_refl)|].
  split; [exact (A "GBPUSD" Examples.gbpusd eq_refl)|].
  rewrite C. reflexivity.
Defined.

End TraderFacts.

(** ** Compounding *)

(** [round] is monotone, ties to even included. *)
Lemma py_round_monotone (x y : float) : x <= y -> (py_round x <= py_round y)%Z.
Proof.
  intro H.
  assert (F : (Qfloor x <= Qfloor y)%Z) by (apply Qfloor_resp_le; exact H).
  destruct (Z.eq_dec (Qfloor x) (Qfloor y)) as [E|N].
  - unfold py_round. rewrite <- E.
    destruct (x - of_int (Qfloor x) ?= f64 0.5) eqn:A;
      destruct (y - of_int (Qfloor x) ?= f64 0.5) eqn:B;
      try (destruct (Z.even (Qfloor x))); try lia; exfalso;
      repeat match goal with
             | H : (_ ?= _) = Eq |- _ => apply Qceq_alt in H
             | H : (_ ?= _) = Lt |- _ => apply Qclt_alt in H
             | H : (_ ?= _) = Gt |- _ => apply Qcgt_alt in H
             end;
      to_Q; lra.
  - assert (L : (py_round x <= Qfloor x + 1)%Z)
      by (destruct (py_round_floor x) as [-> | [-> _]]; lia).
    assert (U : (Qfloor y <= py_round y)%Z)
      by (destruct (py_round_floor y) as [-> | [-> _]]; lia).
    lia.
Qed.

Lemma py_round2_monotone (x y : float) : x <= y -> py_round2 x <= py_round2 y.
Proof.
  intro H. unfold py_round2.
  assert (M : (py_round (x * of_int 100) <= py_round (y * of_int 100))%Z).
  { apply py_round_monotone. to_Q. unfold inject_Z. lra. }
  apply of_int_le in M. to_Q. unfold inject_Z in *.
  apply Qmult_le_compat_r; [exact M|]. apply Qlt_le_weak. reflexivity.
Qed.

Lemma py_round2_nonneg (x : float) : 0 <= x -> 0 <= py_round2 x.
Proof.
  intro H. unfold py_round2.
  assert (M : (0 <= py_round (x * of_int 100))%Z).
  { apply py_round_lower. to_Q. unfold inject_Z. lra. }
  apply div_nonneg; [|apply of_int_pos; lia].
  change 0 with (of_int 0). apply of_int_le. exact M.
Qed.

Section Compounding.

Variable pow_half : float -> float.
Hypothesis pow_half_nonneg : forall x, 0 <= pow_half x.

(** Drawdown protection only scales the lot down: for a drawdown between
    0 and 100 percent the compounded lot is not negative and not above the
    lot the same equity gives without drawdown. *)
Theorem drawdown_never_raises_the_lot (base_lot equity drawdown : float) :
  0 <= base_lot -> 0 <= drawdown -> drawdown <= of_int 100 ->
  0 <= MLEngine.calculate_compounding_lot pow_half base_lot equity drawdown
  /\ MLEngine.calculate_compounding_lot pow_half base_lot equity drawdown
     <= MLEngine.calculate_compounding_lot pow_half base_lot equity 0.
Proof.
  intros Hb Hd0 Hd1. unfold MLEngine.calculate_compounding_lot.
  set (g := if ltb (of_int 10000) equity
            then pow_half (equity / of_int 10000) else f64 1.0).
  assert (Hg : 0 <= g).
  { subst g. destruct (ltb (of_int 10000) equity);
      [apply pow_half_nonneg | intro X; discriminate X]. }
  clearbody g.
  replace (ltb (f64 2.0) 0) with false by reflexivity.
  assert (Hbg : 0 <= base_lot * g) by (apply mult_nonneg; assumption).
  destruct (ltb (f64 2.0) drawdown) eqn:E.
  - assert (F0 : 0 <= 1 - drawdown / of_int 100).
    { to_Q. unfold inject_Z in *.
      assert (drawdown / 100 <= 1)%Q by (apply Qle_shift_div_r; lra). lra. }
    assert (F1 : 1 - drawdown / of_int 100 <= 1).
    { to_Q. unfold inject_Z in *.
      assert (0 <= drawdown / 100)%Q by (apply Qle_shift_div_l; lra). lra. }
    set (f := 1 - drawdown / of_int 100) in *. clearbody f.
    assert (P : 0 <= base_lot * (g * f)).
    { apply mult_nonneg; [exact Hb|]. apply mult_nonneg; assumption. }
    split; [apply py_round2_nonneg; exact P|].
    apply py_round2_monotone.
    assert (Q : 0 <= base_lot * g * (1 - f)).
    { apply mult_nonneg; [exact Hbg | to_Q; lra]. }
    to_Q. lra.
  - split; [apply py_round2_nonneg; exact Hbg | apply Qcle_refl].
Qed.

End Compounding.

Lemma sqrt_8dp_nonneg (x : float) : 0 <= Examples.sqrt_8dp x.
Proof.
  unfold Examples.sqrt_8dp. to_Q.
  unfold Qle. simpl. rewrite Z.mul_1_r. apply Z.sqrt_nonneg.
Qed.

Lemma drawdown_never_raises_the_lot_witness :
  0 <= MLEngine.calculate_compounding_lot Examples.sqrt_8dp (f64 0.10)
         (f64 40000) (f64 10)
  /\ MLEngine.calculate_compounding_lot Examples.sqrt_8dp (f64 0.10)
       (f64 40000) (f64 10)
     <= MLEngine.calculate_compounding_lot Examples.sqrt_8dp (f64 0.10)
          (f64 40000) 0.
Proof.
  apply (drawdown_never_raises_the_lot Examples.sqrt_8dp sqrt_8dp_nonneg
           (f64 0.10) (f64 40000) (f64 10));
    intro X; discriminate X.
Defined.
